(** * Inventory backend: handover lifecycle, stock ledger, product
      re-sequencing and role-derived permissions

    A shallow embedding of the Express/Mongoose backend:
    - [models/HandOver.js], [models/Product.js], [models/User.js] become
      records with their schema validators and pre-save hooks;
    - the route callbacks of [routes/handovers.js] and [routes/products.js]
      become computations in a small state-and-exception monad over the
      document store;
    - the claims of the specification are stated and settled after the
      model; further properties of the same code follow them: the life of a
      handover record, access control, the read routes, product numbers,
      and the administration of accounts ([middleware/auth.js],
      [routes/users.js]).

    Modelling conventions.
    - A JavaScript number is an exact number: an integer is a [Z], a number
      of a request body that may have a fraction is a rational [Q].  The
      rounding of doubles is left out, and with it the exponent notation
      that [String(n)] switches to from 1e21 upwards.
    - A quantity that a route validates with [isInt] and then only compares,
      subtracts or hands to a Number path is an integer ([Z]): a numeral
      string there behaves as the number it stands for.  Where a route adds
      with [+] or [+=] ([returnQuantity]), or validates nothing
      ([quantity] of the stock route), the body value is modelled as it
      comes, a number or a string ([Json]).
    - [page] and [limit] of the list query are numerals of integers, and
      [limit] is not negative.
    - An ObjectId is a natural number; every id in a request is a well-formed
      ObjectId (no cast error).
    - [new Date()] reads a logical clock kept in the store; it advances by one
      after every request.
    - Requests arrive one at a time (no interleaving of two callbacks).
    - Text is a [string] of one-byte characters; [trim] strips the blanks
      among them, the no-break space included.
    - [save()] validates the whole document against its schema and throws on
      a failure; a route's [catch] turns what was thrown into its answer.
    - The employee return route keeps a running total in [returnedQuantity],
      which is not a path of the HandOver schema; the store is parameterised
      by whether such a property survives [save()] ([keepUndeclared]), and
      the results are proved for both settings.
    - Price, image, tag, unit and product-status fields carry no behaviour the
      claims mention and are left out of [Product]; a product request is taken
      to pass the checks on those fields.
    - Of a user the password, phone, avatar and login time are left out; the
      account routes modelled do not write them.  A token is what
      [jwt.verify] makes of it. *)

From Stdlib Require Import ZArith List Bool String Ascii Lia Arith PeanoNat.
From Stdlib Require Import DecimalString QArith.
Import ListNotations.
Open Scope string_scope.
Open Scope Z_scope.

(* ===================================================================== *)
(** ** JavaScript and Mongoose primitives *)
(* ===================================================================== *)

Definition ObjectId := nat.
Definition Date := nat.

(** [a || b] on an optional value whose present values are all truthy. *)
Definition orElse {A} (a : option A) (b : A) : A :=
  match a with Some x => x | None => b end.

(** [s || d] on an optional string: [undefined] and [''] are falsy. *)
Definition strOr (s : option string) (d : string) : string :=
  match s with
  | Some EmptyString | None => d
  | Some x => x
  end.

(** A value interpolated in a template literal. *)
Definition interp (s : option string) : string := orElse s "undefined".

(** The blanks of [String.prototype.trim] among the one-byte characters:
    tab, line feed, vertical tab, form feed, carriage return, space and the
    no-break space. *)
Definition isSpace (c : ascii) : bool :=
  match nat_of_ascii c with
  | 9%nat | 10%nat | 11%nat | 12%nat | 13%nat | 32%nat | 160%nat => true
  | _ => false
  end.

Fixpoint trimStart (s : string) : string :=
  match s with
  | String c s' => if isSpace c then trimStart s' else s
  | EmptyString => EmptyString
  end.

Fixpoint revOnto (s acc : string) : string :=
  match s with
  | String c s' => revOnto s' (String c acc)
  | EmptyString => acc
  end.

Definition reverse (s : string) : string := revOnto s EmptyString.

(** [String.prototype.trim], the setter of every [trim: true] path. *)
Definition trim (s : string) : string := reverse (trimStart (reverse (trimStart s))).

Definition slen (s : string) : Z := Z.of_nat (String.length s).

(** Schema validator [maxlength: [n, _]]; skipped on [undefined]. *)
Definition maxlength (n : Z) (s : option string) : bool :=
  match s with Some x => slen x <=? n | None => true end.

(** express-validator [body(f).optional().isLength({ max: n })]. *)
Definition optionalIsLength (n : Z) (s : option string) : bool := maxlength n s.

(** express-validator [body(f).notEmpty()]: fails on a missing or empty value. *)
Definition notEmpty (s : option string) : bool :=
  match s with
  | Some EmptyString | None => false
  | Some _ => true
  end.

(** express-validator [isInt({ min: m })] on an integer. *)
Definition isIntMin (m q : Z) : bool := m <=? q.

Definition eqId (a b : ObjectId) : bool := Nat.eqb a b.

(* --------------------------------------------------------------------- *)
(** *** Numbers and their conversions *)

(** A whole number in a template literal, and [String(n)]. *)
Definition showZ (z : Z) : string := NilZero.string_of_int (Z.to_int z).

(** A JavaScript number that a conversion gives. *)
Inductive Numeric :=
| Finite (q : Q)
| Infinite (negative : bool)
| NaN.

(** A rational without a fractional part, and the integer part of a
    rational (towards zero). *)
Definition isWhole (q : Q) : bool := Z.rem (Qnum q) (Z.pos (Qden q)) =? 0.
Definition truncate (q : Q) : Z := Z.quot (Qnum q) (Z.pos (Qden q)).

(** The value of a character as a digit ([a] is ten), below a radix. *)
Definition digitValue (c : ascii) : option Z :=
  let n := Z.of_nat (nat_of_ascii c) in
  if (48 <=? n) && (n <=? 57) then Some (n - 48)
  else if (97 <=? n) && (n <=? 122) then Some (n - 87)
  else if (65 <=? n) && (n <=? 90) then Some (n - 55)
  else None.

Definition digitOf (radix : Z) (c : ascii) : option Z :=
  match digitValue c with
  | Some d => if d <? radix then Some d else None
  | None => None
  end.

(** The digits at the start of a text: their value, their number, and
    what follows them. *)
Fixpoint readDigits (radix acc : Z) (count : nat) (s : string) : Z * nat * string :=
  match s with
  | String c rest =>
      match digitOf radix c with
      | Some d => readDigits radix (acc * radix + d) (S count) rest
      | None => (acc, count, s)
      end
  | EmptyString => (acc, count, s)
  end.

(** An optional sign: whether it is a minus, and what follows it. *)
Definition readSign (s : string) : bool * string :=
  match s with
  | String "-" rest => (true, rest)
  | String "+" rest => (false, rest)
  | _ => (false, s)
  end.

Definition isEmptyText (s : string) : bool :=
  match s with EmptyString => true | _ => false end.

(** [10^e] for an exponent of either sign. *)
Definition pow10 (e : Z) : Q :=
  if 0 <=? e then inject_Z (10 ^ e) else 1 # Z.to_pos (10 ^ (- e)).

Definition signed (negative : bool) (q : Q) : Q := if negative then Qopp q else q.

(** [ExponentPart] at the start of what follows the digits: the exponent
    when the rest is an exponent part and nothing more, [0] when nothing
    follows. *)
Definition readExponent (s : string) : option Z :=
  match s with
  | EmptyString => Some 0
  | String c rest =>
      if Ascii.eqb c "e" || Ascii.eqb c "E" then
        let (negative, digits) := readSign rest in
        let '(e, n, rest') := readDigits 10 0 0 digits in
        if (0 <? n)%nat && isEmptyText rest'
        then Some (if negative then - e else e)
        else None
      else None
  end.

(** [StrUnsignedDecimalLiteral], after the sign. *)
Definition readDecimal (negative : bool) (s : string) : Numeric :=
  if String.eqb s "Infinity" then Infinite negative
  else
    let '(int, ni, afterInt) := readDigits 10 0 0 s in
    let '(frac, nf, afterFrac) :=
      match afterInt with
      | String "." rest => readDigits 10 0 0 rest
      | _ => (0, O, afterInt)
      end in
    match readExponent afterFrac with
    | Some e =>
        if (0 <? ni + nf)%nat
        then Finite (signed negative
                       (inject_Z (int * 10 ^ Z.of_nat nf + frac)
                        * pow10 (e - Z.of_nat nf)))
        else NaN
    | None => NaN
    end.

(** The prefix of a [NonDecimalIntegerLiteral]: its radix and the rest. *)
Definition readRadix (s : string) : option (Z * string) :=
  match s with
  | String "0" (String c rest) =>
      if Ascii.eqb c "x" || Ascii.eqb c "X" then Some (16, rest)
      else if Ascii.eqb c "o" || Ascii.eqb c "O" then Some (8, rest)
      else if Ascii.eqb c "b" || Ascii.eqb c "B" then Some (2, rest)
      else None
  | _ => None
  end.

(** [Number(text)], the conversion of a string to a number
    ([StringToNumber]): blanks around the literal are dropped, the empty
    text is [0], and a text that is no numeric literal is [NaN]. *)
Definition StringToNumber (s : string) : Numeric :=
  let text := trim s in
  if isEmptyText text then Finite 0
  else
    match readRadix text with
    | Some (radix, digits) =>
        let '(v, n, rest) := readDigits radix 0 0 digits in
        if (0 <? n)%nat && isEmptyText rest then Finite (inject_Z v) else NaN
    | None =>
        let (negative, literal) := readSign text in
        readDecimal negative literal
    end.

(** [x <= n], [x >= n] and [x > n] for a number [n]: false on [NaN]. *)
Definition atMost (x : Numeric) (n : Z) : bool :=
  match x with
  | Finite q => Qle_bool q (inject_Z n)
  | Infinite negative => negative
  | NaN => false
  end.

Definition atLeast (x : Numeric) (n : Z) : bool :=
  match x with
  | Finite q => Qle_bool (inject_Z n) q
  | Infinite negative => negb negative
  | NaN => false
  end.

Definition above (x : Numeric) (n : Z) : bool :=
  match x with
  | Finite q => negb (Qle_bool q (inject_Z n))
  | Infinite negative => negb negative
  | NaN => false
  end.

(** [parseInt(text)]: blanks in front are dropped, then a sign, then [0x]
    selects radix 16; the digits that follow are read and the rest is
    ignored; [None] is [NaN], the answer when no digit follows. *)
Definition parseIntText (s : string) : option Z :=
  let (negative, unsigned) := readSign (trimStart s) in
  let (radix, digits) :=
    match unsigned with
    | String "0" (String c rest) =>
        if Ascii.eqb c "x" || Ascii.eqb c "X" then (16, rest) else (10, unsigned)
    | _ => (10, unsigned)
    end in
  let '(v, n, _) := readDigits radix 0 0 digits in
  if (0 <? n)%nat then Some (if negative then - v else v) else None.

(** The first significant digit of [n / d], for [0 < n < d]. *)
Fixpoint firstDigit (fuel : nat) (n d : Z) : Z :=
  match fuel with
  | O => 0
  | S fuel' => if d <=? 10 * n then (10 * n) / d else firstDigit fuel' (10 * n) d
  end.

(** [parseInt(number)] reads the decimal notation of the number: the digits
    before the point.  Below [1e-6] JavaScript writes a number with an
    exponent ([5e-7]), and [parseInt] reads its first digit. *)
Definition parseIntNumber (q : Q) : Z :=
  let n := Z.abs (Qnum q) in
  let d := Z.pos (Qden q) in
  if (0 <? n) && (n * 10 ^ 6 <? d)
  then Z.sgn (Qnum q) * firstDigit (S (Pos.size_nat (Qden q))) n d
  else truncate q.

(* --------------------------------------------------------------------- *)
(** *** Values of a request body *)

(** What [express.json()] and [express.urlencoded()] leave in [req.body]
    for a field that no sanitizer converts: a number or a string. *)
Inductive Json :=
| Number (q : Q)
| Text (s : string).

(** A whole number in a request body. *)
Definition whole (z : Z) : Json := Number (inject_Z z).

(** [!v] is false. *)
Definition truthy (v : Json) : bool :=
  match v with
  | Number q => negb (Qnum q =? 0)
  | Text s => negb (isEmptyText s)
  end.

Definition ToNumber (v : Json) : Numeric :=
  match v with
  | Number q => Finite q
  | Text s => StringToNumber s
  end.

Definition parseInt (v : Json) : option Z :=
  match v with
  | Number q => Some (parseIntNumber q)
  | Text s => parseIntText s
  end.

(** The pattern of validator.js [isInt]: an optional sign and digits. *)
Definition isIntText (s : string) : bool :=
  let (_, unsigned) := readSign s in
  let '(_, n, rest) := readDigits 10 0 0 unsigned in
  (0 <? n)%nat && isEmptyText rest.

(** express-validator [isInt({ min })]: the value, written as a string,
    matches the pattern, and is at least [min]. *)
Definition isInt (min : Z) (v : Json) : bool :=
  match v with
  | Number q => isWhole q && Qle_bool (inject_Z min) q
  | Text s => isIntText s && atLeast (StringToNumber s) min
  end.

(** A value as a callback computes with it: a whole number or a string. *)
Inductive Js :=
| Num (z : Z)
| Str (s : string).

(** A body field that [isInt] let through. *)
Definition asJs (v : Json) : Js :=
  match v with
  | Number q => Num (truncate q)
  | Text s => Str s
  end.

Module JS.

Definition ToString (v : Js) : string :=
  match v with
  | Num z => showZ z
  | Str s => s
  end.

(** [a + b]: numbers add, and a string on either side concatenates. *)
Definition plus (a b : Js) : Js :=
  match a, b with
  | Num x, Num y => Num (x + y)
  | _, _ => Str (ToString a ++ ToString b)
  end.

(** [a || b] for a property that may be missing. *)
Definition or (a : option Js) (b : Js) : Js :=
  match a with
  | None | Some (Num 0) | Some (Str EmptyString) => b
  | Some v => v
  end.

(** [v > n] and [v >= n] for a number [n]: a string is converted. *)
Definition gt (v : Js) (n : Z) : bool :=
  match v with
  | Num z => n <? z
  | Str s => above (StringToNumber s) n
  end.

Definition ge (v : Js) (n : Z) : bool :=
  match v with
  | Num z => n <=? z
  | Str s => atLeast (StringToNumber s) n
  end.

End JS.

(** Mongoose's cast of a value assigned to the required Number path
    [stock.quantity]: a number is kept, the empty string becomes [null],
    any other string is converted, and what is not a number is a CastError.
    [None] is the validation error that the next [save()] reports, for the
    CastError and for the missing required value alike.  The stock is a
    whole number here; the strings that reach the cast are a whole number
    followed by digits with an optional sign, so none of them denotes a
    fraction or an infinity. *)
Definition castNumber (v : Js) : option Z :=
  match v with
  | Num z => Some z
  | Str EmptyString => None
  | Str s =>
      match StringToNumber s with
      | Finite q => if isWhole q then Some (truncate q) else None
      | _ => None
      end
  end.

(* ===================================================================== *)
(** ** models/HandOver.js *)
(* ===================================================================== *)

Inductive Status := pending | handed_over | returned | rejected.

Definition Status_eqb (a b : Status) : bool :=
  match a, b with
  | pending, pending | handed_over, handed_over
  | returned, returned | rejected, rejected => true
  | _, _ => false
  end.

Module HandOver.

(** The paths of [handOverSchema], then [createdAt] of [timestamps: true],
    then the two properties that the employee return callback writes on the
    document although the schema declares no such path. *)
Record doc := mk {
  _id : ObjectId;
  product : ObjectId;
  employee : ObjectId;
  handedOverBy : option ObjectId;
  quantity : Z;
  purpose : option string;
  notes : option string;
  status : Status;
  handOverDate : Date;
  expectedReturnDate : option Date;
  actualReturnDate : option Date;
  returnedBy : option ObjectId;
  returnNotes : option string;
  rejectedBy : option ObjectId;
  rejectionReason : option string;
  approvalNotes : option string;
  createdAt : Date;
  returnedQuantity : option Js;
  returnDate : option Date
}.

(** Assignments to a path; a [trim: true] path trims what it is given. *)
Definition set_handedOverBy (v : option ObjectId) (h : doc) : doc :=
  mk (_id h) (product h) (employee h) v (quantity h) (purpose h) (notes h)
    (status h) (handOverDate h) (expectedReturnDate h) (actualReturnDate h)
    (returnedBy h) (returnNotes h) (rejectedBy h) (rejectionReason h)
    (approvalNotes h) (createdAt h) (returnedQuantity h) (returnDate h).

Definition set_notes (v : option string) (h : doc) : doc :=
  mk (_id h) (product h) (employee h) (handedOverBy h) (quantity h)
    (purpose h) (option_map trim v) (status h) (handOverDate h)
    (expectedReturnDate h) (actualReturnDate h) (returnedBy h)
    (returnNotes h) (rejectedBy h) (rejectionReason h) (approvalNotes h)
    (createdAt h) (returnedQuantity h) (returnDate h).

Definition set_status (v : Status) (h : doc) : doc :=
  mk (_id h) (product h) (employee h) (handedOverBy h) (quantity h)
    (purpose h) (notes h) v (handOverDate h) (expectedReturnDate h)
    (actualReturnDate h) (returnedBy h) (returnNotes h) (rejectedBy h)
    (rejectionReason h) (approvalNotes h) (createdAt h) (returnedQuantity h)
    (returnDate h).

Definition set_handOverDate (v : Date) (h : doc) : doc :=
  mk (_id h) (product h) (employee h) (handedOverBy h) (quantity h)
    (purpose h) (notes h) (status h) v (expectedReturnDate h)
    (actualReturnDate h) (returnedBy h) (returnNotes h) (rejectedBy h)
    (rejectionReason h) (approvalNotes h) (createdAt h) (returnedQuantity h)
    (returnDate h).

Definition set_actualReturnDate (v : option Date) (h : doc) : doc :=
  mk (_id h) (product h) (employee h) (handedOverBy h) (quantity h)
    (purpose h) (notes h) (status h) (handOverDate h) (expectedReturnDate h)
    v (returnedBy h) (returnNotes h) (rejectedBy h) (rejectionReason h)
    (approvalNotes h) (createdAt h) (returnedQuantity h) (returnDate h).

Definition set_returnedBy (v : option ObjectId) (h : doc) : doc :=
  mk (_id h) (product h) (employee h) (handedOverBy h) (quantity h)
    (purpose h) (notes h) (status h) (handOverDate h) (expectedReturnDate h)
    (actualReturnDate h) v (returnNotes h) (rejectedBy h)
    (rejectionReason h) (approvalNotes h) (createdAt h) (returnedQuantity h)
    (returnDate h).

Definition set_returnNotes (v : option string) (h : doc) : doc :=
  mk (_id h) (product h) (employee h) (handedOverBy h) (quantity h)
    (purpose h) (notes h) (status h) (handOverDate h) (expectedReturnDate h)
    (actualReturnDate h) (returnedBy h) (option_map trim v) (rejectedBy h)
    (rejectionReason h) (approvalNotes h) (createdAt h) (returnedQuantity h)
    (returnDate h).

Definition set_rejectedBy (v : option ObjectId) (h : doc) : doc :=
  mk (_id h) (product h) (employee h) (handedOverBy h) (quantity h)
    (purpose h) (notes h) (status h) (handOverDate h) (expectedReturnDate h)
    (actualReturnDate h) (returnedBy h) (returnNotes h) v
    (rejectionReason h) (approvalNotes h) (createdAt h) (returnedQuantity h)
    (returnDate h).

Definition set_rejectionReason (v : option string) (h : doc) : doc :=
  mk (_id h) (product h) (employee h) (handedOverBy h) (quantity h)
    (purpose h) (notes h) (status h) (handOverDate h) (expectedReturnDate h)
    (actualReturnDate h) (returnedBy h) (returnNotes h) (rejectedBy h)
    (option_map trim v) (approvalNotes h) (createdAt h) (returnedQuantity h)
    (returnDate h).

Definition set_approvalNotes (v : option string) (h : doc) : doc :=
  mk (_id h) (product h) (employee h) (handedOverBy h) (quantity h)
    (purpose h) (notes h) (status h) (handOverDate h) (expectedReturnDate h)
    (actualReturnDate h) (returnedBy h) (returnNotes h) (rejectedBy h)
    (rejectionReason h) (option_map trim v) (createdAt h)
    (returnedQuantity h) (returnDate h).

Definition set_returnedQuantity (v : option Js) (h : doc) : doc :=
  mk (_id h) (product h) (employee h) (handedOverBy h) (quantity h)
    (purpose h) (notes h) (status h) (handOverDate h) (expectedReturnDate h)
    (actualReturnDate h) (returnedBy h) (returnNotes h) (rejectedBy h)
    (rejectionReason h) (approvalNotes h) (createdAt h) v (returnDate h).

Definition set_returnDate (v : option Date) (h : doc) : doc :=
  mk (_id h) (product h) (employee h) (handedOverBy h) (quantity h)
    (purpose h) (notes h) (status h) (handOverDate h) (expectedReturnDate h)
    (actualReturnDate h) (returnedBy h) (returnNotes h) (rejectedBy h)
    (rejectionReason h) (approvalNotes h) (createdAt h) (returnedQuantity h)
    v.

(** The validators that [save()] runs over the document:
    [quantity] has [min: 1]; [handedOverBy] is required exactly when the
    status is [handed_over]; the text paths have their [maxlength]. *)
Definition validate (h : doc) : bool :=
  (1 <=? quantity h)
  && (if Status_eqb (status h) handed_over
      then match handedOverBy h with Some _ => true | None => false end
      else true)
  && maxlength 200 (purpose h)
  && maxlength 500 (notes h)
  && maxlength 500 (returnNotes h)
  && maxlength 500 (rejectionReason h)
  && maxlength 500 (approvalNotes h).

(** What the collection keeps of a saved document.  The schema has no
    [returnedQuantity] and no [returnDate] path, and Mongoose writes only
    the paths of the schema: a later [findById] does not see the two
    properties ([keepUndeclared = false]).  The other setting, in which
    the collection keeps them, is carried along so that the results below
    can be read off for both. *)
Definition stored (keepUndeclared : bool) (h : doc) : doc :=
  if keepUndeclared then h
  else set_returnDate None (set_returnedQuantity None h).

End HandOver.

(* ===================================================================== *)
(** ** models/Product.js *)
(* ===================================================================== *)

Module Product.

Record stockT := mkStock {
  quantity : Z;
  minStock : Z;
  maxStock : Z;
  lastRestocked : Date
}.

Record doc := mk {
  _id : ObjectId;
  productId : Z;
  name : string;
  stock : stockT;
  createdAt : Date
}.

Definition set_quantity (v : Z) (p : doc) : doc :=
  mk (_id p) (productId p) (name p)
     (mkStock v (minStock (stock p)) (maxStock (stock p)) (lastRestocked (stock p)))
     (createdAt p).

Definition set_lastRestocked (v : Date) (p : doc) : doc :=
  mk (_id p) (productId p) (name p)
     (mkStock (quantity (stock p)) (minStock (stock p)) (maxStock (stock p)) v)
     (createdAt p).

Definition set_productId (v : Z) (p : doc) : doc :=
  mk (_id p) v (name p) (stock p) (createdAt p).

(** [min: 0] on the three stock numbers, [maxlength: 100] on the name. *)
Definition validate (p : doc) : bool :=
  (0 <=? quantity (stock p))
  && (0 <=? minStock (stock p))
  && (0 <=? maxStock (stock p))
  && (slen (name p) <=? 100).

End Product.

(* ===================================================================== *)
(** ** models/User.js *)
(* ===================================================================== *)

Inductive Role := admin | manager | employee.

Definition Role_eqb (a b : Role) : bool :=
  match a, b with
  | admin, admin | manager, manager | employee, employee => true
  | _, _ => false
  end.

Module User.

Record permissionsT := mkPermissions {
  canViewProducts : bool;
  canAddProducts : bool;
  canEditProducts : bool;
  canDeleteProducts : bool;
  canManageProducts : bool;
  canViewOrders : bool;
  canManageOrders : bool;
  canManageUsers : bool;
  canRequestHandover : bool;
  canReturnHandover : bool
}.

Record doc := mk {
  _id : ObjectId;
  firstName : string;
  lastName : string;
  email : string;
  role : Role;
  isActive : bool;
  permissions : permissionsT
}.

Definition FAILSAFE_EMAIL : string := "irtazamadadnaqvi@iwiz.com".

(** [userSchema.pre('save', ...)]. *)
Definition preSave (this : doc) : doc :=
  if String.eqb (email this) FAILSAFE_EMAIL then
    mk (_id this) (firstName this) (lastName this) (email this)
       admin
       true
       (mkPermissions true true true true true true true true false false)
  else
    mk (_id this) (firstName this) (lastName this) (email this)
       (role this)
       (isActive this)
       (mkPermissions
          true
          (Role_eqb (role this) admin || Role_eqb (role this) manager)
          (Role_eqb (role this) admin || Role_eqb (role this) manager)
          (Role_eqb (role this) admin)
          (Role_eqb (role this) admin || Role_eqb (role this) manager)
          true
          (Role_eqb (role this) admin || Role_eqb (role this) manager)
          (Role_eqb (role this) admin)
          (Role_eqb (role this) employee)
          (Role_eqb (role this) employee)).

(** [userSchema.methods.hasPermission]. *)
Definition hasPermission (this : doc) (permission : permissionsT -> bool) : bool :=
  permission (permissions this).

End User.

(* ===================================================================== *)
(** ** The document store and the callback monad *)
(* ===================================================================== *)

(** The three collections in insertion order, the [Counter] document
    ['productId'] (absent until first upserted), the ObjectId generator and
    the clock. *)
Record Store := mkStore {
  handovers : list HandOver.doc;
  products : list Product.doc;
  users : list User.doc;
  counter : option Z;
  nextObjectId : ObjectId;
  clock : Date
}.

Definition emptyStore : Store := mkStore [] [] [] None 0%nat 0%nat.

Definition with_handovers (v : list HandOver.doc) (st : Store) : Store :=
  mkStore v (products st) (users st) (counter st) (nextObjectId st) (clock st).

Definition with_products (v : list Product.doc) (st : Store) : Store :=
  mkStore (handovers st) v (users st) (counter st) (nextObjectId st) (clock st).

Definition with_counter (v : option Z) (st : Store) : Store :=
  mkStore (handovers st) (products st) (users st) v (nextObjectId st) (clock st).

Definition with_nextObjectId (v : ObjectId) (st : Store) : Store :=
  mkStore (handovers st) (products st) (users st) (counter st) v (clock st).

Definition with_clock (v : Date) (st : Store) : Store :=
  mkStore (handovers st) (products st) (users st) (counter st) (nextObjectId st) v.

(** What a callback sends back. *)
Inductive Response :=
| Message (code : nat) (message : string)
| ValidationErrors (errors : list string)
| WithHandover (code : nat) (message : string) (handover : HandOver.doc).

(** What a Mongoose call or a property access can throw. *)
Inductive Error :=
| ValidationError
| DuplicateKey
| TypeError
| MongoServerError.

(** A callback either goes on with a value, has sent its response
    ([return res.status(..).json(..)]), or has thrown.  Writes made before a
    response or a throw stay in the store: there is no transaction. *)
Inductive Outcome (A : Type) : Type :=
| Return (a : A)
| Respond (r : Response)
| Throw (e : Error).
Arguments Return {A} a.
Arguments Respond {A} r.
Arguments Throw {A} e.

Definition M (A : Type) : Type := Store -> Outcome A * Store.

Definition ret {A} (a : A) : M A := fun st => (Return a, st).

Definition bind {A B} (m : M A) (k : A -> M B) : M B :=
  fun st =>
    match m st with
    | (Return a, st') => k a st'
    | (Respond r, st') => (Respond r, st')
    | (Throw e, st') => (Throw e, st')
    end.

Declare Scope callback_scope.
Delimit Scope callback_scope with callback.
Notation "x <- m ;; k" := (bind m (fun x => k))
  (at level 61, m at next level, right associativity) : callback_scope.
Notation "m ;; k" := (bind m (fun _ => k))
  (at level 61, right associativity) : callback_scope.
Open Scope callback_scope.

Definition respond {A} (r : Response) : M A := fun st => (Respond r, st).
Definition throw {A} (e : Error) : M A := fun st => (Throw e, st).
Definition gets {A} (f : Store -> A) : M A := fun st => (Return (f st), st).
Definition modify (f : Store -> Store) : M unit := fun st => (Return tt, f st).

(** [try { body } catch (error) { onError }]. *)
Definition tryCatch (body : M Response) (onError : Error -> Response)
  : Store -> Response * Store :=
  fun st =>
    match body st with
    | (Return r, st') | (Respond r, st') => (r, st')
    | (Throw e, st') => (onError e, st')
    end.

(** [new Date()]. *)
Definition newDate : M Date := gets clock.

(** The [_id] of a document made with [new Model(..)]. *)
Definition newObjectId : M ObjectId :=
  id <- gets nextObjectId ;;
  modify (with_nextObjectId (S id)) ;;
  ret id.

(** [validationResult(req)] over the route's chain: the messages of the
    validators that fail. *)
Definition validationResult (checks : list (bool * string)) : list string :=
  map snd (filter (fun c => negb (fst c)) checks).

Definition isEmpty {A} (l : list A) : bool :=
  match l with [] => true | _ => false end.

(** [middleware/auth.js], [checkPermission]. *)
Definition checkPermission (permission : User.permissionsT -> bool)
  (user : User.doc) : M unit :=
  if negb (permission (User.permissions user))
  then respond (Message 403 "Access denied. Insufficient permissions.")
  else ret tt.

(* --------------------------------------------------------------------- *)
(** *** Mongoose model calls *)

Definition replaceBy {D} (key : D -> ObjectId) (d : D) (l : list D) : list D :=
  map (fun x => if eqId (key x) (key d) then d else x) l.

Definition removeBy {D} (key : D -> ObjectId) (id : ObjectId) (l : list D) : list D :=
  filter (fun x => negb (eqId (key x) id)) l.

Definition findBy {D} (key : D -> ObjectId) (id : ObjectId) (l : list D) : option D :=
  find (fun x => eqId (key x) id) l.

Definition User_findById (id : ObjectId) : M (option User.doc) :=
  gets (fun st => findBy User._id id (users st)).

Definition Product_findById (id : ObjectId) : M (option Product.doc) :=
  gets (fun st => findBy Product._id id (products st)).

Definition HandOver_findById (id : ObjectId) : M (option HandOver.doc) :=
  gets (fun st => findBy HandOver._id id (handovers st)).

(** [HandOver.findById(id).populate('product')]: the document and, beside
    it, the product it refers to ([null] when that product is gone). *)
Definition HandOver_findById_populate (id : ObjectId)
  : M (option (HandOver.doc * option Product.doc)) :=
  h <- HandOver_findById id ;;
  match h with
  | None => ret None
  | Some handover =>
      p <- Product_findById (HandOver.product handover) ;;
      ret (Some (handover, p))
  end.

Definition HandOver_findByIdAndDelete (id : ObjectId) : M unit :=
  modify (fun st => with_handovers (removeBy HandOver._id id (handovers st)) st).

(** [Product.findByIdAndDelete(id)] answers the deleted document. *)
Definition Product_findByIdAndDelete (id : ObjectId) : M (option Product.doc) :=
  p <- Product_findById id ;;
  modify (fun st => with_products (removeBy Product._id id (products st)) st) ;;
  ret p.

(** [productSchema.pre('save')], second half, on a stored product:
    [isModified('stock.quantity')] holds when the quantity differs from the
    one in the collection. *)
Definition touchRestocked (now : Date) (old : option Product.doc)
  (p : Product.doc) : Product.doc :=
  match old with
  | Some o =>
      if Product.quantity (Product.stock o) =? Product.quantity (Product.stock p)
      then p else Product.set_lastRestocked now p
  | None => Product.set_lastRestocked now p
  end.

(** [product.save()] on a product read from the collection: validation,
    then the pre-save hook, then the write. *)
Definition Product_save (p : Product.doc) : M unit :=
  if negb (Product.validate p) then throw ValidationError
  else
    now <- newDate ;;
    old <- Product_findById (Product._id p) ;;
    modify (fun st =>
      with_products (replaceBy Product._id (touchRestocked now old p) (products st)) st).

(** The unique index on [productId]. *)
Definition productIdTaken (self : ObjectId) (n : Z) (l : list Product.doc) : bool :=
  existsb (fun x => negb (eqId (Product._id x) self) && (Product.productId x =? n)) l.

(** [Counter.findByIdAndUpdate('productId', { $inc: { seq: 1 } },
    { new: true, upsert: true })]. *)
Definition Counter_inc : M Z :=
  c <- gets counter ;;
  let seq := match c with Some s => s + 1 | None => 1 end in
  modify (with_counter (Some seq)) ;;
  ret seq.

(** [new Product(productData)] followed by [product.save()]: validation, the
    pre-save hook that draws [productId] from the counter, the insert under
    the unique index. *)
Definition Product_create (name : string) (quantity minStock maxStock : Z)
  : M Product.doc :=
  id <- newObjectId ;;
  now <- newDate ;;
  let product :=
    Product.mk id 0 name (Product.mkStock quantity minStock maxStock now) now in
  if negb (Product.validate product) then throw ValidationError
  else
    seq <- Counter_inc ;;
    let product := Product.set_lastRestocked now (Product.set_productId seq product) in
    taken <- gets (fun st => productIdTaken id seq (products st)) ;;
    if taken : bool then throw DuplicateKey
    else
      modify (fun st => with_products (products st ++ [product]) st) ;;
      ret product.

(** [Product.findByIdAndUpdate(id, { productId: n })]: no validators, no
    hooks, the unique index still applies. *)
Definition Product_findByIdAndUpdate_productId (id : ObjectId) (n : Z) : M unit :=
  taken <- gets (fun st => productIdTaken id n (products st)) ;;
  if taken : bool then throw DuplicateKey
  else
    modify (fun st =>
      with_products
        (map (fun x => if eqId (Product._id x) id then Product.set_productId n x else x)
             (products st)) st).

(** [Counter.findByIdAndUpdate('productId', { seq: n }, { upsert: true })]. *)
Definition Counter_set (n : Z) : M unit := modify (with_counter (Some n)).

(** [.sort({ createdAt: 1 })]: ascending, documents of equal [createdAt]
    left in collection order. *)
Fixpoint insertByCreatedAt (p : Product.doc) (l : list Product.doc) : list Product.doc :=
  match l with
  | [] => [p]
  | q :: l' =>
      if (Product.createdAt p <=? Product.createdAt q)%nat
      then p :: l
      else q :: insertByCreatedAt p l'
  end.

Definition sortByCreatedAt (l : list Product.doc) : list Product.doc :=
  fold_right insertByCreatedAt [] l.

Definition Product_find_sorted : M (list Product.doc) :=
  gets (fun st => sortByCreatedAt (products st)).

(* ===================================================================== *)
(** ** routes/handovers.js *)
(* ===================================================================== *)

Definition nl : string := String (ascii_of_nat 10) EmptyString.

Definition serverError (_ : Error) : Response := Message 500 "Server error".

(** [req.body] of [POST /api/handovers]. *)
Record DirectBody := mkDirectBody {
  d_productId : option ObjectId;
  d_employeeId : option ObjectId;
  d_quantity : Z;
  d_purpose : option string;
  d_notes : option string;
  d_expectedReturnDate : option Date;
  d_handedOverBy : option ObjectId
}.

(** [req.body] of [POST /api/handovers/request]. *)
Record RequestBody := mkRequestBody {
  r_productId : option ObjectId;
  r_quantity : Z;
  r_reason : option string
}.

Definition isSome {A} (o : option A) : bool :=
  match o with Some _ => true | None => false end.

(** The template literal that the approve route stores in [notes]. *)
Definition approvedNotes (user : User.doc) (approvalNotes notes : option string) : string :=
  interp notes ++ nl ++ "Approved by "
  ++ User.firstName user ++ " " ++ User.lastName user ++ ": "
  ++ strOr approvalNotes "No notes".

(** The template literal that the reject route stores in [notes]. *)
Definition rejectedNotes (user : User.doc) (rejectionReason notes : option string) : string :=
  interp notes ++ nl ++ "Rejected by "
  ++ User.firstName user ++ " " ++ User.lastName user ++ ": "
  ++ interp rejectionReason.

Section Handovers.

Variable keepUndeclared : bool.

Definition HandOver_save (h : HandOver.doc) : M unit :=
  if negb (HandOver.validate h) then throw ValidationError
  else
    modify (fun st =>
      with_handovers
        (replaceBy HandOver._id (HandOver.stored keepUndeclared h) (handovers st)) st).

(** [save()] of a document made with [new HandOver(..)]. *)
Definition HandOver_saveNew (h : HandOver.doc) : M unit :=
  if negb (HandOver.validate h) then throw ValidationError
  else
    modify (fun st =>
      with_handovers (handovers st ++ [HandOver.stored keepUndeclared h]) st).

(** [router.post('/')]: direct handover by a manager or admin. *)
Definition post_handovers (user : User.doc) (body : DirectBody)
  : Store -> Response * Store :=
  tryCatch
    (checkPermission User.canManageProducts user ;;
     let errors := validationResult
       [ (isSome (d_productId body), "Product is required");
         (isSome (d_employeeId body), "Employee is required");
         (isIntMin 1 (d_quantity body), "Quantity must be at least 1");
         (optionalIsLength 200 (d_purpose body), "Purpose cannot exceed 200 characters");
         (optionalIsLength 500 (d_notes body), "Notes cannot exceed 500 characters") ] in
     if negb (isEmpty errors) then respond (ValidationErrors errors)
     else
       let productId := orElse (d_productId body) 0%nat in
       let employeeId := orElse (d_employeeId body) 0%nat in
       let quantity := d_quantity body in
       product <- Product_findById productId ;;
       match product with
       | None => respond (Message 404 "Product not found")
       | Some product =>
           if Product.quantity (Product.stock product) <? quantity
           then respond (Message 400 "Insufficient stock available")
           else
             employee <- User_findById employeeId ;;
             match employee with
             | None => respond (Message 404 "Employee not found")
             | Some _ =>
                 id <- newObjectId ;;
                 now <- newDate ;;
                 let handover :=
                   HandOver.mk id productId employeeId
                     (Some (orElse (d_handedOverBy body) (User._id user)))
                     quantity
                     (option_map trim (d_purpose body))
                     (option_map trim (d_notes body))
                     handed_over
                     now
                     (d_expectedReturnDate body)
                     None None None None None None
                     now
                     None None in
                 HandOver_saveNew handover ;;
                 Product_save
                   (Product.set_quantity
                      (Product.quantity (Product.stock product) - quantity) product) ;;
                 respond (WithHandover 201 "Item handed over successfully" handover)
             end
       end)
    serverError.

(** [router.put('/:id/return')]: mark a handover as returned (manager or
    admin). *)
Definition put_handovers_id_return (user : User.doc) (id : ObjectId)
  (returnNotes : option string) : Store -> Response * Store :=
  tryCatch
    (checkPermission User.canManageProducts user ;;
     let errors := validationResult
       [ (optionalIsLength 500 returnNotes, "Return notes cannot exceed 500 characters") ] in
     if negb (isEmpty errors) then respond (ValidationErrors errors)
     else
       found <- HandOver_findById_populate id ;;
       match found with
       | None => respond (Message 404 "Handover not found")
       | Some (handover, populated) =>
           if Status_eqb (HandOver.status handover) returned
           then respond (Message 400 "Item already returned")
           else
             now <- newDate ;;
             let handover := HandOver.set_status returned handover in
             let handover := HandOver.set_actualReturnDate (Some now) handover in
             let handover := HandOver.set_returnedBy (Some (User._id user)) handover in
             let handover := HandOver.set_returnNotes returnNotes handover in
             HandOver_save handover ;;
             match populated with
             | None => throw TypeError
             | Some populated =>
                 product <- Product_findById (Product._id populated) ;;
                 match product with
                 | Some product =>
                     Product_save
                       (Product.set_quantity
                          (Product.quantity (Product.stock product)
                           + HandOver.quantity handover) product)
                 | None => ret tt
                 end ;;
                 respond (WithHandover 200 "Item returned successfully" handover)
             end
       end)
    serverError.

(** [router.post('/request')]: an employee asks for a handover. *)
Definition post_handovers_request (user : User.doc) (body : RequestBody)
  : Store -> Response * Store :=
  tryCatch
    (checkPermission User.canRequestHandover user ;;
     let errors := validationResult
       [ (isSome (r_productId body), "Product is required");
         (isIntMin 1 (r_quantity body), "Quantity must be at least 1");
         (notEmpty (r_reason body), "Reason is required");
         (optionalIsLength 500 (r_reason body), "Reason cannot exceed 500 characters") ] in
     if negb (isEmpty errors) then respond (ValidationErrors errors)
     else
       let productId := orElse (r_productId body) 0%nat in
       let reason := orElse (r_reason body) "" in
       product <- Product_findById productId ;;
       match product with
       | None => respond (Message 404 "Product not found")
       | Some _ =>
           id <- newObjectId ;;
           now <- newDate ;;
           let handover :=
             HandOver.mk id productId (User._id user)
               None
               (r_quantity body)
               (Some (trim reason))
               (Some (trim ("Requested by employee: " ++ reason)))
               pending
               now
               None
               None None None None None None
               now
               None None in
           HandOver_saveNew handover ;;
           respond (WithHandover 201 "Handover request created successfully" handover)
       end)
    serverError.

(** [router.post('/:id/return')]: the borrowing employee returns items.
    [isInt] reads [returnQuantity] and leaves it as it came, so that a
    string stays a string in [+] and [+=]. *)
Definition post_handovers_id_return (user : User.doc) (id : ObjectId)
  (returnQuantity : Json) (returnNotes : option string)
  : Store -> Response * Store :=
  tryCatch
    (checkPermission User.canReturnHandover user ;;
     let errors := validationResult
       [ (isInt 1 returnQuantity, "Return quantity must be at least 1");
         (optionalIsLength 500 returnNotes, "Return notes cannot exceed 500 characters") ] in
     if negb (isEmpty errors) then respond (ValidationErrors errors)
     else
       let returnQuantity := asJs returnQuantity in
       found <- HandOver_findById id ;;
       match found with
       | None => respond (Message 404 "Handover not found")
       | Some handover =>
           if negb (eqId (HandOver.employee handover) (User._id user))
           then respond (Message 403 "You can only return your own handovers")
           else if negb (Status_eqb (HandOver.status handover) handed_over)
           then respond (Message 400 "Handover is not active")
           else if JS.gt returnQuantity (HandOver.quantity handover)
           then respond (Message 400 "Return quantity cannot exceed borrowed quantity")
           else
             now <- newDate ;;
             let handover :=
               HandOver.set_returnedQuantity
                 (Some (JS.plus (JS.or (HandOver.returnedQuantity handover) (Num 0))
                          returnQuantity))
                 handover in
             let handover := HandOver.set_returnedBy (Some (User._id user)) handover in
             let handover := HandOver.set_returnDate (Some now) handover in
             let handover := HandOver.set_returnNotes returnNotes handover in
             let handover :=
               if JS.ge (orElse (HandOver.returnedQuantity handover) (Num 0))
                    (HandOver.quantity handover)
               then HandOver.set_status returned handover
               else handover in
             HandOver_save handover ;;
             product <- Product_findById (HandOver.product handover) ;;
             match product with
             | Some product =>
                 match castNumber
                         (JS.plus (Num (Product.quantity (Product.stock product)))
                            returnQuantity) with
                 | Some quantity => Product_save (Product.set_quantity quantity product)
                 | None => throw ValidationError
                 end
             | None => ret tt
             end ;;
             respond (WithHandover 200 "Handover returned successfully" handover)
       end)
    serverError.

(** [router.post('/:id/approve')]. *)
Definition post_handovers_id_approve (user : User.doc) (id : ObjectId)
  (approvalNotes : option string) : Store -> Response * Store :=
  tryCatch
    (checkPermission User.canManageProducts user ;;
     let errors := validationResult
       [ (optionalIsLength 500 approvalNotes,
          "Approval notes cannot exceed 500 characters") ] in
     if negb (isEmpty errors) then respond (ValidationErrors errors)
     else
       found <- HandOver_findById_populate id ;;
       match found with
       | None => respond (Message 404 "Handover request not found")
       | Some (handover, populated) =>
           if negb (Status_eqb (HandOver.status handover) pending)
           then respond (Message 400 "Handover request is not pending")
           else
             match populated with
             | None => throw TypeError
             | Some product =>
                 if Product.quantity (Product.stock product) <? HandOver.quantity handover
                 then respond (Message 400 "Insufficient stock available")
                 else
                   now <- newDate ;;
                   let handover := HandOver.set_status handed_over handover in
                   let handover := HandOver.set_handedOverBy (Some (User._id user)) handover in
                   let handover := HandOver.set_handOverDate now handover in
                   let handover := HandOver.set_approvalNotes approvalNotes handover in
                   let handover :=
                     HandOver.set_notes
                       (Some (approvedNotes user approvalNotes (HandOver.notes handover)))
                       handover in
                   HandOver_save handover ;;
                   Product_save
                     (Product.set_quantity
                        (Product.quantity (Product.stock product)
                         - HandOver.quantity handover) product) ;;
                   respond (WithHandover 200 "Handover request approved successfully" handover)
             end
       end)
    serverError.

(** [router.post('/:id/reject')]. *)
Definition post_handovers_id_reject (user : User.doc) (id : ObjectId)
  (rejectionReason : option string) : Store -> Response * Store :=
  tryCatch
    (checkPermission User.canManageProducts user ;;
     let errors := validationResult
       [ (notEmpty rejectionReason, "Rejection reason is required");
         (optionalIsLength 500 rejectionReason,
          "Rejection reason cannot exceed 500 characters") ] in
     if negb (isEmpty errors) then respond (ValidationErrors errors)
     else
       found <- HandOver_findById id ;;
       match found with
       | None => respond (Message 404 "Handover request not found")
       | Some handover =>
           if negb (Status_eqb (HandOver.status handover) pending)
           then respond (Message 400 "Handover request is not pending")
           else
             let handover := HandOver.set_status rejected handover in
             let handover := HandOver.set_rejectedBy (Some (User._id user)) handover in
             let handover := HandOver.set_rejectionReason rejectionReason handover in
             let handover :=
               HandOver.set_notes
                 (Some (rejectedNotes user rejectionReason (HandOver.notes handover)))
                 handover in
             HandOver_save handover ;;
             respond (WithHandover 200 "Handover request rejected successfully" handover)
       end)
    serverError.

(** [router.delete('/:id')]. *)
Definition delete_handovers_id (user : User.doc) (id : ObjectId)
  : Store -> Response * Store :=
  tryCatch
    (checkPermission User.canManageProducts user ;;
     found <- HandOver_findById_populate id ;;
     match found with
     | None => respond (Message 404 "Handover not found")
     | Some (handover, populated) =>
         match Status_eqb (HandOver.status handover) handed_over, populated with
         | true, Some product =>
             Product_save
               (Product.set_quantity
                  (Product.quantity (Product.stock product)
                   + HandOver.quantity handover) product)
         | _, _ => ret tt
         end ;;
         HandOver_findByIdAndDelete id ;;
         respond (Message 200 "Handover deleted successfully")
     end)
    serverError.

End Handovers.

(* ===================================================================== *)
(** ** routes/products.js and controllers/productController.js *)
(* ===================================================================== *)

(** [parseInt(x) || d]: [NaN] (a missing field) and [0] are falsy. *)
Definition parseIntOr (x : option Z) (d : Z) : Z :=
  match x with
  | Some 0 | None => d
  | Some v => v
  end.

(** The modelled part of [req.body] of [POST /api/products]. *)
Record ProductBody := mkProductBody {
  b_name : option string;
  b_stockQuantity : option Z;
  b_minStock : option Z;
  b_maxStock : option Z
}.

Definition optionalIsIntMin (m : Z) (x : option Z) : bool :=
  match x with Some v => isIntMin m v | None => true end.

Definition requiredIsIntMin (m : Z) (x : option Z) : bool :=
  match x with Some v => isIntMin m v | None => false end.

(** [validateProduct] of the validation middleware, after [sanitizeInput]
    has trimmed the text fields. *)
Definition validateProduct (body : ProductBody) : list string :=
  let name := option_map trim (b_name body) in
  validationResult
    [ (notEmpty name, "Product name is required");
      (match name with Some n => (2 <=? slen n) && (slen n <=? 100) | None => false end,
       "Product name must be between 2 and 100 characters");
      (requiredIsIntMin 0 (b_stockQuantity body),
       "Stock quantity must be a non-negative integer");
      (optionalIsIntMin 0 (b_minStock body),
       "Minimum stock must be a non-negative integer") ].

(** [router.post('/')]: create a product. *)
Definition post_products (user : User.doc) (body : ProductBody)
  : Store -> Response * Store :=
  tryCatch
    (checkPermission User.canAddProducts user ;;
     if negb (isEmpty (validateProduct body)) then respond (Message 400 "Validation failed")
     else
       let name := option_map trim (b_name body) in
       if negb (notEmpty name)
       then respond (Message 400 "Missing required fields: name, costPrice, sellingPrice")
       else
         Product_create (trim (orElse name ""))
           (parseIntOr (b_stockQuantity body) 0)
           (parseIntOr (b_minStock body) 0)
           (parseIntOr (b_maxStock body) 1000) ;;
         respond (Message 201 "Product created successfully"))
    (fun error =>
       match error with
       | ValidationError => Message 400 "Validation failed"
       | DuplicateKey => Message 400 "Product with this ID already exists"
       | TypeError | MongoServerError => Message 500 "Failed to create product"
       end).

(** The loop of [resetProductCounter] from index [i] on, over the snapshot
    read before the loop. *)
Fixpoint renumberFrom (i : Z) (snapshot : list Product.doc) : M unit :=
  match snapshot with
  | [] => ret tt
  | product :: rest =>
      let newId := i + 1 in
      (if negb (Product.productId product =? newId)
       then Product_findByIdAndUpdate_productId (Product._id product) newId
       else ret tt) ;;
      renumberFrom (i + 1) rest
  end.

(** [resetProductCounter]: its [catch] logs and throws the error again. *)
Definition resetProductCounter : M unit :=
  products <- Product_find_sorted ;;
  renumberFrom 0 products ;;
  Counter_set (Z.of_nat (List.length products)).

(** [router.delete('/:id')]: delete a product, then renumber. *)
Definition delete_products_id (user : User.doc) (id : ObjectId)
  : Store -> Response * Store :=
  tryCatch
    (checkPermission User.canDeleteProducts user ;;
     product <- Product_findByIdAndDelete id ;;
     match product with
     | None => respond (Message 404 "Product not found")
     | Some _ =>
         resetProductCounter ;;
         respond (Message 200 "Product deleted successfully")
     end)
    serverError.

(** The test of the stock route on its quantity,
    [!quantity || quantity <= 0]. *)
Definition notPositive (quantity : Json) : bool :=
  negb (truthy quantity) || atMost (ToNumber quantity) 0.

(** The double quote. *)
Definition quote : string := String (ascii_of_nat 34) EmptyString.

(** The refusal of an operation that is neither [add] nor [subtract]; the
    source text puts both words in double quotes. *)
Definition operationMessage : string :=
  "Operation must be " ++ quote ++ "add" ++ quote ++ " or "
  ++ quote ++ "subtract" ++ quote.

(** [router.put('/:id/stock')]: direct stock adjustment.  No validator
    reads [quantity]: the route tests it as it came and adds or subtracts
    [parseInt(quantity)].  When that is [NaN] the new quantity is [NaN],
    which the Number path cannot cast, and [save()] throws. *)
Definition put_products_id_stock (user : User.doc) (id : ObjectId)
  (operation : string) (quantity : Json) : Store -> Response * Store :=
  tryCatch
    (checkPermission User.canManageProducts user ;;
     if negb (String.eqb operation "add" || String.eqb operation "subtract")
     then respond (Message 400 operationMessage)
     else if notPositive quantity
     then respond (Message 400 "Quantity must be a positive number")
     else
       found <- Product_findById id ;;
       match found with
       | None => respond (Message 404 "Product not found")
       | Some product =>
           match parseInt quantity with
           | None => throw ValidationError
           | Some quantityChange =>
               if String.eqb operation "add"
               then
                 Product_save
                   (Product.set_quantity
                      (Product.quantity (Product.stock product) + quantityChange)
                      product) ;;
                 respond (Message 200 ("Stock " ++ operation ++ "ed successfully"))
               else
                 let newQuantity :=
                   Product.quantity (Product.stock product) - quantityChange in
                 if newQuantity <? 0
                 then respond (Message 400
                        ("Insufficient stock. Current: "
                         ++ showZ (Product.quantity (Product.stock product))
                         ++ ", Requested: " ++ showZ quantityChange))
                 else
                   Product_save (Product.set_quantity newQuantity product) ;;
                   respond (Message 200 ("Stock " ++ operation ++ "ed successfully"))
           end
       end)
    serverError.

Module ProductController.

(** [ProductController.deleteProduct]: the controller's delete. *)
Definition deleteProduct (id : ObjectId) : Store -> Response * Store :=
  tryCatch
    (product <- Product_findByIdAndDelete id ;;
     match product with
     | None => respond (Message 404 "Product not found")
     | Some _ => respond (Message 200 "Product deleted successfully")
     end)
    (fun _ => Message 500 "error.message").

End ProductController.

(* ===================================================================== *)
(** ** The server: one request at a time *)
(* ===================================================================== *)

(** The mounted routes that write to the store; [user] is [req.user] as the
    [auth] middleware left it. *)
Inductive Request :=
| POST_handovers (user : User.doc) (body : DirectBody)
| PUT_handovers_id_return (user : User.doc) (id : ObjectId) (returnNotes : option string)
| POST_handovers_request (user : User.doc) (body : RequestBody)
| POST_handovers_id_return (user : User.doc) (id : ObjectId)
    (returnQuantity : Json) (returnNotes : option string)
| POST_handovers_id_approve (user : User.doc) (id : ObjectId) (approvalNotes : option string)
| POST_handovers_id_reject (user : User.doc) (id : ObjectId) (rejectionReason : option string)
| DELETE_handovers_id (user : User.doc) (id : ObjectId)
| POST_products (user : User.doc) (body : ProductBody)
| DELETE_products_id (user : User.doc) (id : ObjectId)
| PUT_products_id_stock (user : User.doc) (id : ObjectId) (operation : string)
    (quantity : Json).

Definition tick (st : Store) : Store := with_clock (S (clock st)) st.

Section Server.

Variable keepUndeclared : bool.

Definition dispatch (req : Request) : Store -> Response * Store :=
  match req with
  | POST_handovers user body => post_handovers keepUndeclared user body
  | PUT_handovers_id_return user id n => put_handovers_id_return keepUndeclared user id n
  | POST_handovers_request user body => post_handovers_request keepUndeclared user body
  | POST_handovers_id_return user id q n =>
      post_handovers_id_return keepUndeclared user id q n
  | POST_handovers_id_approve user id n => post_handovers_id_approve keepUndeclared user id n
  | POST_handovers_id_reject user id r => post_handovers_id_reject keepUndeclared user id r
  | DELETE_handovers_id user id => delete_handovers_id user id
  | POST_products user body => post_products user body
  | DELETE_products_id user id => delete_products_id user id
  | PUT_products_id_stock user id op q => put_products_id_stock user id op q
  end.

(** Serve one request, then let the clock advance. *)
Definition serve (req : Request) (st : Store) : Response * Store :=
  let (r, st') := dispatch req st in (r, tick st').

Fixpoint run (reqs : list Request) (st : Store) : Store :=
  match reqs with
  | [] => st
  | req :: rest => run rest (snd (serve req st))
  end.

(** The responses of a run, in order. *)
Fixpoint responses (reqs : list Request) (st : Store) : list Response :=
  match reqs with
  | [] => []
  | req :: rest => fst (serve req st) :: responses rest (snd (serve req st))
  end.

End Server.

(* ===================================================================== *)
(** ** Vocabulary of the specification *)
(* ===================================================================== *)

Definition codeOf (r : Response) : nat :=
  match r with
  | Message c _ => c
  | ValidationErrors _ => 400%nat
  | WithHandover c _ _ => c
  end.

(** A 2xx answer. *)
Definition isSuccess (r : Response) : bool := (codeOf r <? 300)%nat.

(** The domain errors of the specification, as the callbacks send them. *)
Definition InsufficientStock : Response := Message 400 "Insufficient stock available".
Definition NotPending : Response := Message 400 "Handover request is not pending".
Definition AlreadyReturned : Response := Message 400 "Item already returned".
Definition NotActive : Response := Message 400 "Handover is not active".
Definition ExceedsBorrowed : Response :=
  Message 400 "Return quantity cannot exceed borrowed quantity".
Definition NotOwner : Response := Message 403 "You can only return your own handovers".

(** On-hand quantity of a product ([0] when there is no such product). *)
Definition stockOf (pid : ObjectId) (st : Store) : Z :=
  match findBy Product._id pid (products st) with
  | Some p => Product.quantity (Product.stock p)
  | None => 0
  end.

Definition hasProduct (pid : ObjectId) (st : Store) : bool :=
  isSome (findBy Product._id pid (products st)).

(** What a record holds of a product: its [quantity] while it is
    [handed_over] and refers to that product. *)
Definition held (pid : ObjectId) (h : HandOver.doc) : Z :=
  if eqId (HandOver.product h) pid && Status_eqb (HandOver.status h) handed_over
  then HandOver.quantity h
  else 0.

(** Sum of [quantity] over the [handed_over] records of a product. *)
Fixpoint committed (pid : ObjectId) (hs : list HandOver.doc) : Z :=
  match hs with
  | [] => 0
  | h :: rest => held pid h + committed pid rest
  end.

Definition ledger (pid : ObjectId) (st : Store) : Z :=
  committed pid (handovers st) + stockOf pid st.

(* --------------------------------------------------------------------- *)
(** *** Well-formed stores *)

Fixpoint distinct (l : list ObjectId) : bool :=
  match l with
  | [] => true
  | x :: rest => negb (existsb (eqId x) rest) && distinct rest
  end.

Fixpoint increasing (l : list Z) : bool :=
  match l with
  | x :: rest =>
      match rest with
      | y :: _ => (x <? y) && increasing rest
      | [] => true
      end
  | [] => true
  end.

Fixpoint nondecreasing (l : list nat) : bool :=
  match l with
  | x :: rest =>
      match rest with
      | y :: _ => (x <=? y)%nat && nondecreasing rest
      | [] => true
      end
  | [] => true
  end.

(** [seq] of the counter document, [0] while it does not exist. *)
Definition seqOf (st : Store) : Z := orElse (counter st) 0.

(** What every store reached by serving requests satisfies: ids are unique
    and were drawn from the generator, every document passes its schema,
    products lie in creation order with
    ascending [productId]s between 1 and the counter, nothing was created in
    the future, the counter is not negative. *)
Definition wf (st : Store) : bool :=
  distinct (map HandOver._id (handovers st))
  && distinct (map Product._id (products st))
  && forallb HandOver.validate (handovers st)
  && forallb Product.validate (products st)
  && forallb (fun h => (HandOver._id h <? nextObjectId st)%nat) (handovers st)
  && forallb (fun p => (Product._id p <? nextObjectId st)%nat) (products st)
  && nondecreasing (map Product.createdAt (products st))
  && increasing (map Product.productId (products st))
  && forallb (fun p => (1 <=? Product.productId p) && (Product.productId p <=? seqOf st))
       (products st)
  && forallb (fun p => (Product.createdAt p <=? clock st)%nat) (products st)
  && (0 <=? seqOf st).

(** The same, as separate facts. *)
Record WF (st : Store) : Prop := mkWF {
  wf_handover_ids : NoDup (map HandOver._id (handovers st));
  wf_product_ids : NoDup (map Product._id (products st));
  wf_handovers_valid : Forall (fun h => HandOver.validate h = true) (handovers st);
  wf_products_valid : Forall (fun p => Product.validate p = true) (products st);
  wf_handovers_old : Forall (fun h => (HandOver._id h < nextObjectId st)%nat) (handovers st);
  wf_products_old : Forall (fun p => (Product._id p < nextObjectId st)%nat) (products st);
  wf_created_order : nondecreasing (map Product.createdAt (products st)) = true;
  wf_productId_order : increasing (map Product.productId (products st)) = true;
  wf_productId_range :
    Forall (fun p => 1 <= Product.productId p <= seqOf st) (products st);
  wf_created_past : Forall (fun p => (Product.createdAt p <= clock st)%nat) (products st);
  wf_counter : 0 <= seqOf st
}.

(** A store with users only. *)
Definition initialStore (us : list User.doc) : Store := mkStore [] [] us None 0%nat 0%nat.

(* --------------------------------------------------------------------- *)
(** *** Stock conservation (claim C1) *)

Definition handoverOperation (req : Request) : bool :=
  match req with
  | POST_products _ _ | DELETE_products_id _ _ | PUT_products_id_stock _ _ _ _ => false
  | _ => true
  end.

(** The claim as the specification words it, for one persistence setting. *)
Definition stock_conservation (keepUndeclared : bool) : Prop :=
  forall (st : Store) (reqs : list Request) (pid : ObjectId),
    wf st = true ->
    forallb handoverOperation reqs = true ->
    hasProduct pid st = true ->
    ledger pid (run keepUndeclared reqs st) = ledger pid st.

(** The body value is the number [n]. *)
Definition isNumber (v : Json) (n : Z) : bool :=
  match v with
  | Number q => isWhole q && (truncate q =? n)
  | Text _ => false
  end.

(** The record carries no running total, or a number that is not
    negative. *)
Definition tallied (h : HandOver.doc) : bool :=
  match HandOver.returnedQuantity h with
  | None => true
  | Some (Num r) => 0 <=? r
  | Some (Str _) => false
  end.

(** The running total of a record, read as a number. *)
Definition tally (h : HandOver.doc) : Z :=
  match HandOver.returnedQuantity h with
  | Some (Num r) => r
  | _ => 0
  end.

(** The record as the employee return route leaves it in memory after a
    return of the number [q]. *)
Definition afterReturn (user : User.doc) (q : Z) (notes : option string) (now : Date)
  (h : HandOver.doc) : HandOver.doc :=
  let h' :=
    HandOver.set_returnNotes notes
      (HandOver.set_returnDate (Some now)
         (HandOver.set_returnedBy (Some (User._id user))
            (HandOver.set_returnedQuantity (Some (Num (tally h + q))) h))) in
  if HandOver.quantity h <=? tally h + q then HandOver.set_status returned h' else h'.

(** A handover operation that gives back exactly what it takes: an employee
    return hands in the whole quantity at once, as a number, and a manager
    return is not applied to a pending or rejected record. *)
Definition balanced (req : Request) (st : Store) : bool :=
  match req with
  | POST_handovers_id_return _ id q _ =>
      match findBy HandOver._id id (handovers st) with
      | Some h => isNumber q (HandOver.quantity h) && tallied h
      | None => true
      end
  | PUT_handovers_id_return _ id _ =>
      match findBy HandOver._id id (handovers st) with
      | Some h => Status_eqb (HandOver.status h) handed_over
                  || Status_eqb (HandOver.status h) returned
      | None => true
      end
  | req => handoverOperation req
  end.

Fixpoint balancedRun (keepUndeclared : bool) (reqs : list Request) (st : Store) : bool :=
  match reqs with
  | [] => true
  | req :: rest =>
      balanced req st && balancedRun keepUndeclared rest (snd (serve keepUndeclared req st))
  end.

(* --------------------------------------------------------------------- *)
(** *** Employee returns (claim C3) *)

(** The number that a [returnQuantity] stands for ([0] when it is none). *)
Definition amountOf (v : Json) : Z := orElse (castNumber (asJs v)) 0.

(** What the employee return calls on one handover have handed in so far:
    the sum of [returnQuantity] over the calls of the history that
    succeeded. *)
Fixpoint returnedSoFar (keepUndeclared : bool) (id : ObjectId)
  (history : list Request) (st : Store) : Z :=
  match history with
  | [] => 0
  | req :: rest =>
      (match req with
       | POST_handovers_id_return _ id' q _ =>
           if eqId id' id && isSuccess (fst (serve keepUndeclared req st))
           then amountOf q else 0
       | _ => 0
       end)
      + returnedSoFar keepUndeclared id rest (snd (serve keepUndeclared req st))
  end.

(** The claim as the specification words it: after any history, an employee
    return succeeds only within the outstanding amount, and beyond it fails
    and changes nothing. *)
Definition return_within_outstanding (keepUndeclared : bool) : Prop :=
  forall (st : Store) (history : list Request) (user : User.doc) (id : ObjectId)
         (returnQuantity : Json) (returnNotes : option string) (h : HandOver.doc),
    let now := run keepUndeclared history st in
    let out := post_handovers_id_return keepUndeclared user id returnQuantity returnNotes now in
    let outstanding := HandOver.quantity h - returnedSoFar keepUndeclared id history st in
    findBy HandOver._id id (handovers now) = Some h ->
    (isSuccess (fst out) = true ->
       HandOver.status h = handed_over
       /\ HandOver.employee h = User._id user
       /\ amountOf returnQuantity <= outstanding)
    /\ (outstanding < amountOf returnQuantity ->
          isSuccess (fst out) = false /\ snd out = now).

(* --------------------------------------------------------------------- *)
(** *** Decisions on a request (claim C6) *)

Inductive Decision :=
| Approve (approvalNotes : option string)
| Reject (rejectionReason : option string).

Definition decide (user : User.doc) (id : ObjectId) (d : Decision) : Request :=
  match d with
  | Approve approvalNotes => POST_handovers_id_approve user id approvalNotes
  | Reject rejectionReason => POST_handovers_id_reject user id rejectionReason
  end.

(** The decision passes the validators of its route. *)
Definition wellFormed (d : Decision) : bool :=
  match d with
  | Approve approvalNotes => optionalIsLength 500 approvalNotes
  | Reject rejectionReason =>
      notEmpty rejectionReason && optionalIsLength 500 rejectionReason
  end.

(* --------------------------------------------------------------------- *)
(** *** Product re-sequencing (claim C8) *)

(** Dense numbering by creation time, and the counter at the product count. *)
Definition renumbered (st : Store) : Prop :=
  map Product.productId (sortByCreatedAt (products st))
  = map Z.of_nat (seq 1 (List.length (products st)))
  /\ counter st = Some (Z.of_nat (List.length (products st))).


(** The products of a list numbered [i + 1], [i + 2], ... in list order. *)
Fixpoint numberedFrom (i : Z) (l : list Product.doc) : list Product.doc :=
  match l with
  | [] => []
  | p :: rest => Product.set_productId (i + 1) p :: numberedFrom (i + 1) rest
  end.

(* --------------------------------------------------------------------- *)
(** *** Role table (claim C9) *)




Definition with_permissions (v : User.permissionsT) (u : User.doc) : User.doc :=
  User.mk (User._id u) (User.firstName u) (User.lastName u) (User.email u)
    (User.role u) (User.isActive u) v.

Definition with_role (v : Role) (u : User.doc) : User.doc :=
  User.mk (User._id u) (User.firstName u) (User.lastName u) (User.email u)
    v (User.isActive u) (User.permissions u).

(* --------------------------------------------------------------------- *)
(** *** A small shop, for the examples *)

Definition noPermissions : User.permissionsT :=
  User.mkPermissions false false false false false false false false false false.

Definition anAdmin : User.doc :=
  User.preSave (User.mk 1%nat "Ada" "Root" "ada@iwiz.com" admin true noPermissions).
Definition aManager : User.doc :=
  User.preSave (User.mk 2%nat "Max" "Lead" "max@iwiz.com" manager true noPermissions).
Definition anEmployee : User.doc :=
  User.preSave (User.mk 3%nat "Eve" "Hand" "eve@iwiz.com" employee true noPermissions).
Definition theFailsafe : User.doc :=
  User.mk 4%nat "Irtaza" "Naqvi" User.FAILSAFE_EMAIL employee false noPermissions.

Definition staff : list User.doc := [anAdmin; aManager; anEmployee].

Definition newProduct (name : string) (quantity : Z) : Request :=
  POST_products aManager (mkProductBody (Some name) (Some quantity) None None).

(** One product, id [0], ten in stock. *)
Definition shop : Store := run false [newProduct "Drill" 10] (initialStore staff).

(** Three products, ids [0], [1], [2]. *)
Definition shop3 : Store :=
  run false [newProduct "Drill" 10; newProduct "Saw" 4; newProduct "Level" 7]
    (initialStore staff).

Definition issue (quantity : Z) (issuer : option ObjectId) : Request :=
  POST_handovers aManager
    (mkDirectBody (Some 0%nat) (Some 3%nat) quantity None None None issuer).

Definition ask (quantity : Z) (reason : string) : Request :=
  POST_handovers_request anEmployee (mkRequestBody (Some 0%nat) quantity (Some reason)).

Fixpoint repeatChar (c : ascii) (n : nat) : string :=
  match n with
  | O => EmptyString
  | S n' => String c (repeatChar c n')
  end.

(** Five hundred characters: the longest text the approve route lets in. *)
Definition longNotes : string := repeatChar "a"%char 500.

(** The shop after the employee asked for five drills: handover [1] is
    pending, the stock is still ten. *)
Definition shopWithRequest : Store := run false [ask 5 "need it"] shop.

(** The shop after eight drills were handed to the employee: handover [1]
    is handed over, the stock is two. *)
Definition shopAfterIssue (keepUndeclared : bool) : Store :=
  run keepUndeclared [issue 8 None] shop.

(* ===================================================================== *)
(** ** middleware/auth.js: authentication and role gates *)
(* ===================================================================== *)

(** The [Authorization] header as [jwt.verify] reads it: no token, a token
    that [jwt.verify] throws on, or a token that decodes to a user id. *)
Inductive Token :=
| NoToken
| Forged
| Decoded (id : ObjectId).

(** [auth]: on success the user found is what the next middleware sees as
    [req.user]. *)
Definition auth (token : Token) : M User.doc :=
  match token with
  | NoToken => respond (Message 401 "No token, authorization denied")
  | Forged => respond (Message 401 "Token is not valid")
  | Decoded id =>
      user <- User_findById id ;;
      match user with
      | None => respond (Message 401 "Token is not valid")
      | Some user =>
          if negb (User.isActive user)
          then respond (Message 401 "Account is deactivated")
          else ret user
      end
  end.

(** [checkRole(roles)], after [Array.isArray(roles) ? roles : [roles]]. *)
Definition checkRole (roles : list Role) (user : User.doc) : M unit :=
  if negb (existsb (Role_eqb (User.role user)) roles)
  then respond (Message 403 "Access denied. Insufficient role privileges.")
  else ret tt.

Definition adminOnly : User.doc -> M unit := checkRole [admin].
Definition managerAndAbove : User.doc -> M unit := checkRole [admin; manager].
Definition employeeAndAbove : User.doc -> M unit := checkRole [admin; manager; employee].

(** [userSchema.methods.isAdmin], [isManagerOrAbove], [isFailsafeAdmin]. *)
Definition isAdmin (this : User.doc) : bool := Role_eqb (User.role this) admin.

Definition isManagerOrAbove (this : User.doc) : bool :=
  Role_eqb (User.role this) admin || Role_eqb (User.role this) manager.

Definition isFailsafeAdmin (this : User.doc) : bool :=
  String.eqb (User.email this) User.FAILSAFE_EMAIL.

(** A callback whose last statement sends a payload of type [A]: the
    payload on the right, an earlier answer or the answer of the [catch]
    block on the left. *)
Definition handle {A} (body : M A) (onError : Error -> Response)
  : Store -> (Response + A) * Store :=
  fun st =>
    match body st with
    | (Return a, st') => (inr a, st')
    | (Respond r, st') => (inl r, st')
    | (Throw e, st') => (inl (onError e), st')
    end.

(* ===================================================================== *)
(** ** routes/users.js: account administration *)
(* ===================================================================== *)

Definition with_users (v : list User.doc) (st : Store) : Store :=
  mkStore (handovers st) (products st) v (counter st) (nextObjectId st) (clock st).

Definition with_isActive (v : bool) (u : User.doc) : User.doc :=
  User.mk (User._id u) (User.firstName u) (User.lastName u) (User.email u)
    (User.role u) v (User.permissions u).

Definition with_firstName (v : string) (u : User.doc) : User.doc :=
  User.mk (User._id u) (trim v) (User.lastName u) (User.email u)
    (User.role u) (User.isActive u) (User.permissions u).

Definition with_lastName (v : string) (u : User.doc) : User.doc :=
  User.mk (User._id u) (User.firstName u) (trim v) (User.email u)
    (User.role u) (User.isActive u) (User.permissions u).

(** The validators of [userSchema] on the paths that the routes below
    write: both names are [required] with [maxlength: 50].  The [email] and
    [password] paths are not written by these routes, and pass as they did
    when the document was stored. *)
Definition User_validate (u : User.doc) : bool :=
  notEmpty (Some (User.firstName u)) && (slen (User.firstName u) <=? 50)
  && notEmpty (Some (User.lastName u)) && (slen (User.lastName u) <=? 50).

(** [user.save()] on a user read from the collection: validation, the
    pre-save hook, the write. *)
Definition User_save (u : User.doc) : M User.doc :=
  if negb (User_validate u) then throw ValidationError
  else
    let saved := User.preSave u in
    modify (fun st => with_users (replaceBy User._id saved (users st)) st) ;;
    ret saved.

(** [User.findOne({ email })]; the address is given as the collection
    stores it (lower case, no blanks around it), which is what the setters
    of the schema make of a query value. *)
Definition User_findOne_email (email : string) : M (option User.doc) :=
  gets (fun st => find (fun u => String.eqb (User.email u) email) (users st)).

(** [User.findByIdAndDelete(id)]; the query hooks of the schema look for an
    [email] in the query, and a query by id has none. *)
Definition User_findByIdAndDelete (id : ObjectId) : M unit :=
  modify (fun st => with_users (removeBy User._id id (users st)) st).

(** The permission object that the update and fix-permissions routes
    assign before saving. *)
Definition permissionsOfRole (role : Role) : User.permissionsT :=
  User.mkPermissions
    true
    (Role_eqb role admin || Role_eqb role manager)
    (Role_eqb role admin || Role_eqb role manager)
    (Role_eqb role admin)
    (Role_eqb role admin || Role_eqb role manager)
    true
    (Role_eqb role admin || Role_eqb role manager)
    (Role_eqb role admin)
    (Role_eqb role employee)
    (Role_eqb role employee).

(** [req.body] of [PUT /api/users/:id] for a request that carries no
    [email], no [phone] and no file; [role] has passed [isIn]. *)
Record UserUpdate := mkUserUpdate {
  u_firstName : option string;
  u_lastName : option string;
  u_role : option Role
}.

(** [body(f).optional().trim().notEmpty()]. *)
Definition optionalTrimNotEmpty (s : option string) : bool :=
  match s with Some x => notEmpty (Some (trim x)) | None => true end.

(** [router.put('/:id')]: update a user (admin). *)
Definition put_users_id (user : User.doc) (id : ObjectId) (body : UserUpdate)
  : Store -> (Response + User.doc) * Store :=
  handle
    (checkRole [admin] user ;;
     let errors := validationResult
       [ (optionalTrimNotEmpty (u_firstName body), "First name cannot be empty");
         (optionalTrimNotEmpty (u_lastName body), "Last name cannot be empty") ] in
     if negb (isEmpty errors) then respond (ValidationErrors errors)
     else
       found <- User_findById id ;;
       match found with
       | None => respond (Message 404 "User not found")
       | Some target =>
           if String.eqb (User.email target) User.FAILSAFE_EMAIL
           then respond (Message 403 "Cannot modify failsafe admin account")
           else
             let target :=
               match option_map trim (u_firstName body) with
               | Some firstName => with_firstName firstName target
               | None => target
               end in
             let target :=
               match option_map trim (u_lastName body) with
               | Some lastName => with_lastName lastName target
               | None => target
               end in
             let target :=
               match u_role body with
               | Some role =>
                   if negb (Role_eqb role (User.role target))
                   then with_permissions (permissionsOfRole role) (with_role role target)
                   else with_role role target
               | None => target
               end in
             User_save target
       end)
    serverError.

(** [router.post('/fix-permissions/:email')]. *)
Definition post_users_fix_permissions (user : User.doc) (email : string)
  : Store -> Response * Store :=
  tryCatch
    (checkRole [admin] user ;;
     found <- User_findOne_email email ;;
     match found with
     | None => respond (Message 404 "User not found")
     | Some target =>
         User_save (with_permissions (permissionsOfRole (User.role target)) target) ;;
         respond (Message 200 ("Permissions fixed for " ++ email))
     end)
    serverError.

(** [router.delete('/:id')]. *)
Definition delete_users_id (user : User.doc) (id : ObjectId)
  : Store -> Response * Store :=
  tryCatch
    (checkRole [admin] user ;;
     found <- User_findById id ;;
     match found with
     | None => respond (Message 404 "User not found")
     | Some target =>
         if String.eqb (User.email target) User.FAILSAFE_EMAIL
         then respond (Message 403 "Cannot delete failsafe admin account")
         else
           User_findByIdAndDelete id ;;
           respond (Message 200 "User deleted successfully")
     end)
    serverError.

(** [router.put('/:id/toggle-status')]. *)
Definition put_users_id_toggle_status (user : User.doc) (id : ObjectId)
  : Store -> Response * Store :=
  tryCatch
    (checkRole [admin] user ;;
     found <- User_findById id ;;
     match found with
     | None => respond (Message 404 "User not found")
     | Some target =>
         if String.eqb (User.email target) User.FAILSAFE_EMAIL
         then respond (Message 403 "Cannot deactivate failsafe admin account")
         else
           saved <- User_save (with_isActive (negb (User.isActive target)) target) ;;
           respond (Message 200
             ("User " ++ (if User.isActive saved then "activated" else "deactivated")
              ++ " successfully"))
     end)
    serverError.

(** The four administration requests. *)
Inductive UserRequest :=
| PUT_users_id (user : User.doc) (id : ObjectId) (body : UserUpdate)
| POST_users_fix_permissions (user : User.doc) (email : string)
| DELETE_users_id (user : User.doc) (id : ObjectId)
| PUT_users_id_toggle_status (user : User.doc) (id : ObjectId).

(** The store after an administration request. *)
Definition administer (req : UserRequest) (st : Store) : Store :=
  match req with
  | PUT_users_id user id body => snd (put_users_id user id body st)
  | POST_users_fix_permissions user email => snd (post_users_fix_permissions user email st)
  | DELETE_users_id user id => snd (delete_users_id user id st)
  | PUT_users_id_toggle_status user id => snd (put_users_id_toggle_status user id st)
  end.

(** A request as it reaches a handover or product route: the token goes
    through [auth], and the user found there is the caller. *)
Definition authenticated (keepUndeclared : bool) (token : Token)
  (route : User.doc -> Request) (st : Store) : Response * Store :=
  match auth token st with
  | (Return user, st') => dispatch keepUndeclared (route user) st'
  | (Respond r, st') => (r, st')
  | (Throw _, st') => (Message 401 "Token is not valid", st')
  end.

(* ===================================================================== *)
(** ** routes/handovers.js: the read routes *)
(* ===================================================================== *)

(** The value of the [status] path as the query string names it. *)
Definition statusName (s : Status) : string :=
  match s with
  | pending => "pending"
  | handed_over => "handed_over"
  | returned => "returned"
  | rejected => "rejected"
  end.

(** [if (status) filter.status = status]: a missing or empty parameter
    does not filter. *)
Definition statusFilter (status : option string) (h : HandOver.doc) : bool :=
  match status with
  | Some EmptyString | None => true
  | Some s => String.eqb (statusName (HandOver.status h)) s
  end.

Definition idFilter (id : option ObjectId) (field : ObjectId) : bool :=
  match id with
  | Some i => eqId field i
  | None => true
  end.

(** [.sort({ createdAt: -1 })]: newest first; MongoDB leaves the order of
    documents of equal [createdAt] open, here they stay in collection
    order. *)
Fixpoint insertNewestFirst (h : HandOver.doc) (l : list HandOver.doc)
  : list HandOver.doc :=
  match l with
  | [] => [h]
  | x :: l' =>
      if (HandOver.createdAt x <=? HandOver.createdAt h)%nat
      then h :: l
      else x :: insertNewestFirst h l'
  end.

Definition sortNewestFirst (l : list HandOver.doc) : list HandOver.doc :=
  fold_right insertNewestFirst [] l.

(** [HandOver.find(filter).sort({ createdAt: -1 })]. *)
Definition HandOver_find (filter : HandOver.doc -> bool) : M (list HandOver.doc) :=
  gets (fun st => sortNewestFirst (List.filter filter (handovers st))).

(** [HandOver.countDocuments(filter)]. *)
Definition HandOver_countDocuments (filter : HandOver.doc -> bool) : M Z :=
  gets (fun st => Z.of_nat (List.length (List.filter filter (handovers st)))).

(** [req.query] of [GET /api/handovers].  No validator reads [page] and
    [limit]: when given, [page] is the numeral of an integer and [limit] the
    numeral of an integer that is not negative. *)
Record ListQuery := mkListQuery {
  q_page : option Z;
  q_limit : option N;
  q_status : option string;
  q_employee : option ObjectId;
  q_product : option ObjectId
}.

(** [pages] is [None] when [Math.ceil(total / limit)] is no finite number
    (a limit of [0]); JSON writes [null] for it. *)
Record Pagination := mkPagination {
  current : Z;
  pages : option Z;
  total : Z;
  limit : Z
}.

(** [Math.ceil(a / b)] for [0 <= a] and [0 <= b]. *)
Definition ceilDiv (a b : Z) : option Z :=
  if b =? 0 then None else Some ((a + b - 1) / b).

(** The [filter] object that the list route builds from the query. *)
Definition listFilter (query : ListQuery) (h : HandOver.doc) : bool :=
  statusFilter (q_status query) h
  && idFilter (q_employee query) (HandOver.employee h)
  && idFilter (q_product query) (HandOver.product h).

(** [HandOver.find(filter).sort({ createdAt: -1 }).limit(limit).skip(skip)]:
    MongoDB sorts, then skips, then limits, in whatever order the calls are
    made; a limit of [0] is no limit, and the server refuses a negative
    skip. *)
Definition HandOver_find_limit_skip (filter : HandOver.doc -> bool) (limit : N)
  (skip : Z) : M (list HandOver.doc) :=
  if skip <? 0 then throw MongoServerError
  else
    found <- HandOver_find filter ;;
    let rest := skipn (Z.to_nat skip) found in
    ret (if (limit =? 0)%N then rest else firstn (N.to_nat limit) rest).

(** [router.get('/')]: one page of the filtered handovers. *)
Definition get_handovers (user : User.doc) (query : ListQuery)
  : Store -> (Response + list HandOver.doc * Pagination) * Store :=
  handle
    (checkPermission User.canViewProducts user ;;
     let page := orElse (q_page query) 1 in
     let limit := orElse (q_limit query) 50%N in
     handovers <-
       HandOver_find_limit_skip (listFilter query) limit ((page - 1) * Z.of_N limit) ;;
     total <- HandOver_countDocuments (listFilter query) ;;
     ret (handovers,
          mkPagination page (ceilDiv total (Z.of_N limit)) total (Z.of_N limit)))
    serverError.

Record Stats := mkStats {
  s_total : Z;
  s_active : Z;
  s_returned : Z;
  s_overdue : Z
}.

(** [expectedReturnDate: { $lt: now }]: a record without the date does not
    match. *)
Definition isOverdue (now : Date) (h : HandOver.doc) : bool :=
  Status_eqb (HandOver.status h) handed_over
  && match HandOver.expectedReturnDate h with
     | Some d => (d <? now)%nat
     | None => false
     end.

(** [router.get('/stats')]. *)
Definition get_handovers_stats (user : User.doc)
  : Store -> (Response + Stats * list HandOver.doc) * Store :=
  handle
    (checkPermission User.canViewProducts user ;;
     totalHandovers <- HandOver_countDocuments (fun _ => true) ;;
     activeHandovers <-
       HandOver_countDocuments (fun h => Status_eqb (HandOver.status h) handed_over) ;;
     returnedHandovers <-
       HandOver_countDocuments (fun h => Status_eqb (HandOver.status h) returned) ;;
     now <- newDate ;;
     overdueHandovers <- HandOver_countDocuments (isOverdue now) ;;
     found <- HandOver_find (fun _ => true) ;;
     ret (mkStats totalHandovers activeHandovers returnedHandovers overdueHandovers,
          firstn 5 found))
    serverError.


(** [router.get('/pending')]: the requests that wait for a decision. *)
Definition get_handovers_pending (user : User.doc)
  : Store -> (Response + list HandOver.doc) * Store :=
  handle
    (checkPermission User.canManageProducts user ;;
     HandOver_find (fun h => Status_eqb (HandOver.status h) pending))
    serverError.

(* ===================================================================== *)
(** ** routes/products.js: the update route *)
(* ===================================================================== *)

(** [Product.findByIdAndUpdate(id, updateData, { new: true, runValidators:
    true })] with the name (which the route has trimmed) and the stock
    object of [updateData]: the validators of the written paths run, the
    save hook does not. *)
Definition Product_findByIdAndUpdate (id : ObjectId) (name : string)
  (stock : Product.stockT) : M unit :=
  if negb (Product.validate (Product.mk id 0 name stock 0%nat))
  then throw ValidationError
  else
    modify (fun st =>
      with_products
        (map (fun x =>
                if eqId (Product._id x) id
                then Product.mk (Product._id x) (Product.productId x) name stock
                       (Product.createdAt x)
                else x)
             (products st)) st).

(** [router.put('/:id')]: update a product. *)
Definition put_products_id (user : User.doc) (id : ObjectId) (body : ProductBody)
  : Store -> Response * Store :=
  tryCatch
    (checkPermission User.canEditProducts user ;;
     if negb (isEmpty (validateProduct body)) then respond (Message 400 "Validation failed")
     else
       found <- Product_findById id ;;
       match found with
       | None => respond (Message 404 "Product not found")
       | Some product =>
           let stock := Product.stock product in
           Product_findByIdAndUpdate id
             (trim (orElse (option_map trim (b_name body)) ""))
             (Product.mkStock
                (parseIntOr (b_stockQuantity body) (Product.quantity stock))
                (parseIntOr (b_minStock body) (Product.minStock stock))
                (parseIntOr (b_maxStock body) (Product.maxStock stock))
                (Product.lastRestocked stock)) ;;
           respond (Message 200 "Product updated successfully")
       end)
    (fun error =>
       match error with
       | ValidationError => Message 400 "Validation failed"
       | _ => Message 500 "Failed to update product"
       end).

(* ===================================================================== *)
(** ** Vocabulary of the further properties *)
(* ===================================================================== *)

(** The permission flag that guards each writing route. *)
Definition guardOf (req : Request) : User.permissionsT -> bool :=
  match req with
  | POST_handovers _ _ => User.canManageProducts
  | PUT_handovers_id_return _ _ _ => User.canManageProducts
  | POST_handovers_request _ _ => User.canRequestHandover
  | POST_handovers_id_return _ _ _ _ => User.canReturnHandover
  | POST_handovers_id_approve _ _ _ => User.canManageProducts
  | POST_handovers_id_reject _ _ _ => User.canManageProducts
  | DELETE_handovers_id _ _ => User.canManageProducts
  | POST_products _ _ => User.canAddProducts
  | DELETE_products_id _ _ => User.canDeleteProducts
  | PUT_products_id_stock _ _ _ _ => User.canManageProducts
  end.

(** Who sends a request. *)
Definition callerOf (req : Request) : User.doc :=
  match req with
  | POST_handovers user _ => user
  | PUT_handovers_id_return user _ _ => user
  | POST_handovers_request user _ => user
  | POST_handovers_id_return user _ _ _ => user
  | POST_handovers_id_approve user _ _ => user
  | POST_handovers_id_reject user _ _ => user
  | DELETE_handovers_id user _ => user
  | POST_products user _ => user
  | DELETE_products_id user _ => user
  | PUT_products_id_stock user _ _ _ => user
  end.

Definition AccessDenied : Response :=
  Message 403 "Access denied. Insufficient permissions.".

(** The roles that a route is meant for. *)
Definition rolesOf (req : Request) : list Role :=
  match req with
  | POST_handovers_request _ _ | POST_handovers_id_return _ _ _ _ => [employee]
  | DELETE_products_id _ _ => [admin]
  | _ => [admin; manager]
  end.

(** The status changes that a stored record can go through. *)
Definition mayFollow (before after : Status) : bool :=
  match before, after with
  | pending, _ => true
  | handed_over, (handed_over | returned) => true
  | rejected, (rejected | returned) => true
  | returned, returned => true
  | _, _ => false
  end.

(** What a stored record keeps for life. *)
Definition sameRecord (h h' : HandOver.doc) : Prop :=
  HandOver._id h' = HandOver._id h
  /\ HandOver.product h' = HandOver.product h
  /\ HandOver.employee h' = HandOver.employee h
  /\ HandOver.quantity h' = HandOver.quantity h
  /\ HandOver.purpose h' = HandOver.purpose h
  /\ HandOver.createdAt h' = HandOver.createdAt h.

(** What one request can do to a stored record: keep it, with its terms
    and a status that may follow the old one, or delete it. *)
Definition stepOf (id : ObjectId) (h : HandOver.doc) (req : Request) (st' : Store) : Prop :=
  match findBy HandOver._id id (handovers st') with
  | Some h' =>
      sameRecord h h' /\ mayFollow (HandOver.status h) (HandOver.status h') = true
  | None =>
      exists user, req = DELETE_handovers_id user id
                   /\ User.canManageProducts (User.permissions user) = true
  end.

(** Sequence numbers without gaps: the products carry 1, 2, ..., n in
    collection order, and the counter stands at n. *)
Definition numberedDensely (st : Store) : Prop :=
  map Product.productId (products st)
  = map Z.of_nat (seq 1 (List.length (products st)))
  /\ seqOf st = Z.of_nat (List.length (products st)).

(** A create request that the validators let through, with a usable
    [maxStock]. *)
Definition creatable (body : ProductBody) : bool :=
  isEmpty (validateProduct body) && optionalIsIntMin 0 (b_maxStock body).

(** The same query for another page. *)
Definition turnTo (page : Z) (query : ListQuery) : ListQuery :=
  mkListQuery (Some page) (q_limit query) (q_status query) (q_employee query)
    (q_product query).

(** The payload of a read route, when it sent one. *)
Definition payload {A} (out : (Response + A) * Store) : option A :=
  match fst out with
  | inr a => Some a
  | inl _ => None
  end.

(** The records on a page of the list route. *)
Definition pageOf (user : User.doc) (query : ListQuery) (st : Store) (page : nat)
  : list HandOver.doc :=
  match payload (get_handovers user (turnTo (Z.of_nat page) query) st) with
  | Some (handovers, _) => handovers
  | None => []
  end.

(** The number of pages that the list route announces ([0] when it
    announces none). *)
Definition pagesOf (user : User.doc) (query : ListQuery) (st : Store) : nat :=
  match payload (get_handovers user query st) with
  | Some (_, pagination) => Z.to_nat (orElse (pages pagination) 0)
  | None => 0%nat
  end.

(** The [total] that the list route announces for a query. *)
Definition totalOf (user : User.doc) (query : ListQuery) (st : Store) : Z :=
  match payload (get_handovers user query st) with
  | Some (_, pagination) => total pagination
  | None => 0
  end.

(** The list query for one status, [limit] records a page. *)
Definition byStatus (limit : N) (status : option Status) : ListQuery :=
  mkListQuery None (Some limit) (option_map statusName status) None None.

(** Who sends an administration request. *)
Definition senderOf (req : UserRequest) : User.doc :=
  match req with
  | PUT_users_id user _ _ => user
  | POST_users_fix_permissions user _ => user
  | DELETE_users_id user _ => user
  | PUT_users_id_toggle_status user _ => user
  end.

(** The store after a sequence of administration requests. *)
Fixpoint administerAll (reqs : list UserRequest) (st : Store) : Store :=
  match reqs with
  | [] => st
  | req :: rest => administerAll rest (administer req st)
  end.

(** A gate lets the request through to the route. *)
Definition passes (gate : M unit) (st : Store) : bool :=
  match gate st with
  | (Return _, _) => true
  | _ => false
  end.

(* ===================================================================== *)
(** ** Proof tools *)
(* ===================================================================== *)

(** Expose the control flow of a callback ... *)
Ltac callback_unfold :=
  cbv beta iota zeta delta
    [tryCatch bind ret respond throw gets modify checkPermission newDate
     newObjectId HandOver_findById_populate HandOver_findById Product_findById
     User_findById HandOver_save HandOver_saveNew Product_save
     HandOver_findByIdAndDelete Product_findByIdAndDelete serverError].

(** ... and follow it, one test at a time, innermost test first. *)
Ltac case_step :=
  match goal with
  | |- context [match ?c with _ => _ end] =>
      lazymatch c with
      | context [match _ with _ => _ end] => fail
      | _ => destruct c eqn:?
      end
  end.

Ltac run_callback := callback_unfold; repeat (case_step; cbv beta iota zeta).

(* ===================================================================== *)
(** ** The pre-save hook of a user *)
(* ===================================================================== *)

Lemma preSave_failsafe (u : User.doc) :
  User.email u = User.FAILSAFE_EMAIL ->
  User.role (User.preSave u) = admin
  /\ User.isActive (User.preSave u) = true
  /\ User.permissions (User.preSave u)
     = User.mkPermissions true true true true true true true true false false.
Proof.
  intros E. unfold User.preSave. rewrite E, String.eqb_refl. cbn. auto.
Qed.


(** The flags after a save are a function of the role after the save. *)
Lemma preSave_flags_of_role (u v : User.doc) :
  User.role (User.preSave u) = User.role (User.preSave v) ->
  User.permissions (User.preSave u) = User.permissions (User.preSave v).
Proof.
  unfold User.preSave.
  destruct (String.eqb (User.email u) User.FAILSAFE_EMAIL),
           (String.eqb (User.email v) User.FAILSAFE_EMAIL);
    cbn; destruct (User.role u), (User.role v); intros R;
    try discriminate R; reflexivity.
Qed.

(* ===================================================================== *)
(** ** The issuer of a direct handover (claim C10) *)
(* ===================================================================== *)

(** C10.  A direct handover that succeeds records as [handedOverBy] the
    [handedOverBy] field of the request body when the body has one, and the
    caller's id only when it has none; the record is appended to the
    collection as built; and there is a request whose recorded issuer is not
    the caller. *)
Theorem C10_issuer_taken_from_body :
  (forall keep user body st code msg h st',
      post_handovers keep user body st = (WithHandover code msg h, st') ->
      HandOver.handedOverBy h
      = Some (match d_handedOverBy body with
              | Some other => other
              | None => User._id user
              end)
      /\ handovers st' = (handovers st ++ [HandOver.stored keep h])%list)
  /\ (exists h st',
        post_handovers false aManager
          (mkDirectBody (Some 0%nat) (Some 3%nat) 4 None None None (Some 1%nat)) shop
        = (WithHandover 201 "Item handed over successfully" h, st')
        /\ HandOver.handedOverBy h = Some (User._id anAdmin)
        /\ User._id anAdmin <> User._id aManager).
Proof.
  split.
  - intros keep user body st code msg h st'.
    unfold post_handovers.
    run_callback; intros H; inversion H; subst; clear H; cbn; split; reflexivity.
  - eexists. eexists. split; [vm_compute; reflexivity |].
    split; [reflexivity | discriminate].
Qed.

Lemma C10_witness :
  exists h st',
    post_handovers false aManager (mkDirectBody (Some 0%nat) (Some 3%nat) 4 None None None None) shop
    = (WithHandover 201 "Item handed over successfully" h, st')
    /\ HandOver.handedOverBy h = Some (User._id aManager).
Proof.
  eexists. eexists.
  assert (E : post_handovers false aManager
                (mkDirectBody (Some 0%nat) (Some 3%nat) 4 None None None None) shop
              = (WithHandover 201 "Item handed over successfully"
                   (HandOver.mk 1%nat 0%nat 3%nat (Some 2%nat) 4 None None handed_over
                      1%nat None None None None None None None 1%nat None None),
                 snd (post_handovers false aManager
                        (mkDirectBody (Some 0%nat) (Some 3%nat) 4 None None None None) shop)))
    by (vm_compute; reflexivity).
  split; [exact E |].
  exact (proj1 (proj1 C10_issuer_taken_from_body _ _ _ _ _ _ _ _ E)).
Defined.

(* ===================================================================== *)
(** ** Collections and text *)
(* ===================================================================== *)

Section Collections.

Context {D : Type} (key : D -> ObjectId).

Lemma eqId_true (a b : ObjectId) : eqId a b = true <-> a = b.
Proof. apply Nat.eqb_eq. Qed.

Lemma eqId_false (a b : ObjectId) : eqId a b = false <-> a <> b.
Proof. apply Nat.eqb_neq. Qed.

Lemma eqId_refl (a : ObjectId) : eqId a a = true.
Proof. apply Nat.eqb_refl. Qed.

Lemma findBy_key id l d : findBy key id l = Some d -> key d = id.
Proof.
  unfold findBy. intros H. apply find_some in H. apply eqId_true, H.
Qed.

Lemma findBy_In id l d : findBy key id l = Some d -> In d l.
Proof.
  unfold findBy. intros H. apply find_some in H. apply H.
Qed.

Lemma map_key_replaceBy d l : map key (replaceBy key d l) = map key l.
Proof.
  unfold replaceBy. induction l as [| x l IH]; cbn; [reflexivity |].
  rewrite IH. destruct (eqId (key x) (key d)) eqn:E; [| reflexivity].
  apply eqId_true in E. rewrite E. reflexivity.
Qed.

Lemma Forall_replaceBy (P : D -> Prop) d l :
  P d -> Forall P l -> Forall P (replaceBy key d l).
Proof.
  intros Hd Hl. unfold replaceBy. apply Forall_map.
  eapply Forall_impl; [| exact Hl]. cbn. intros x Hx.
  destruct (eqId (key x) (key d)); assumption.
Qed.

Lemma findBy_removeBy_same id l : findBy key id (removeBy key id l) = None.
Proof.
  unfold findBy, removeBy. induction l as [| x l IH]; cbn; [reflexivity |].
  destruct (eqId (key x) id) eqn:E; cbn; [exact IH |]. rewrite E. exact IH.
Qed.

Lemma Forall_removeBy (P : D -> Prop) id l : Forall P l -> Forall P (removeBy key id l).
Proof.
  intros H. unfold removeBy. apply Forall_forall. intros x Hx.
  apply filter_In in Hx. rewrite Forall_forall in H. apply H, Hx.
Qed.

Lemma findBy_replaceBy id d l :
  findBy key id (replaceBy key d l)
  = match findBy key id l with
    | Some x => Some (if eqId (key x) (key d) then d else x)
    | None => None
    end.
Proof.
  unfold findBy, replaceBy. induction l as [| x l IH]; cbn; [reflexivity |].
  destruct (eqId (key x) (key d)) eqn:E.
  - apply eqId_true in E.
    replace (eqId (key d) id) with (eqId (key x) id) by (rewrite E; reflexivity).
    destruct (eqId (key x) id) eqn:E'; [| exact IH].
    rewrite E, eqId_refl. reflexivity.
  - destruct (eqId (key x) id) eqn:E'; [| exact IH].
    rewrite E. reflexivity.
Qed.

End Collections.

Lemma length_revOnto (s acc : string) :
  String.length (revOnto s acc) = (String.length s + String.length acc)%nat.
Proof.
  revert acc. induction s as [| c s IH]; intros acc; cbn; [reflexivity |].
  rewrite IH. cbn. lia.
Qed.

Lemma length_trimStart (s : string) : (String.length (trimStart s) <= String.length s)%nat.
Proof.
  induction s as [| c s IH]; cbn; [lia |].
  destruct (isSpace c); cbn; lia.
Qed.

(** Trimming never lengthens a text, so a text that passed the route's
    length check passes the schema's as well. *)
Lemma slen_trim (s : string) : slen (trim s) <= slen s.
Proof.
  unfold slen, trim, reverse. apply inj_le.
  rewrite length_revOnto. cbn [String.length]. rewrite Nat.add_0_r.
  etransitivity; [apply length_trimStart |].
  rewrite length_revOnto. cbn [String.length]. rewrite Nat.add_0_r.
  apply length_trimStart.
Qed.

Lemma maxlength_trim n (s : option string) :
  maxlength n s = true -> maxlength n (option_map trim s) = true.
Proof.
  destruct s as [x |]; cbn; [| reflexivity].
  intros H. apply Z.leb_le in H. apply Z.leb_le.
  pose proof (slen_trim x). lia.
Qed.

(** Whole numbers in a request body. *)
Lemma truncate_whole z : truncate (inject_Z z) = z.
Proof. unfold truncate, inject_Z. cbn [Qnum Qden]. apply Z.quot_1_r. Qed.

Lemma isWhole_whole z : isWhole (inject_Z z) = true.
Proof. unfold isWhole, inject_Z. cbn [Qnum Qden]. rewrite Z.rem_1_r. reflexivity. Qed.

Lemma isInt_whole m z : isInt m (whole z) = (m <=? z).
Proof.
  unfold isInt, whole. rewrite isWhole_whole. cbn [andb].
  unfold Qle_bool, inject_Z. cbn [Qnum Qden]. rewrite !Z.mul_1_r. reflexivity.
Qed.

Lemma asJs_whole z : asJs (whole z) = Num z.
Proof. unfold asJs, whole. rewrite truncate_whole. reflexivity. Qed.

Lemma isNumber_whole z : isNumber (whole z) z = true.
Proof.
  unfold isNumber, whole. rewrite isWhole_whole, truncate_whole, Z.eqb_refl. reflexivity.
Qed.

Lemma isNumber_asJs v n : isNumber v n = true -> asJs v = Num n.
Proof.
  destruct v as [q | s]; cbn; [| discriminate].
  intros H. apply andb_true_iff in H as (_ & E). apply Z.eqb_eq in E. rewrite E. reflexivity.
Qed.

Lemma isNumber_isInt v n m : isNumber v n = true -> isInt m v = (m <=? n).
Proof.
  destruct v as [q | s]; cbn; [| discriminate].
  intros H. apply andb_true_iff in H as (Wh & E). rewrite Wh. cbn [andb].
  unfold isWhole in Wh. unfold truncate in E. apply Z.eqb_eq in Wh, E.
  unfold Qle_bool, inject_Z. cbn [Qnum Qden]. rewrite Z.mul_1_r.
  pose proof (Z.quot_rem' (Qnum q) (Z.pos (Qden q))) as D. rewrite Wh, E in D.
  rewrite D, Z.add_0_r, (Z.mul_comm (Z.pos (Qden q)) n).
  destruct (m <=? n) eqn:L.
  - apply Z.leb_le. apply Z.leb_le in L. nia.
  - apply Z.leb_gt. apply Z.leb_gt in L. nia.
Qed.

Lemma or_tallied h : tallied h = true -> JS.or (HandOver.returnedQuantity h) (Num 0) = Num (tally h).
Proof.
  unfold tallied, tally. destruct (HandOver.returnedQuantity h) as [[[| r | r] | s] |];
    cbn; intros H; try discriminate H; reflexivity.
Qed.

Lemma tally_nonneg h : tallied h = true -> 0 <= tally h.
Proof.
  unfold tallied, tally. destruct (HandOver.returnedQuantity h) as [[r | s] |];
    intros H; try discriminate H; [apply Z.leb_le, H | lia].
Qed.

(** One failing validator makes the error list non-empty. *)
Lemma validationResult_passes checks :
  isEmpty (validationResult checks) = forallb fst checks.
Proof.
  unfold validationResult. induction checks as [| [b m] l IH]; cbn; [reflexivity |].
  destruct b; cbn; [exact IH | reflexivity].
Qed.

(* ===================================================================== *)
(** ** Role-derived permissions (claim C9) *)
(* ===================================================================== *)

Lemma preSave_id (u : User.doc) : User._id (User.preSave u) = User._id u.
Proof. unfold User.preSave. destruct (String.eqb _ _); reflexivity. Qed.





(* ===================================================================== *)
(** ** Approval and rejection (claims C5 and C6) *)
(* ===================================================================== *)

(** Reduce the tests whose outcome is known. *)
Ltac settle :=
  cbv beta iota zeta delta
    [negb andb orb isEmpty validationResult filter map fst snd isSome orElse].

Ltac use_known :=
  match goal with
  | H : ?l = true |- context [?l] => rewrite H
  | H : ?l = false |- context [?l] => rewrite H
  | H : ?l = Some _ |- context [?l] => rewrite H
  | H : ?l = None |- context [?l] => rewrite H
  end.

(** Follow a callback along the path that the hypotheses select, and along
    every path where they do not decide. *)
Ltac follow := callback_unfold; repeat (first [use_known | case_step]; settle).

Lemma Status_eqb_eq (a b : Status) : Status_eqb a b = true <-> a = b.
Proof. destruct a, b; cbn; split; intros H; try discriminate H; reflexivity. Qed.

Lemma Status_eqb_neq (a b : Status) : Status_eqb a b = false <-> a <> b.
Proof.
  destruct a, b; cbn; split; intros H; try discriminate H; try reflexivity;
    try (intros E; discriminate E); exfalso; apply H; reflexivity.
Qed.

Lemma stored_id keep h : HandOver._id (HandOver.stored keep h) = HandOver._id h.
Proof. destruct keep; reflexivity. Qed.

Lemma stored_status keep h : HandOver.status (HandOver.stored keep h) = HandOver.status h.
Proof. destruct keep; reflexivity. Qed.

Lemma stored_validate keep h :
  HandOver.validate (HandOver.stored keep h) = HandOver.validate h.
Proof. destruct keep; reflexivity. Qed.

(** The approve route, case by case. *)
Lemma approve_not_pending keep user id notes st h :
  findBy HandOver._id id (handovers st) = Some h ->
  HandOver.status h <> pending ->
  snd (post_handovers_id_approve keep user id notes st) = st
  /\ (User.canManageProducts (User.permissions user) = true ->
      optionalIsLength 500 notes = true ->
      fst (post_handovers_id_approve keep user id notes st) = NotPending).
Proof.
  intros F N. apply Status_eqb_neq in N.
  unfold post_handovers_id_approve. split.
  - follow; reflexivity.
  - intros P V. follow. reflexivity.
Qed.

Lemma approve_insufficient keep user id notes st h p :
  User.canManageProducts (User.permissions user) = true ->
  optionalIsLength 500 notes = true ->
  findBy HandOver._id id (handovers st) = Some h ->
  HandOver.status h = pending ->
  findBy Product._id (HandOver.product h) (products st) = Some p ->
  Product.quantity (Product.stock p) < HandOver.quantity h ->
  post_handovers_id_approve keep user id notes st = (InsufficientStock, st).
Proof.
  intros P V F S G L. apply Z.ltb_lt in L. apply Status_eqb_eq in S.
  unfold post_handovers_id_approve. follow. reflexivity.
Qed.

Ltac store_simpl :=
  cbn [handovers products users counter nextObjectId clock
       with_handovers with_products with_counter with_nextObjectId with_clock tick].

(** Turn the boolean tests met along a path into propositions. *)
Ltac tidy :=
  repeat match goal with
    | H : eqId _ _ = true |- _ => apply eqId_true in H
    | H : eqId _ _ = false |- _ => apply eqId_false in H
    | H : Status_eqb _ _ = true |- _ => apply Status_eqb_eq in H
    | H : Status_eqb _ _ = false |- _ => apply Status_eqb_neq in H
    | H : isIntMin _ _ = true |- _ => unfold isIntMin in H
    | H : isIntMin _ _ = false |- _ => unfold isIntMin in H
    | H : (_ <? _) = true |- _ => apply Z.ltb_lt in H
    | H : (_ <? _) = false |- _ => apply Z.ltb_ge in H
    | H : (_ <=? _) = true |- _ => apply Z.leb_le in H
    | H : (_ <=? _) = false |- _ => apply Z.leb_gt in H
    end.

Ltac store_simpl_in H :=
  cbn [handovers products users counter nextObjectId clock
       with_handovers with_products with_counter with_nextObjectId with_clock tick] in H.

Lemma touchRestocked_id now old p : Product._id (touchRestocked now old p) = Product._id p.
Proof.
  unfold touchRestocked. destruct old as [o |]; [| reflexivity].
  destruct (_ =? _); reflexivity.
Qed.

Lemma touchRestocked_quantity now old p :
  Product.quantity (Product.stock (touchRestocked now old p))
  = Product.quantity (Product.stock p).
Proof.
  unfold touchRestocked. destruct old as [o |]; [| reflexivity].
  destruct (_ =? _); reflexivity.
Qed.

Lemma touchRestocked_validate now old p :
  Product.validate (touchRestocked now old p) = Product.validate p.
Proof.
  unfold touchRestocked. destruct old as [o |]; [| reflexivity].
  destruct (_ =? _); reflexivity.
Qed.

Lemma touchRestocked_productId now old p :
  Product.productId (touchRestocked now old p) = Product.productId p.
Proof.
  unfold touchRestocked. destruct old as [o |]; [| reflexivity].
  destruct (_ =? _); reflexivity.
Qed.

Lemma touchRestocked_createdAt now old p :
  Product.createdAt (touchRestocked now old p) = Product.createdAt p.
Proof.
  unfold touchRestocked. destruct old as [o |]; [| reflexivity].
  destruct (_ =? _); reflexivity.
Qed.

(** Stock after [product.save()] wrote [p]. *)
Lemma stockOf_saved pid now old p st :
  stockOf pid
    (with_products (replaceBy Product._id (touchRestocked now old p) (products st)) st)
  = if eqId (Product._id p) pid && hasProduct pid st
    then Product.quantity (Product.stock p)
    else stockOf pid st.
Proof.
  unfold stockOf, hasProduct. store_simpl. rewrite findBy_replaceBy.
  rewrite touchRestocked_id.
  destruct (findBy Product._id pid (products st)) as [x |] eqn:F.
  - apply findBy_key in F as K. rewrite K. cbn [isSome].
    destruct (eqId pid (Product._id p)) eqn:E.
    + apply eqId_true in E. rewrite <- E, eqId_refl. cbn.
      apply touchRestocked_quantity.
    + apply eqId_false in E.
      destruct (eqId (Product._id p) pid) eqn:E'; [| reflexivity].
      apply eqId_true in E'. congruence.
  - cbn [isSome]. rewrite andb_false_r. reflexivity.
Qed.

Lemma HandOver_validate_iff h :
  HandOver.validate h = true <->
  1 <= HandOver.quantity h
  /\ (HandOver.status h = handed_over -> isSome (HandOver.handedOverBy h) = true)
  /\ maxlength 200 (HandOver.purpose h) = true
  /\ maxlength 500 (HandOver.notes h) = true
  /\ maxlength 500 (HandOver.returnNotes h) = true
  /\ maxlength 500 (HandOver.rejectionReason h) = true
  /\ maxlength 500 (HandOver.approvalNotes h) = true.
Proof.
  unfold HandOver.validate. rewrite !andb_true_iff, Z.leb_le.
  assert (S : (if Status_eqb (HandOver.status h) handed_over
               then match HandOver.handedOverBy h with Some _ => true | None => false end
               else true) = true
              <-> (HandOver.status h = handed_over -> isSome (HandOver.handedOverBy h) = true)).
  { destruct (HandOver.status h), (HandOver.handedOverBy h); cbn; split; intros H;
      try reflexivity; try discriminate; try (intros E; discriminate E);
      apply H; reflexivity. }
  rewrite S. tauto.
Qed.

Lemma Product_validate_quantity q p :
  Product.validate p = true -> 0 <= q -> Product.validate (Product.set_quantity q p) = true.
Proof.
  unfold Product.validate. cbn. rewrite !andb_true_iff, !Z.leb_le. tauto.
Qed.

Lemma Product_validate_nonneg p :
  Product.validate p = true -> 0 <= Product.quantity (Product.stock p).
Proof.
  unfold Product.validate. rewrite !andb_true_iff, !Z.leb_le. tauto.
Qed.

Lemma approve_commits keep user id notes st h p :
  User.canManageProducts (User.permissions user) = true ->
  optionalIsLength 500 notes = true ->
  findBy HandOver._id id (handovers st) = Some h ->
  HandOver.status h = pending ->
  findBy Product._id (HandOver.product h) (products st) = Some p ->
  HandOver.quantity h <= Product.quantity (Product.stock p) ->
  HandOver.validate h = true ->
  Product.validate p = true ->
  slen (trim (approvedNotes user notes (HandOver.notes h))) <= 500 ->
  exists h' st',
    post_handovers_id_approve keep user id notes st
    = (WithHandover 200 "Handover request approved successfully" h', st')
    /\ HandOver.status h' = handed_over
    /\ HandOver.handedOverBy h' = Some (User._id user)
    /\ HandOver.handOverDate h' = clock st
    /\ HandOver.quantity h' = HandOver.quantity h
    /\ findBy HandOver._id id (handovers st') = Some (HandOver.stored keep h')
    /\ stockOf (HandOver.product h) st'
       = Product.quantity (Product.stock p) - HandOver.quantity h.
Proof.
  intros P V F S G L VH VP Fit.
  apply Z.ltb_ge in L. apply Status_eqb_eq in S.
  apply HandOver_validate_iff in VH as (Q & _ & VPu & _ & VR & VJ & _).
  unfold post_handovers_id_approve. follow.
  - match goal with |- context [WithHandover _ _ ?d] => set (h' := d) in * end.
    exists h'. eexists. split; [reflexivity |].
    assert (I : HandOver._id h' = id) by (apply (findBy_key _ _ _ _ F)).
    repeat (split; [reflexivity |]). split.
    + store_simpl. rewrite findBy_replaceBy, F, stored_id, I.
      apply findBy_key in F. rewrite F, eqId_refl. reflexivity.
    + rewrite stockOf_saved. cbn [Product.set_quantity Product._id].
      apply findBy_key in G as K. rewrite K, eqId_refl.
      unfold hasProduct. store_simpl. rewrite G. reflexivity.
  - exfalso. rewrite Product_validate_quantity in Heqb0; [discriminate | exact VP |].
    cbn. lia.
  - exfalso.
    assert (T : forall b, b = false -> b = true -> False) by (intros; congruence).
    apply (T _ Heqb). apply HandOver_validate_iff. cbn.
    repeat split; try assumption; try reflexivity.
    + apply Z.leb_le. exact Fit.
    + apply maxlength_trim. exact V.
Qed.

Lemma approve_notes_overflow keep user id notes st h p :
  User.canManageProducts (User.permissions user) = true ->
  optionalIsLength 500 notes = true ->
  findBy HandOver._id id (handovers st) = Some h ->
  HandOver.status h = pending ->
  findBy Product._id (HandOver.product h) (products st) = Some p ->
  HandOver.quantity h <= Product.quantity (Product.stock p) ->
  500 < slen (trim (approvedNotes user notes (HandOver.notes h))) ->
  post_handovers_id_approve keep user id notes st = (Message 500 "Server error", st).
Proof.
  intros P V F S G L Long.
  apply Z.ltb_ge in L. apply Status_eqb_eq in S.
  unfold post_handovers_id_approve. follow; try reflexivity; exfalso.
  all: apply HandOver_validate_iff in Heqb as (_ & _ & _ & N & _);
    cbn in N; apply Z.leb_le in N; lia.
Qed.

Lemma approve_success keep user id notes st :
  isSuccess (fst (post_handovers_id_approve keep user id notes st)) = true ->
  exists h',
    findBy HandOver._id id (handovers (snd (post_handovers_id_approve keep user id notes st)))
    = Some h'
    /\ HandOver.status h' = handed_over.
Proof.
  unfold post_handovers_id_approve.
  run_callback; cbn [fst snd]; intros H; try discriminate H.
  store_simpl. rewrite findBy_replaceBy, Heqo, stored_id.
  apply findBy_key in Heqo. cbn [HandOver._id HandOver.set_notes]. rewrite eqId_refl.
  eexists. split; [reflexivity |]. rewrite stored_status. reflexivity.
Qed.

(** The reject route. *)
Lemma reject_not_pending keep user id reason st h :
  findBy HandOver._id id (handovers st) = Some h ->
  HandOver.status h <> pending ->
  snd (post_handovers_id_reject keep user id reason st) = st
  /\ (User.canManageProducts (User.permissions user) = true ->
      notEmpty reason && optionalIsLength 500 reason = true ->
      fst (post_handovers_id_reject keep user id reason st) = NotPending).
Proof.
  intros F N. apply Status_eqb_neq in N.
  unfold post_handovers_id_reject. split.
  - follow; reflexivity.
  - intros P V. apply andb_true_iff in V as (V1 & V2). follow. reflexivity.
Qed.

Lemma reject_success keep user id reason st :
  isSuccess (fst (post_handovers_id_reject keep user id reason st)) = true ->
  exists h',
    findBy HandOver._id id (handovers (snd (post_handovers_id_reject keep user id reason st)))
    = Some h'
    /\ HandOver.status h' = rejected.
Proof.
  unfold post_handovers_id_reject.
  run_callback; cbn [fst snd]; intros H; try discriminate H.
  store_simpl. rewrite findBy_replaceBy, Heqo, stored_id.
  apply findBy_key in Heqo. cbn [HandOver._id HandOver.set_notes]. rewrite eqId_refl.
  eexists. split; [reflexivity |]. rewrite stored_status. reflexivity.
Qed.

Lemma serve_decide keep user id d st :
  serve keep (decide user id d) st
  = match d with
    | Approve n =>
        (fst (post_handovers_id_approve keep user id n st),
         tick (snd (post_handovers_id_approve keep user id n st)))
    | Reject r =>
        (fst (post_handovers_id_reject keep user id r st),
         tick (snd (post_handovers_id_reject keep user id r st)))
    end.
Proof.
  unfold serve. destruct d; cbn [decide dispatch].
  - destruct (post_handovers_id_approve keep user id approvalNotes st); reflexivity.
  - destruct (post_handovers_id_reject keep user id rejectionReason st); reflexivity.
Qed.

(** C6.  When a first approve or reject call on a handover succeeds, a
    second approve or reject call on the same id changes nothing in the
    store (the clock alone moves on): no stock is moved and the record stays
    as the first call left it.  If the second caller may manage products and
    the call passes the validators of its route, the answer is the
    not-pending error. *)
Theorem C6_second_decision_is_refused :
  forall keep st id user1 d1 user2 d2,
    let first := serve keep (decide user1 id d1) st in
    let second := serve keep (decide user2 id d2) (snd first) in
    isSuccess (fst first) = true ->
    snd second = tick (snd first)
    /\ (User.canManageProducts (User.permissions user2) = true ->
        wellFormed d2 = true ->
        fst second = NotPending).
Proof.
  intros keep st id user1 d1 user2 d2 first second OK.
  assert (A : exists h, findBy HandOver._id id (handovers (snd first)) = Some h
                        /\ HandOver.status h <> pending).
  { subst first. rewrite serve_decide in *. destruct d1; cbn [fst snd] in *.
    - destruct (approve_success _ _ _ _ _ OK) as (h & F & S).
      exists h. store_simpl. split; [exact F | rewrite S; discriminate].
    - destruct (reject_success _ _ _ _ _ OK) as (h & F & S).
      exists h. store_simpl. split; [exact F | rewrite S; discriminate]. }
  destruct A as (h & F & N). subst second. rewrite serve_decide.
  destruct d2; cbn [fst snd wellFormed].
  - destruct (approve_not_pending keep user2 id approvalNotes _ h F N) as (U & R).
    rewrite U. split; [reflexivity | exact R].
  - destruct (reject_not_pending keep user2 id rejectionReason _ h F N) as (U & R).
    rewrite U. split; [reflexivity | exact R].
Qed.

Lemma C6_witness :
  let first := serve false (decide aManager 1%nat (Approve None)) shopWithRequest in
  let second := serve false (decide anAdmin 1%nat (Reject (Some "too late"))) (snd first) in
  isSuccess (fst first) = true
  /\ snd second = tick (snd first)
  /\ fst second = NotPending.
Proof.
  intros first second.
  pose proof (C6_second_decision_is_refused false shopWithRequest 1%nat
                aManager (Approve None) anAdmin (Reject (Some "too late"))) as T.
  cbv zeta in T. fold first in T. fold second in T.
  assert (OK : isSuccess (fst first) = true) by (vm_compute; reflexivity).
  destruct (T OK) as (U & R).
  split; [exact OK |]. split; [exact U |].
  apply R; reflexivity.
Defined.

(** C5, where the code departs from the claim.  The approve route appends a
    line to [notes] and saves; the schema caps [notes] at 500 characters, so
    for a pending request with enough stock whose new notes are longer than
    that, [save()] throws before anything is written: the answer is the
    server error, the request stays pending and the stock stays as it was. *)
Theorem C5_long_notes_block_approval :
  forall keep user id notes st h p,
    User.canManageProducts (User.permissions user) = true ->
    optionalIsLength 500 notes = true ->
    findBy HandOver._id id (handovers st) = Some h ->
    HandOver.status h = pending ->
    findBy Product._id (HandOver.product h) (products st) = Some p ->
    HandOver.quantity h <= Product.quantity (Product.stock p) ->
    500 < slen (trim (approvedNotes user notes (HandOver.notes h))) ->
    post_handovers_id_approve keep user id notes st = (Message 500 "Server error", st).
Proof. exact approve_notes_overflow. Qed.

Lemma C5_witness :
  wf shopWithRequest = true
  /\ stockOf 0%nat shopWithRequest = 10
  /\ (exists h, findBy HandOver._id 1%nat (handovers shopWithRequest) = Some h
                /\ HandOver.status h = pending /\ HandOver.quantity h = 5)
  /\ optionalIsLength 500 (Some longNotes) = true
  /\ post_handovers_id_approve false aManager 1%nat (Some longNotes) shopWithRequest
     = (Message 500 "Server error", shopWithRequest).
Proof.
  split; [vm_compute; reflexivity |].
  split; [vm_compute; reflexivity |].
  split; [eexists; split; [vm_compute; reflexivity | split; reflexivity] |].
  split; [vm_compute; reflexivity |].
  eapply (C5_long_notes_block_approval false aManager 1%nat (Some longNotes) shopWithRequest).
  - reflexivity.
  - vm_compute; reflexivity.
  - vm_compute; reflexivity.
  - reflexivity.
  - vm_compute; reflexivity.
  - vm_compute. discriminate.
  - vm_compute. reflexivity.
Defined.

(* ===================================================================== *)
(** ** Returns and deletion (claims C3, C4 and C7) *)
(* ===================================================================== *)

(** The manager return route on a record that is not [returned]. *)
Lemma manager_return_unless_returned keep user id notes st h p :
  User.canManageProducts (User.permissions user) = true ->
  optionalIsLength 500 notes = true ->
  findBy HandOver._id id (handovers st) = Some h ->
  HandOver.status h <> returned ->
  findBy Product._id (HandOver.product h) (products st) = Some p ->
  HandOver.validate h = true ->
  Product.validate p = true ->
  exists h' st',
    put_handovers_id_return keep user id notes st
    = (WithHandover 200 "Item returned successfully" h', st')
    /\ HandOver.status h' = returned
    /\ HandOver.returnedBy h' = Some (User._id user)
    /\ HandOver.actualReturnDate h' = Some (clock st)
    /\ findBy HandOver._id id (handovers st') = Some (HandOver.stored keep h')
    /\ stockOf (HandOver.product h) st'
       = Product.quantity (Product.stock p) + HandOver.quantity h.
Proof.
  intros P V F S G VH VP.
  apply Status_eqb_neq in S.
  apply HandOver_validate_iff in VH as (Q & _ & VPu & VN & _ & VJ & VA).
  pose proof (Product_validate_nonneg p VP) as NN.
  apply findBy_key in G as K.
  unfold put_handovers_id_return. follow.
  - match goal with |- context [WithHandover _ _ ?d] => set (h' := d) in * end.
    exists h'. eexists. split; [reflexivity |].
    assert (I : HandOver._id h' = id) by (apply (findBy_key _ _ _ _ F)).
    repeat (split; [reflexivity |]). split.
    + store_simpl. rewrite findBy_replaceBy, F, stored_id, I.
      apply findBy_key in F. rewrite F, eqId_refl. reflexivity.
    + store_simpl_in Heqo. rewrite K, G in Heqo. inversion Heqo; subst d.
      rewrite stockOf_saved. cbn [Product.set_quantity Product._id].
      rewrite K, eqId_refl.
      unfold hasProduct. store_simpl. rewrite G. reflexivity.
  - exfalso. store_simpl_in Heqo. rewrite K, G in Heqo. inversion Heqo; subst d.
    rewrite Product_validate_quantity in Heqb0; [discriminate | exact VP |].
    cbn. lia.
  - exfalso. store_simpl_in Heqo. rewrite K, G in Heqo. discriminate.
  - exfalso.
    assert (T : forall b, b = false -> b = true -> False) by (intros; congruence).
    apply (T _ Heqb). apply HandOver_validate_iff. cbn.
    repeat split; try assumption; try reflexivity.
    + intros E; discriminate E.
    + apply maxlength_trim. exact V.
Qed.

Lemma manager_return_already_returned keep user id notes st h :
  User.canManageProducts (User.permissions user) = true ->
  optionalIsLength 500 notes = true ->
  findBy HandOver._id id (handovers st) = Some h ->
  HandOver.status h = returned ->
  put_handovers_id_return keep user id notes st = (AlreadyReturned, st).
Proof.
  intros P V F S. apply Status_eqb_eq in S.
  unfold put_handovers_id_return. follow. reflexivity.
Qed.

(** C4, where the code departs from the claim.  The manager return route
    refuses only a record that is already [returned]: on a [pending] or
    [rejected] record, whose stock was never taken, it answers with success,
    marks the record returned and adds the record's quantity to the stock. *)
Theorem C4_manager_return_accepts_uncommitted :
  forall keep user id notes st h p,
    User.canManageProducts (User.permissions user) = true ->
    optionalIsLength 500 notes = true ->
    findBy HandOver._id id (handovers st) = Some h ->
    HandOver.status h = pending \/ HandOver.status h = rejected ->
    findBy Product._id (HandOver.product h) (products st) = Some p ->
    HandOver.validate h = true ->
    Product.validate p = true ->
    exists h' st',
      put_handovers_id_return keep user id notes st
      = (WithHandover 200 "Item returned successfully" h', st')
      /\ HandOver.status h' = returned
      /\ stockOf (HandOver.product h) st'
         = stockOf (HandOver.product h) st + HandOver.quantity h.
Proof.
  intros keep user id notes st h p P V F S G VH VP.
  assert (N : HandOver.status h <> returned)
    by (destruct S as [-> | ->]; discriminate).
  destruct (manager_return_unless_returned keep user id notes st h p P V F N G VH VP)
    as (h' & st' & E & S' & _ & _ & _ & Q).
  exists h', st'. split; [exact E |]. split; [exact S' |].
  rewrite Q. unfold stockOf. rewrite G. reflexivity.
Qed.

Lemma C4_witness :
  exists h' st',
    put_handovers_id_return false aManager 1%nat None shopWithRequest
    = (WithHandover 200 "Item returned successfully" h', st')
    /\ HandOver.status h' = returned
    /\ stockOf 0%nat shopWithRequest = 10
    /\ stockOf 0%nat st' = 15.
Proof.
  destruct (C4_manager_return_accepts_uncommitted false aManager 1%nat None shopWithRequest
              (HandOver.mk 1%nat 0%nat 3%nat None 5 (Some "need it")
                 (Some "Requested by employee: need it") pending 1%nat
                 None None None None None None None 1%nat None None)
              (Product.mk 0%nat 1 "Drill" (Product.mkStock 10 0 1000 0%nat) 0%nat))
    as (h' & st' & E & S & Q).
  - reflexivity.
  - reflexivity.
  - vm_compute; reflexivity.
  - left; reflexivity.
  - vm_compute; reflexivity.
  - vm_compute; reflexivity.
  - vm_compute; reflexivity.
  - exists h', st'. split; [exact E |]. split; [exact S |].
    split; [vm_compute; reflexivity |].
    cbn [HandOver.product HandOver.quantity] in Q. rewrite Q. vm_compute. reflexivity.
Defined.

(** The employee return route: what its guards let through.  A return
    succeeds only on a [handed_over] record of the caller and for a quantity
    that [isInt] accepts and that is not above the borrowed quantity; a
    quantity above the borrowed quantity fails and leaves the store as it
    was, with the domain error when the other guards pass. *)
Lemma employee_return_guards keep user id returnQuantity returnNotes st h :
  findBy HandOver._id id (handovers st) = Some h ->
  let out := post_handovers_id_return keep user id returnQuantity returnNotes st in
  (isSuccess (fst out) = true ->
     HandOver.status h = handed_over
     /\ HandOver.employee h = User._id user
     /\ isInt 1 returnQuantity = true
     /\ JS.gt (asJs returnQuantity) (HandOver.quantity h) = false)
  /\ (JS.gt (asJs returnQuantity) (HandOver.quantity h) = true ->
        isSuccess (fst out) = false
        /\ snd out = st
        /\ (User.canReturnHandover (User.permissions user) = true ->
            isInt 1 returnQuantity = true ->
            optionalIsLength 500 returnNotes = true ->
            HandOver.employee h = User._id user ->
            HandOver.status h = handed_over ->
            fst out = ExceedsBorrowed)).
Proof.
  intros F out. subst out.
  unfold post_handovers_id_return. split.
  - follow; cbn [fst snd]; intros OK; try discriminate OK; tidy;
      repeat split; assumption.
  - intros Big. split; [| split].
    + follow; reflexivity.
    + follow; reflexivity.
    + intros P R V O S. apply Status_eqb_eq in S. apply eqId_true in O.
      follow. reflexivity.
Qed.

(** The claim on returns, as the specification words it, fails: eight were
    borrowed and three handed in, and the route still accepts a return of
    eight (it compares with the borrowed quantity, not with what is
    outstanding); this holds whether or not the collection keeps the running
    total. *)
Lemma return_within_outstanding_fails :
  ~ return_within_outstanding false /\ ~ return_within_outstanding true.
Proof.
  split; intros C.
  - specialize (C shop [issue 8 None; POST_handovers_id_return anEmployee 1%nat (whole 3) None]
                  anEmployee 1%nat (whole 8) None
                  (HandOver.mk 1%nat 0%nat 3%nat (Some 2%nat) 8 None None handed_over
                     1%nat None None (Some 3%nat) None None None None 1%nat None None)).
    cbv zeta in C. destruct C as (C & _); [vm_compute; reflexivity |].
    destruct C as (_ & _ & C); [vm_compute; reflexivity |].
    vm_compute in C. apply C. reflexivity.
  - specialize (C shop [issue 8 None; POST_handovers_id_return anEmployee 1%nat (whole 3) None]
                  anEmployee 1%nat (whole 8) None
                  (HandOver.mk 1%nat 0%nat 3%nat (Some 2%nat) 8 None None handed_over
                     1%nat None None (Some 3%nat) None None None None 1%nat
                     (Some (Num 3)) (Some 2%nat))).
    cbv zeta in C. destruct C as (C & _); [vm_compute; reflexivity |].
    destruct C as (_ & _ & C); [vm_compute; reflexivity |].
    vm_compute in C. apply C. reflexivity.
Qed.

(** The scenario of the specification: eight borrowed, three returned, then
    five.  The stock is back at ten either way; the record ends [returned]
    only if the collection keeps the running total, and stays [handed_over]
    as the schema stands. *)
Lemma partial_returns_scenario :
  let reqs :=
    [issue 8 None;
     POST_handovers_id_return anEmployee 1%nat (whole 3) None;
     POST_handovers_id_return anEmployee 1%nat (whole 5) None] in
  map HandOver.status (handovers (run true reqs shop)) = [returned]
  /\ map HandOver.status (handovers (run false reqs shop)) = [handed_over]
  /\ stockOf 0%nat (run true reqs shop) = 10
  /\ stockOf 0%nat (run false reqs shop) = 10.
Proof. repeat split; vm_compute; reflexivity. Qed.

(** Conservation, as the specification words it, fails.  From a stock of
    ten, eight are handed over, three come back and then eight more: no
    record is handed over any longer and the stock is thirteen.  This holds
    whether or not the collection keeps the running total of returns. *)
Lemma stock_conservation_fails :
  (~ stock_conservation false /\ ~ stock_conservation true)
  /\ ledger 0%nat shop = 10
  /\ ledger 0%nat
       (run false
          [issue 8 None;
           POST_handovers_id_return anEmployee 1%nat (whole 3) None;
           POST_handovers_id_return anEmployee 1%nat (whole 8) None] shop)
     = 13.
Proof.
  split; [| split; vm_compute; reflexivity].
  split; intros C.
  - specialize (C shop
                  [issue 8 None;
                   POST_handovers_id_return anEmployee 1%nat (whole 3) None;
                   POST_handovers_id_return anEmployee 1%nat (whole 8) None]
                  0%nat).
    vm_compute in C. specialize (C eq_refl eq_refl eq_refl). discriminate C.
  - specialize (C shop
                  [issue 8 None;
                   POST_handovers_id_return anEmployee 1%nat (whole 3) None;
                   POST_handovers_id_return anEmployee 1%nat (whole 8) None]
                  0%nat).
    vm_compute in C. specialize (C eq_refl eq_refl eq_refl). discriminate C.
Qed.

(** A return whose quantity is a string: [+] and [+=] concatenate.  Eight
    were handed over from a stock of ten; the employee returns the string
    ['8']: the running total is ['08'], which closes the record, and the
    stock ['28'] is cast to the number 28. *)
Lemma string_return_concatenates :
  let out := serve false (POST_handovers_id_return anEmployee 1%nat (Text "8") None)
               (shopAfterIssue false) in
  stockOf 0%nat (shopAfterIssue false) = 2
  /\ isSuccess (fst out) = true
  /\ map HandOver.status (handovers (snd out)) = [returned]
  /\ stockOf 0%nat (snd out) = 28
  /\ ledger 0%nat (shopAfterIssue false) = 10
  /\ ledger 0%nat (snd out) = 28.
Proof. repeat split; vm_compute; reflexivity. Qed.

(* ===================================================================== *)
(** ** Well-formed stores stay well-formed *)
(* ===================================================================== *)

Lemma distinct_NoDup (l : list ObjectId) : distinct l = true -> NoDup l.
Proof.
  induction l as [| x l IH]; cbn; intros H; constructor;
    apply andb_true_iff in H as (N & D).
  - intros Hin. apply negb_true_iff in N.
    assert (E : existsb (eqId x) l = true)
      by (apply existsb_exists; exists x; split; [exact Hin | apply eqId_refl]).
    congruence.
  - apply IH, D.
Qed.

Lemma increasing_cons x l :
  increasing (x :: l) = true <-> Forall (fun y => x < y) l /\ increasing l = true.
Proof.
  revert x. induction l as [| y l IH]; intros x.
  - cbn. split; [intros _; split; [constructor | reflexivity] | reflexivity].
  - change (increasing (x :: y :: l)) with ((x <? y) && increasing (y :: l)).
    rewrite andb_true_iff, Z.ltb_lt. split.
    + intros (L & I). split; [| exact I]. constructor; [exact L |].
      apply IH in I as (F & _). eapply Forall_impl; [| exact F].
      cbn. intros; lia.
    + intros (F & I). inversion F; subst. split; assumption.
Qed.

Lemma nondecreasing_cons x l :
  nondecreasing (x :: l) = true
  <-> Forall (fun y => (x <= y)%nat) l /\ nondecreasing l = true.
Proof.
  revert x. induction l as [| y l IH]; intros x.
  - cbn. split; [intros _; split; [constructor | reflexivity] | reflexivity].
  - change (nondecreasing (x :: y :: l)) with ((x <=? y)%nat && nondecreasing (y :: l)).
    rewrite andb_true_iff, Nat.leb_le. split.
    + intros (L & I). split; [| exact I]. constructor; [exact L |].
      apply IH in I as (F & _). eapply Forall_impl; [| exact F].
      cbn. intros; lia.
    + intros (F & I). inversion F; subst. split; assumption.
Qed.

Lemma forallb_Forall {A} (f : A -> bool) l : forallb f l = true <-> Forall (fun x => f x = true) l.
Proof.
  rewrite forallb_forall, Forall_forall. reflexivity.
Qed.

(** The boolean check implies the invariant. *)
Lemma wf_sound st : wf st = true -> WF st.
Proof.
  unfold wf. rewrite !andb_true_iff, !forallb_Forall.
  intros ((((((((((A & B) & C) & D) & E) & F) & H) & I) & J) & K) & N).
  constructor; auto using distinct_NoDup.
  - eapply Forall_impl; [| exact E]. cbn. intros h L. apply Nat.ltb_lt, L.
  - eapply Forall_impl; [| exact F]. cbn. intros h L. apply Nat.ltb_lt, L.
  - eapply Forall_impl; [| exact J]. cbn. intros h L.
    apply andb_true_iff in L as (L1 & L2). apply Z.leb_le in L1, L2. lia.
  - eapply Forall_impl; [| exact K]. cbn. intros h M. apply Nat.leb_le, M.
  - apply Z.leb_le, N.
Qed.

Lemma WF_initialStore us : WF (initialStore us).
Proof. apply wf_sound. reflexivity. Qed.

Section CollectionInvariants.

Context {D : Type} (key : D -> ObjectId).

Lemma NoDup_key_unique l x y :
  NoDup (map key l) -> In x l -> In y l -> key x = key y -> x = y.
Proof.
  induction l as [| z l IH]; cbn; intros N Hx Hy E; [contradiction |].
  inversion N as [| ? ? Nz Nl]; subst.
  destruct Hx as [-> | Hx], Hy as [-> | Hy].
  - reflexivity.
  - exfalso. apply Nz. rewrite E. apply in_map, Hy.
  - exfalso. apply Nz. rewrite <- E. apply in_map, Hx.
  - apply IH; assumption.
Qed.

(** Replacing a document by one that agrees with it on [f] leaves the
    [f]-column of the collection as it was. *)
Lemma map_replaceBy_agree {B} (f : D -> B) d l :
  (forall x, In x l -> key x = key d -> f d = f x) ->
  map f (replaceBy key d l) = map f l.
Proof.
  unfold replaceBy. induction l as [| x l IH]; cbn; intros A; [reflexivity |].
  rewrite IH by (intros y Hy; apply A; right; exact Hy). f_equal.
  destruct (eqId (key x) (key d)) eqn:E; [| reflexivity].
  apply A; [left; reflexivity | apply eqId_true, E].
Qed.

Lemma Forall_replaceBy_agree (P : D -> Prop) d l :
  (forall x, In x l -> key x = key d -> P x -> P d) ->
  Forall P l -> Forall P (replaceBy key d l).
Proof.
  unfold replaceBy. intros A F. apply Forall_forall. intros y Hy.
  apply in_map_iff in Hy as (x & E & Hx).
  rewrite Forall_forall in F.
  destruct (eqId (key x) (key d)) eqn:K; subst y.
  - apply (A x Hx); [apply eqId_true, K | apply F, Hx].
  - apply F, Hx.
Qed.

Lemma NoDup_map_removeBy id l :
  NoDup (map key l) -> NoDup (map key (removeBy key id l)).
Proof.
  unfold removeBy. induction l as [| x l IH]; cbn; intros N; [constructor |].
  inversion N as [| ? ? Nx Nl]; subst.
  destruct (negb (eqId (key x) id)); cbn; [constructor |]; [| apply IH, Nl | apply IH, Nl].
  intros Hin. apply Nx. apply in_map_iff in Hin as (y & E & Hy).
  apply filter_In in Hy. rewrite <- E. apply in_map, Hy.
Qed.

End CollectionInvariants.

Lemma increasing_map_filter {A} (f : A -> Z) (g : A -> bool) l :
  increasing (map f l) = true -> increasing (map f (filter g l)) = true.
Proof.
  induction l as [| x l IH]; [reflexivity |].
  cbn [map]. intros I. apply increasing_cons in I as (F & I).
  cbn [filter]. destruct (g x); [| apply IH, I].
  cbn [map]. apply increasing_cons. split; [| apply IH, I].
  apply Forall_forall. intros y Hy. apply in_map_iff in Hy as (z & <- & Hz).
  apply filter_In in Hz. rewrite Forall_forall in F. apply F, in_map, Hz.
Qed.

Lemma nondecreasing_map_filter {A} (f : A -> nat) (g : A -> bool) l :
  nondecreasing (map f l) = true -> nondecreasing (map f (filter g l)) = true.
Proof.
  induction l as [| x l IH]; [reflexivity |].
  cbn [map]. intros I. apply nondecreasing_cons in I as (F & I).
  cbn [filter]. destruct (g x); [| apply IH, I].
  cbn [map]. apply nondecreasing_cons. split; [| apply IH, I].
  apply Forall_forall. intros y Hy. apply in_map_iff in Hy as (z & <- & Hz).
  apply filter_In in Hz. rewrite Forall_forall in F. apply F, in_map, Hz.
Qed.

Lemma increasing_app l x :
  increasing l = true -> Forall (fun y => y < x) l -> increasing (l ++ [x]) = true.
Proof.
  induction l as [| y l IH]; [reflexivity |].
  intros I B. apply increasing_cons in I as (F & I). inversion B; subst.
  cbn [app]. apply increasing_cons. split; [| apply IH; assumption].
  apply Forall_app. split; [exact F | constructor; [assumption | constructor]].
Qed.

Lemma nondecreasing_app l x :
  nondecreasing l = true -> Forall (fun y => (y <= x)%nat) l ->
  nondecreasing (l ++ [x]) = true.
Proof.
  induction l as [| y l IH]; [reflexivity |].
  intros I B. apply nondecreasing_cons in I as (F & I). inversion B; subst.
  cbn [app]. apply nondecreasing_cons. split; [| apply IH; assumption].
  apply Forall_app. split; [exact F | constructor; [assumption | constructor]].
Qed.

(** *** The writes of the callbacks *)

Lemma WF_tick st : WF st -> WF (tick st).
Proof.
  intros W. destruct W as [HI PI HV PV HO PO CO IO IR CP CN].
  constructor; store_simpl; try assumption.
  eapply Forall_impl; [| exact CP]. cbn. intros; lia.
Qed.

Lemma WF_handover_saved keep h st :
  WF st ->
  HandOver.validate h = true ->
  WF (with_handovers (replaceBy HandOver._id (HandOver.stored keep h) (handovers st)) st).
Proof.
  intros W V. destruct W as [HI PI HV PV HO PO CO IO IR CP CN]. constructor; store_simpl; try assumption.
  - rewrite map_key_replaceBy. assumption.
  - apply Forall_replaceBy; [rewrite stored_validate; exact V | assumption].
  - apply Forall_replaceBy_agree; [| assumption].
    intros x _ E L. rewrite <- E. exact L.
Qed.

Lemma WF_handover_added keep h st :
  WF st ->
  HandOver.validate h = true ->
  HandOver._id h = nextObjectId st ->
  WF (with_handovers (handovers st ++ [HandOver.stored keep h])
        (with_nextObjectId (S (nextObjectId st)) st)).
Proof.
  intros W V I. destruct W as [HI PI HV PV HO PO CO IO IR CP CN]. constructor; store_simpl; try assumption.
  - rewrite map_app. cbn [map]. rewrite stored_id, I.
    apply NoDup_app; [assumption | repeat constructor; intros [] |].
    intros a Ha [<- | []]. rewrite Forall_forall in HO.
    apply in_map_iff in Ha as (x & E & Hx). apply HO in Hx. lia.
  - apply Forall_app. split; [assumption |].
    constructor; [rewrite stored_validate; exact V | constructor].
  - apply Forall_app. split.
    + eapply Forall_impl; [| exact HO]. cbn. intros; lia.
    + constructor; [rewrite stored_id, I; lia | constructor].
  - eapply Forall_impl; [| exact PO]. cbn. intros; lia.
Qed.

Lemma WF_handover_removed id st :
  WF st -> WF (with_handovers (removeBy HandOver._id id (handovers st)) st).
Proof.
  intros W. destruct W as [HI PI HV PV HO PO CO IO IR CP CN]. constructor; store_simpl; try assumption.
  - apply NoDup_map_removeBy. assumption.
  - apply Forall_removeBy. assumption.
  - apply Forall_removeBy. assumption.
Qed.

(** [product.save()] after a change of the quantity alone. *)
Lemma WF_stock_written now old q p st :
  WF st ->
  findBy Product._id (Product._id p) (products st) = Some p ->
  Product.validate (Product.set_quantity q p) = true ->
  WF (with_products
        (replaceBy Product._id (touchRestocked now old (Product.set_quantity q p))
           (products st)) st).
Proof.
  intros W F V. destruct W as [HI PI HV PV HO PO CO IO IR CP CN].
  assert (Same : forall x, In x (products st) ->
                   Product._id x
                   = Product._id (touchRestocked now old (Product.set_quantity q p)) ->
                   x = p).
  { intros x Hx E. rewrite touchRestocked_id in E. cbn in E.
    eapply (NoDup_key_unique Product._id); eauto using findBy_In. }
  constructor; store_simpl; try assumption.
  - rewrite map_key_replaceBy. assumption.
  - apply Forall_replaceBy; [rewrite touchRestocked_validate; exact V | assumption].
  - apply Forall_replaceBy_agree; [| assumption].
    intros x _ E L. rewrite <- E. exact L.
  - rewrite map_replaceBy_agree; [assumption |].
    intros x Hx E. rewrite (Same x Hx E), touchRestocked_createdAt. reflexivity.
  - rewrite map_replaceBy_agree; [assumption |].
    intros x Hx E. rewrite (Same x Hx E), touchRestocked_productId. reflexivity.
  - apply Forall_replaceBy_agree; [| assumption].
    intros x Hx E L. rewrite (Same x Hx E) in L.
    rewrite touchRestocked_productId. exact L.
  - apply Forall_replaceBy_agree; [| assumption].
    intros x Hx E L. rewrite (Same x Hx E) in L.
    rewrite touchRestocked_createdAt. exact L.
Qed.

(** Every path of a callback, the validators of the route taken as one
    test. *)
Ltac explore :=
  callback_unfold; rewrite ?validationResult_passes;
  repeat (case_step; cbv beta iota zeta).

Lemma WF_found_handover_valid st id h :
  WF st -> findBy HandOver._id id (handovers st) = Some h -> HandOver.validate h = true.
Proof.
  intros W F. apply findBy_In in F. destruct W as [_ _ HV _ _ _ _ _ _ _ _].
  rewrite Forall_forall in HV. apply HV, F.
Qed.

Lemma WF_found_product_valid st id p :
  WF st -> findBy Product._id id (products st) = Some p -> Product.validate p = true.
Proof.
  intros W F. apply findBy_In in F. destruct W as [_ _ _ PV _ _ _ _ _ _ _].
  rewrite Forall_forall in PV. apply PV, F.
Qed.

Lemma WF_stock_saved now old q p pid ps st :
  WF st ->
  ps = products st ->
  findBy Product._id pid ps = Some p ->
  negb (Product.validate (Product.set_quantity q p)) = false ->
  WF (with_products
        (replaceBy Product._id (touchRestocked now old (Product.set_quantity q p)) ps) st).
Proof.
  intros W -> F V. apply negb_false_iff in V. apply WF_stock_written; [exact W | | exact V].
  rewrite (findBy_key _ _ _ _ F). exact F.
Qed.

Lemma WF_handover_written keep h hs st :
  WF st ->
  hs = handovers st ->
  negb (HandOver.validate h) = false ->
  WF (with_handovers (replaceBy HandOver._id (HandOver.stored keep h) hs) st).
Proof.
  intros W -> V. apply negb_false_iff in V. apply WF_handover_saved; assumption.
Qed.

Lemma WF_handover_created keep h st :
  WF st ->
  negb (HandOver.validate h) = false ->
  HandOver._id h = nextObjectId st ->
  WF (with_handovers (handovers st ++ [HandOver.stored keep h])
        (with_nextObjectId (S (nextObjectId st)) st)).
Proof.
  intros W V I. apply negb_false_iff in V. apply WF_handover_added; assumption.
Qed.

Lemma WF_handover_deleted id hs st :
  WF st -> hs = handovers st -> WF (with_handovers (removeBy HandOver._id id hs) st).
Proof. intros W ->. apply WF_handover_removed, W. Qed.

Lemma WF_fresh st : WF st -> WF (with_nextObjectId (S (nextObjectId st)) st).
Proof.
  intros W. destruct W as [HI PI HV PV HO PO CO IO IR CP CN].
  constructor; store_simpl; try assumption.
  - eapply Forall_impl; [| exact HO]. cbn. intros; lia.
  - eapply Forall_impl; [| exact PO]. cbn. intros; lia.
Qed.

(** Close the invariant goal of a path from the writes made along it. *)
Ltac wf_writes W :=
  cbn [snd]; store_simpl;
  repeat first
    [ exact W
    | eapply WF_stock_saved; [| reflexivity | store_simpl; eassumption | eassumption]
    | apply WF_handover_written; [| reflexivity | assumption]
    | apply WF_handover_created; [| assumption | reflexivity]
    | apply WF_handover_deleted; [| reflexivity]
    | apply WF_fresh ].

Lemma WF_approve keep user id notes st :
  WF st -> WF (snd (post_handovers_id_approve keep user id notes st)).
Proof.
  intros W. unfold post_handovers_id_approve. explore; wf_writes W.
Qed.

Lemma WF_reject keep user id reason st :
  WF st -> WF (snd (post_handovers_id_reject keep user id reason st)).
Proof.
  intros W. unfold post_handovers_id_reject. explore; wf_writes W.
Qed.

Lemma WF_manager_return keep user id notes st :
  WF st -> WF (snd (put_handovers_id_return keep user id notes st)).
Proof.
  intros W. unfold put_handovers_id_return. explore; wf_writes W.
Qed.

Lemma WF_delete_handover user id st :
  WF st -> WF (snd (delete_handovers_id user id st)).
Proof.
  intros W. unfold delete_handovers_id. explore; wf_writes W.
Qed.

Lemma WF_employee_return keep user id q notes st :
  WF st -> WF (snd (post_handovers_id_return keep user id q notes st)).
Proof.
  intros W. unfold post_handovers_id_return. explore; wf_writes W.
Qed.

Lemma WF_direct_handover keep user body st :
  WF st -> WF (snd (post_handovers keep user body st)).
Proof.
  intros W. unfold post_handovers. explore; wf_writes W.
Qed.

Lemma WF_handover_request keep user body st :
  WF st -> WF (snd (post_handovers_request keep user body st)).
Proof.
  intros W. unfold post_handovers_request. explore; wf_writes W.
Qed.

(* ===================================================================== *)
(** ** Product routes: stock adjustment, creation, deletion *)
(* ===================================================================== *)

Ltac store_simpl_all :=
  cbn [handovers products users counter nextObjectId clock
       with_handovers with_products with_counter with_nextObjectId with_clock tick] in *.

Lemma WF_stock_adjust user id operation quantity st :
  WF st -> WF (snd (put_products_id_stock user id operation quantity st)).
Proof.
  intros W. unfold put_products_id_stock. explore; wf_writes W.
Qed.

Lemma WF_counter_raised s st : WF st -> seqOf st <= s -> WF (with_counter (Some s) st).
Proof.
  intros W L. destruct W as [HI PI HV PV HO PO CO IO IR CP CN].
  unfold seqOf in *.
  constructor; unfold seqOf; store_simpl; try assumption; cbn [orElse].
  - eapply Forall_impl; [| exact IR]. cbn beta. intros; lia.
  - lia.
Qed.

Lemma WF_product_added p s st :
  WF st ->
  Product.validate p = true ->
  Product._id p = nextObjectId st ->
  Product.productId p = s ->
  seqOf st < s ->
  Product.createdAt p = clock st ->
  WF (with_products (products st ++ [p])
        (with_counter (Some s) (with_nextObjectId (S (nextObjectId st)) st))).
Proof.
  intros W V I N L C. destruct W as [HI PI HV PV HO PO CO IO IR CP CN].
  unfold seqOf in *.
  constructor; unfold seqOf; store_simpl; try assumption; cbn [orElse].
  - rewrite map_app. cbn [map]. rewrite I.
    apply NoDup_app; [assumption | repeat constructor; intros [] |].
    intros a Ha [<- | []]. rewrite Forall_forall in PO.
    apply in_map_iff in Ha as (x & E & Hx). apply PO in Hx. lia.
  - apply Forall_app. split; [assumption | repeat constructor; exact V].
  - eapply Forall_impl; [| exact HO]. cbn. intros; lia.
  - apply Forall_app. split.
    + eapply Forall_impl; [| exact PO]. cbn. intros; lia.
    + constructor; [rewrite I; lia | constructor].
  - rewrite map_app. cbn [map]. apply nondecreasing_app; [assumption |].
    apply Forall_map. rewrite C. exact CP.
  - rewrite map_app. cbn [map]. apply increasing_app; [assumption |].
    apply Forall_map. eapply Forall_impl; [| exact IR]. cbn beta. intros; lia.
  - apply Forall_app. split.
    + eapply Forall_impl; [| exact IR]. cbn beta. intros; lia.
    + constructor; [lia | constructor].
  - apply Forall_app. split; [assumption |].
    constructor; [rewrite C; lia | constructor].
  - lia.
Qed.

Lemma WF_create_product user body st :
  WF st -> WF (snd (post_products user body st)).
Proof.
  intros W. unfold post_products, Product_create, Counter_inc.
  explore; cbn [snd]; store_simpl_all; try exact W.
  all: try (apply WF_fresh, W).
  all: try (apply WF_counter_raised;
            [apply WF_fresh, W
            | unfold seqOf; store_simpl;
              match goal with H : counter _ = _ |- _ => rewrite H end; cbn; lia]).
  all: apply WF_product_added;
    [ exact W
    | apply negb_false_iff; assumption
    | reflexivity
    | reflexivity
    | unfold seqOf; match goal with H : counter _ = _ |- _ => rewrite H end;
      cbn [orElse]; destruct W; unfold seqOf in *;
      repeat match goal with H : counter _ = _ |- _ => rewrite H in * end;
      cbn [orElse] in *; lia
    | reflexivity ].
Qed.

(** *** Renumbering *)

Lemma insertByCreatedAt_least p l :
  Forall (fun q => (Product.createdAt p <= Product.createdAt q)%nat) l ->
  insertByCreatedAt p l = p :: l.
Proof.
  destruct l as [| q l]; [reflexivity |].
  intros F. inversion F as [| ? ? L _]; subst. cbn.
  apply Nat.leb_le in L. rewrite L. reflexivity.
Qed.

(** A collection in creation order is its own sorted snapshot. *)
Lemma sortByCreatedAt_sorted l :
  nondecreasing (map Product.createdAt l) = true -> sortByCreatedAt l = l.
Proof.
  induction l as [| p l IH]; [reflexivity |].
  cbn [map]. intros N. apply nondecreasing_cons in N as (F & N).
  unfold sortByCreatedAt in *. cbn [fold_right]. rewrite (IH N).
  apply insertByCreatedAt_least. apply Forall_forall. intros q Hq.
  rewrite Forall_forall in F. apply F, in_map, Hq.
Qed.

Lemma productIdTaken_false self n l :
  Forall (fun y => Product._id y = self \/ Product.productId y <> n) l ->
  productIdTaken self n l = false.
Proof.
  unfold productIdTaken. induction l as [| y l IH]; [reflexivity |].
  intros F. inversion F as [| ? ? Hy Hl]; subst. cbn [existsb].
  rewrite (IH Hl), orb_false_r.
  destruct Hy as [E | N].
  - rewrite E, eqId_refl. reflexivity.
  - apply Z.eqb_neq in N. rewrite N. apply andb_false_r.
Qed.

(** Under unique ids an update by id touches one document. *)
Lemma update_unique (f : Product.doc -> Product.doc) done x rest :
  NoDup (map Product._id (done ++ x :: rest)) ->
  map (fun y => if eqId (Product._id y) (Product._id x) then f y else y)
      (done ++ x :: rest)
  = (done ++ f x :: rest)%list.
Proof.
  intros N. rewrite map_app. cbn [map]. rewrite eqId_refl.
  rewrite map_app in N. cbn [map] in N.
  apply NoDup_remove_2 in N as Nx.
  assert (Other : forall l, ~ In (Product._id x) (map Product._id l) ->
            map (fun y => if eqId (Product._id y) (Product._id x) then f y else y) l = l).
  { induction l as [| y l IH]; [reflexivity |]. cbn [map In]. intros NI.
    rewrite IH by tauto.
    destruct (eqId (Product._id y) (Product._id x)) eqn:E; [| reflexivity].
    apply eqId_true in E. exfalso. apply NI. left. exact E. }
  rewrite !Other; [reflexivity | |];
    intros Hin; apply Nx, in_or_app; [right | left]; exact Hin.
Qed.

Lemma set_productId_same p : Product.set_productId (Product.productId p) p = p.
Proof. destruct p. reflexivity. Qed.

Lemma with_products_same st : with_products (products st) st = st.
Proof. destruct st. reflexivity. Qed.

(** The loop of [resetProductCounter].  With the products before the loop
    index numbered at most [i], and those from it on in ascending order
    above [i], no update meets the unique index, and the loop leaves the
    rest numbered [i + 1], [i + 2], ... *)
Lemma renumberFrom_spec rest :
  forall done i st,
    products st = (done ++ rest)%list ->
    NoDup (map Product._id (done ++ rest)) ->
    Forall (fun y => Product.productId y <= i) done ->
    increasing (map Product.productId rest) = true ->
    Forall (fun y => i < Product.productId y) rest ->
    renumberFrom i rest st = (Return tt, with_products (done ++ numberedFrom i rest) st).
Proof.
  induction rest as [| x rest IH]; intros done i st P N D I B.
  - cbn. unfold ret. rewrite <- P, with_products_same. reflexivity.
  - cbn [map] in I. apply increasing_cons in I as (Above & I).
    inversion B as [| ? ? Bx Brest]; subst.
    assert (P' : forall y l, ((done ++ [y]) ++ l = done ++ y :: l)%list)
      by (intros y l; rewrite <- app_assoc; reflexivity).
    cbn [renumberFrom numberedFrom]. unfold bind at 1.
    destruct (Product.productId x =? i + 1) eqn:E; cbn [negb].
    + apply Z.eqb_eq in E. unfold ret at 1. unfold bind.
      rewrite (IH (done ++ [x])%list (i + 1) st).
      * rewrite P', <- E, set_productId_same. reflexivity.
      * rewrite P'. exact P.
      * rewrite P'. exact N.
      * apply Forall_app. split.
        -- eapply Forall_impl; [| exact D]. cbn beta. intros; lia.
        -- constructor; [lia | constructor].
      * exact I.
      * apply Forall_forall. intros y Hy. rewrite Forall_forall in Above.
        specialize (Above _ (in_map Product.productId _ _ Hy)). lia.
    + apply Z.eqb_neq in E.
      unfold Product_findByIdAndUpdate_productId, bind, gets, throw, modify.
      rewrite P, productIdTaken_false.
      * cbv beta iota. rewrite P.
        rewrite (update_unique (Product.set_productId (i + 1))) by exact N.
        rewrite (IH (done ++ [Product.set_productId (i + 1) x])%list (i + 1)).
        -- rewrite P'. reflexivity.
        -- store_simpl. rewrite P'. reflexivity.
        -- rewrite P'. rewrite map_app in *. exact N.
        -- apply Forall_app. split.
           ++ eapply Forall_impl; [| exact D]. cbn beta. intros; lia.
           ++ constructor; [cbn; lia | constructor].
        -- exact I.
        -- apply Forall_forall. intros y Hy. rewrite Forall_forall in Above.
           specialize (Above _ (in_map Product.productId _ _ Hy)). lia.
      * apply Forall_app. split.
        -- eapply Forall_impl; [| exact D]. cbn beta. intros; right; lia.
        -- constructor; [left; reflexivity |].
           apply Forall_forall. intros y Hy. rewrite Forall_forall in Above.
           specialize (Above _ (in_map Product.productId _ _ Hy)). right. lia.
Qed.

Lemma numberedFrom_length i l : List.length (numberedFrom i l) = List.length l.
Proof.
  revert i. induction l as [| x l IH]; intros i; cbn; [reflexivity |].
  rewrite IH. reflexivity.
Qed.

Lemma numberedFrom_productIds k l :
  map Product.productId (numberedFrom (Z.of_nat k) l)
  = map Z.of_nat (seq (S k) (List.length l)).
Proof.
  revert k. induction l as [| x l IH]; intros k; [reflexivity |].
  cbn [numberedFrom map List.length seq Product.productId Product.set_productId].
  replace (Z.of_nat k + 1) with (Z.of_nat (S k)) by lia.
  rewrite IH. reflexivity.
Qed.

(** Renumbering changes the sequence numbers and nothing else. *)
Lemma numberedFrom_agree {B} (f : Product.doc -> B) i l :
  (forall n p, f (Product.set_productId n p) = f p) ->
  map f (numberedFrom i l) = map f l.
Proof.
  intros A. revert i. induction l as [| x l IH]; intros i; [reflexivity |].
  cbn [numberedFrom map]. rewrite A, IH. reflexivity.
Qed.

Lemma numberedFrom_Forall (P : Product.doc -> Prop) i l :
  (forall n p, P p -> P (Product.set_productId n p)) ->
  Forall P l -> Forall P (numberedFrom i l).
Proof.
  intros A F. revert i. induction F as [| x l Hx Hl IH]; intros i; constructor; auto.
Qed.

Lemma numberedFrom_range i l :
  Forall (fun p => i + 1 <= Product.productId p <= i + Z.of_nat (List.length l))
    (numberedFrom i l).
Proof.
  revert i. induction l as [| x l IH]; intros i; [constructor |].
  cbn [numberedFrom List.length]. constructor; [cbn; lia |].
  eapply Forall_impl; [| apply IH]. cbn beta. intros; lia.
Qed.

Lemma increasing_seq k n : increasing (map Z.of_nat (seq k n)) = true.
Proof.
  revert k. induction n as [| n IH]; intros k; [reflexivity |].
  cbn [seq map]. apply increasing_cons. split; [| apply IH].
  apply Forall_map, Forall_forall. intros y Hy. apply in_seq in Hy. lia.
Qed.

Lemma WF_product_removed id st :
  WF st -> WF (with_products (removeBy Product._id id (products st)) st).
Proof.
  intros W. destruct W as [HI PI HV PV HO PO CO IO IR CP CN].
  constructor; store_simpl; try assumption.
  - apply NoDup_map_removeBy. assumption.
  - apply Forall_removeBy. assumption.
  - apply Forall_removeBy. assumption.
  - apply nondecreasing_map_filter. assumption.
  - apply increasing_map_filter. assumption.
  - apply Forall_removeBy. assumption.
  - apply Forall_removeBy. assumption.
Qed.

Lemma WF_renumbered st :
  WF st ->
  WF (with_counter (Some (Z.of_nat (List.length (products st))))
        (with_products (numberedFrom 0 (products st)) st)).
Proof.
  intros W. destruct W as [HI PI HV PV HO PO CO IO IR CP CN].
  constructor; unfold seqOf; store_simpl; cbn [orElse]; try assumption.
  - rewrite numberedFrom_agree by reflexivity. assumption.
  - apply numberedFrom_Forall; [intros; assumption | assumption].
  - apply numberedFrom_Forall; [intros; assumption | assumption].
  - rewrite numberedFrom_agree by reflexivity. assumption.
  - rewrite (numberedFrom_productIds 0). apply increasing_seq.
  - eapply Forall_impl; [| apply numberedFrom_range]. cbn beta. intros; lia.
  - apply numberedFrom_Forall; [intros; assumption | assumption].
  - lia.
Qed.

(** The delete route on a product that exists. *)
Lemma delete_product_renumbers user id st p :
  WF st ->
  User.canDeleteProducts (User.permissions user) = true ->
  findBy Product._id id (products st) = Some p ->
  delete_products_id user id st
  = (Message 200 "Product deleted successfully",
     with_counter (Some (Z.of_nat (List.length (removeBy Product._id id (products st)))))
       (with_products (numberedFrom 0 (removeBy Product._id id (products st))) st)).
Proof.
  intros W P F. pose proof (WF_product_removed id st W) as W'.
  destruct W' as [_ PI _ _ _ _ CO IO IR _ _]. store_simpl_all.
  unfold delete_products_id, resetProductCounter, Product_find_sorted, Counter_set.
  callback_unfold. rewrite P. cbv beta iota zeta delta [negb].
  rewrite F. cbv beta iota zeta. store_simpl.
  rewrite (sortByCreatedAt_sorted _ CO).
  rewrite (renumberFrom_spec _ [] 0); cbn [app]; try assumption.
  - reflexivity.
  - reflexivity.
  - constructor.
  - eapply Forall_impl; [| exact IR]. cbn beta. intros; lia.
Qed.

Lemma WF_delete_product user id st :
  WF st -> WF (snd (delete_products_id user id st)).
Proof.
  intros W.
  destruct (User.canDeleteProducts (User.permissions user)) eqn:P.
  - destruct (findBy Product._id id (products st)) as [p |] eqn:F.
    + rewrite (delete_product_renumbers user id st p W P F). cbn [snd].
      apply (WF_renumbered _ (WF_product_removed id st W)).
    + unfold delete_products_id. callback_unfold. rewrite P.
      cbv beta iota zeta delta [negb]. rewrite F. cbn [snd].
      apply WF_product_removed, W.
  - unfold delete_products_id. callback_unfold. rewrite P. exact W.
Qed.

(* ===================================================================== *)
(** ** Every request keeps the store well-formed *)
(* ===================================================================== *)

Lemma WF_dispatch keep req st : WF st -> WF (snd (dispatch keep req st)).
Proof.
  intros W. destruct req; cbn [dispatch].
  - apply WF_direct_handover, W.
  - apply WF_manager_return, W.
  - apply WF_handover_request, W.
  - apply WF_employee_return, W.
  - apply WF_approve, W.
  - apply WF_reject, W.
  - apply WF_delete_handover, W.
  - apply WF_create_product, W.
  - apply WF_delete_product, W.
  - apply WF_stock_adjust, W.
Qed.

Lemma snd_serve keep req st : snd (serve keep req st) = tick (snd (dispatch keep req st)).
Proof. unfold serve. destruct (dispatch keep req st). reflexivity. Qed.

Lemma WF_serve keep req st : WF st -> WF (snd (serve keep req st)).
Proof. intros W. rewrite snd_serve. apply WF_tick, WF_dispatch, W. Qed.

Lemma WF_run keep reqs : forall st, WF st -> WF (run keep reqs st).
Proof.
  induction reqs as [| req reqs IH]; intros st W; [exact W |].
  cbn [run]. apply IH, WF_serve, W.
Qed.

(* ===================================================================== *)
(** ** Stock is never negative (claim C2) *)
(* ===================================================================== *)

Lemma WF_stock_nonneg st :
  WF st -> Forall (fun p => 0 <= Product.quantity (Product.stock p)) (products st).
Proof.
  intros W. destruct W as [_ _ _ PV _ _ _ _ _ _ _].
  eapply Forall_impl; [| exact PV]. cbn beta. apply Product_validate_nonneg.
Qed.

(** From a store that holds users only, no run makes a stock negative. *)
Lemma stock_never_negative_from_start keep us reqs :
  Forall (fun p => 0 <= Product.quantity (Product.stock p))
    (products (run keep reqs (initialStore us))).
Proof. apply WF_stock_nonneg, WF_run, WF_initialStore. Qed.

(** C2.  From a well-formed store, after any sequence of product creations,
    product deletions, direct stock adjustments, direct handovers, requests,
    approvals, rejections, returns of either kind and handover deletions,
    every product has a stock quantity of at least zero. *)
Theorem C2_stock_never_negative :
  forall keep reqs st,
    wf st = true ->
    Forall (fun p => 0 <= Product.quantity (Product.stock p))
      (products (run keep reqs st)).
Proof.
  intros keep reqs st W. apply WF_stock_nonneg, WF_run, wf_sound, W.
Qed.

Lemma C2_witness :
  wf shop = true
  /\ Forall (fun p => 0 <= Product.quantity (Product.stock p))
       (products (run false
                    [issue 8 None;
                     PUT_products_id_stock aManager 0%nat "subtract" (whole 5);
                     POST_handovers_id_return anEmployee 1%nat (whole 8) None;
                     PUT_products_id_stock aManager 0%nat "subtract" (whole 10)]
                    shop)).
Proof.
  split; [reflexivity |].
  apply (C2_stock_never_negative false). reflexivity.
Defined.

(* ===================================================================== *)
(** ** Product re-sequencing (claim C8) *)
(* ===================================================================== *)



(** [ProductController.deleteProduct], which no route mounts and no
    request reaches, removes the product and stops: called on the first of
    three products it leaves the other two with the numbers 2 and 3 and the
    counter at 3. *)
Lemma unmounted_controller_does_not_renumber :
  let out := ProductController.deleteProduct 0%nat shop3 in
  wf shop3 = true
  /\ fst out = Message 200 "Product deleted successfully"
  /\ map Product.productId (sortByCreatedAt (products (snd out))) = [2; 3]
  /\ counter (snd out) = Some 3
  /\ ~ renumbered (snd out).
Proof.
  cbv zeta. split; [reflexivity |]. split; [reflexivity |].
  split; [reflexivity |]. split; [reflexivity |].
  intros (R & _). vm_compute in R. discriminate R.
Qed.

(* ===================================================================== *)
(** ** Deleting a handover (claim C7) *)
(* ===================================================================== *)

Lemma stockOf_other_saved pid now old p st :
  Product._id p <> pid ->
  stockOf pid
    (with_products (replaceBy Product._id (touchRestocked now old p) (products st)) st)
  = stockOf pid st.
Proof.
  intros N. rewrite stockOf_saved. apply eqId_false in N. rewrite N. reflexivity.
Qed.

Lemma stockOf_with_handovers pid hs st : stockOf pid (with_handovers hs st) = stockOf pid st.
Proof. reflexivity. Qed.

(** C7.  Deleting a handover removes the record.  When its status is
    [handed_over] the stock of its product grows by the record's quantity;
    when its status is anything else no product is touched.  No other
    product's stock changes in either case. *)
Theorem C7_deletion_restores_committed_stock :
  forall user id st h,
    wf st = true ->
    User.canManageProducts (User.permissions user) = true ->
    findBy HandOver._id id (handovers st) = Some h ->
    let out := delete_handovers_id user id st in
    fst out = Message 200 "Handover deleted successfully"
    /\ handovers (snd out) = removeBy HandOver._id id (handovers st)
    /\ findBy HandOver._id id (handovers (snd out)) = None
    /\ (HandOver.status h = handed_over ->
        hasProduct (HandOver.product h) st = true ->
        stockOf (HandOver.product h) (snd out)
        = stockOf (HandOver.product h) st + HandOver.quantity h)
    /\ (HandOver.status h <> handed_over -> products (snd out) = products st)
    /\ (forall pid, pid <> HandOver.product h -> stockOf pid (snd out) = stockOf pid st).
Proof.
  intros user id st h W P F out. apply wf_sound in W. subst out.
  pose proof (WF_found_handover_valid _ _ _ W F) as VH.
  apply HandOver_validate_iff in VH as (Q & _).
  unfold delete_handovers_id. follow; cbn [fst snd]; store_simpl;
    rewrite ?stockOf_with_handovers.
  - apply findBy_key in Heqo as K.
    split; [reflexivity |]. split; [reflexivity |].
    split; [apply findBy_removeBy_same |]. split; [| split].
    + intros _ _. rewrite stockOf_saved. cbn [Product.set_quantity Product._id].
      rewrite K, eqId_refl. unfold hasProduct, stockOf. rewrite Heqo. reflexivity.
    + intros N. apply Status_eqb_eq in Heqb. contradiction.
    + intros pid N. apply stockOf_other_saved. cbn. congruence.
  - exfalso. pose proof (WF_found_product_valid _ _ _ W Heqo) as VP.
    pose proof (Product_validate_nonneg _ VP) as NN.
    rewrite Product_validate_quantity in Heqb0; [discriminate | exact VP | lia].
  - split; [reflexivity |]. split; [reflexivity |].
    split; [apply findBy_removeBy_same |]. split; [| split].
    + intros _ H. unfold hasProduct in H. rewrite Heqo in H. discriminate H.
    + reflexivity.
    + reflexivity.
  - split; [reflexivity |]. split; [reflexivity |].
    split; [apply findBy_removeBy_same |]. split; [| split].
    + intros S. apply Status_eqb_eq in S. congruence.
    + reflexivity.
    + reflexivity.
Qed.

Lemma C7_witness :
  let st := shopAfterIssue false in
  let out := delete_handovers_id aManager 1%nat st in
  stockOf 0%nat st = 2
  /\ fst out = Message 200 "Handover deleted successfully"
  /\ handovers (snd out) = []
  /\ stockOf 0%nat (snd out) = 10.
Proof.
  intros st out.
  destruct (C7_deletion_restores_committed_stock aManager 1%nat st
              (HandOver.mk 1%nat 0%nat 3%nat (Some 2%nat) 8 None None handed_over
                 1%nat None None None None None None None 1%nat None None))
    as (R & H & _ & S & _).
  - reflexivity.
  - reflexivity.
  - reflexivity.
  - split; [reflexivity |]. split; [exact R |]. split; [exact H |].
    apply S; reflexivity.
Defined.

(* ===================================================================== *)
(** ** Stock conservation (claim C1) *)
(* ===================================================================== *)

Lemma held_stored keep pid h : held pid (HandOver.stored keep h) = held pid h.
Proof. destruct keep; reflexivity. Qed.

Lemma committed_app pid l l' :
  committed pid (l ++ l') = committed pid l + committed pid l'.
Proof. induction l as [| h l IH]; cbn [app committed]; [reflexivity | lia]. Qed.

Lemma committed_absent pid (f : HandOver.doc -> HandOver.doc) id hs :
  ~ In id (map HandOver._id hs) ->
  committed pid (map (fun x => if eqId (HandOver._id x) id then f x else x) hs)
  = committed pid hs.
Proof.
  induction hs as [| x hs IH]; cbn [map committed In]; intros N; [reflexivity |].
  rewrite IH by tauto.
  destruct (eqId (HandOver._id x) id) eqn:E; [| reflexivity].
  apply eqId_true in E. exfalso. apply N. left. exact E.
Qed.

(** Writing a record changes what is committed by the difference between
    what the new and the old record hold. *)
Lemma committed_replaceBy pid h h' hs :
  NoDup (map HandOver._id hs) ->
  findBy HandOver._id (HandOver._id h') hs = Some h ->
  committed pid (replaceBy HandOver._id h' hs)
  = committed pid hs - held pid h + held pid h'.
Proof.
  unfold replaceBy, findBy. induction hs as [| x hs IH]; cbn [map find committed];
    intros N F; [discriminate F |].
  inversion N as [| ? ? Nx Nhs]; subst.
  destruct (eqId (HandOver._id x) (HandOver._id h')) eqn:E.
  - inversion F; subst x. apply eqId_true in E.
    rewrite (committed_absent pid (fun _ => h') (HandOver._id h') hs)
      by (rewrite <- E; exact Nx).
    lia.
  - rewrite (IH Nhs F). lia.
Qed.

Lemma committed_removeBy_absent pid id hs :
  ~ In id (map HandOver._id hs) ->
  committed pid (removeBy HandOver._id id hs) = committed pid hs.
Proof.
  unfold removeBy.
  induction hs as [| x hs IH]; cbn [map committed In filter]; intros N; [reflexivity |].
  destruct (eqId (HandOver._id x) id) eqn:E; cbn [negb committed].
  - apply eqId_true in E. exfalso. apply N. left. exact E.
  - rewrite IH by tauto. reflexivity.
Qed.

Lemma committed_removeBy pid id h hs :
  NoDup (map HandOver._id hs) ->
  findBy HandOver._id id hs = Some h ->
  committed pid (removeBy HandOver._id id hs) = committed pid hs - held pid h.
Proof.
  unfold findBy. induction hs as [| x hs IH]; cbn [map find committed];
    intros N F; [discriminate F |].
  inversion N as [| ? ? Nx Nhs]; subst.
  unfold removeBy. cbn [filter].
  destruct (eqId (HandOver._id x) id) eqn:E; cbn [negb committed].
  - inversion F; subst x. apply eqId_true in E.
    fold (removeBy HandOver._id id hs).
    rewrite committed_removeBy_absent by (rewrite <- E; exact Nx). lia.
  - fold (removeBy HandOver._id id hs). rewrite (IH Nhs F). lia.
Qed.

Lemma hasProduct_saved pid now old p st :
  hasProduct pid
    (with_products (replaceBy Product._id (touchRestocked now old p) (products st)) st)
  = hasProduct pid st.
Proof.
  unfold hasProduct. store_simpl. rewrite findBy_replaceBy.
  destruct (findBy Product._id pid (products st)); reflexivity.
Qed.

Lemma hasProduct_with_handovers pid hs st :
  hasProduct pid (with_handovers hs st) = hasProduct pid st.
Proof. reflexivity. Qed.

Lemma held_not_handed_over pid h : HandOver.status h <> handed_over -> held pid h = 0.
Proof.
  intros N. apply Status_eqb_neq in N. unfold held. rewrite N, andb_false_r. reflexivity.
Qed.

Lemma held_handed_over pid h :
  HandOver.status h = handed_over ->
  held pid h = if eqId (HandOver.product h) pid then HandOver.quantity h else 0.
Proof.
  intros S. unfold held. rewrite S. cbn. rewrite andb_true_r. reflexivity.
Qed.

(** A [product.save()] that follows a passed stock guard cannot fail
    validation in a well-formed store. *)
Lemma save_cannot_fail st pid p q :
  WF st ->
  findBy Product._id pid (products st) = Some p ->
  0 <= q ->
  negb (Product.validate (Product.set_quantity q p)) = true ->
  False.
Proof.
  intros W F Q V. apply negb_true_iff in V.
  rewrite Product_validate_quantity in V;
    [discriminate | eapply WF_found_product_valid; eassumption | exact Q].
Qed.

(** The ledger of a product after a record and then a product were
    written, in terms of what the records hold and the stock. *)
Ltac ledger_after W F :=
  unfold ledger;
  rewrite ?stockOf_saved, ?stockOf_with_handovers, ?hasProduct_with_handovers;
  store_simpl;
  erewrite ?committed_replaceBy;
    [ | apply (wf_handover_ids _ W)
      | rewrite ?stored_id; cbn; rewrite (findBy_key _ _ _ _ F); exact F ];
  rewrite ?held_stored.

(** Decide whether the written product is the one whose ledger is taken. *)
Ltac ledger_cases G :=
  cbn [Product._id Product.set_quantity Product.quantity Product.stock
       HandOver.product HandOver.quantity HandOver.status
       HandOver.set_handedOverBy HandOver.set_notes HandOver.set_status
       HandOver.set_handOverDate HandOver.set_actualReturnDate
       HandOver.set_returnedBy HandOver.set_returnNotes HandOver.set_rejectedBy
       HandOver.set_rejectionReason HandOver.set_approvalNotes
       HandOver.set_returnedQuantity HandOver.set_returnDate];
  rewrite ?(findBy_key _ _ _ _ G);
  match goal with
  | |- context [eqId ?a ?b] =>
      destruct (eqId a b) eqn:?E; cbn [andb];
      [ apply eqId_true in E; subst;
        unfold hasProduct, stockOf; rewrite ?G; cbn [isSome]; try lia
      | try lia ]
  end.

Lemma ledger_approve keep user id notes st pid :
  WF st ->
  ledger pid (snd (post_handovers_id_approve keep user id notes st)) = ledger pid st.
Proof.
  intros W. unfold post_handovers_id_approve. explore; cbn [snd]; try reflexivity.
  - exfalso. tidy. eapply (save_cannot_fail st); [exact W | exact Heqo0 | | exact Heqb4].
    cbn. lia.
  - ledger_after W Heqo.
    apply negb_false_iff, Status_eqb_eq in Heqb1.
    rewrite (held_not_handed_over pid d) by (rewrite Heqb1; discriminate).
    rewrite held_handed_over by reflexivity.
    ledger_cases Heqo0.
Qed.

Lemma ledger_reject keep user id reason st pid :
  WF st ->
  ledger pid (snd (post_handovers_id_reject keep user id reason st)) = ledger pid st.
Proof.
  intros W. unfold post_handovers_id_reject. explore; cbn [snd]; try reflexivity.
  ledger_after W Heqo.
  apply negb_false_iff, Status_eqb_eq in Heqb1.
  rewrite (held_not_handed_over pid d) by (rewrite Heqb1; discriminate).
  rewrite held_not_handed_over by (cbn; discriminate).
  lia.
Qed.

Lemma ledger_request keep user body st pid :
  ledger pid (snd (post_handovers_request keep user body st)) = ledger pid st.
Proof.
  unfold post_handovers_request. explore; cbn [snd]; try reflexivity.
  unfold ledger. rewrite stockOf_with_handovers. store_simpl.
  rewrite committed_app. cbn [committed]. rewrite held_stored.
  rewrite held_not_handed_over by (cbn; discriminate).
  unfold stockOf. store_simpl. lia.
Qed.

Lemma ledger_direct_handover keep user body st pid :
  WF st ->
  ledger pid (snd (post_handovers keep user body st)) = ledger pid st.
Proof.
  intros W. unfold post_handovers. explore; cbn [snd]; try reflexivity.
  - exfalso. tidy.
    eapply (save_cannot_fail st); [exact W | exact Heqo | | exact Heqb3]. lia.
  - unfold ledger.
    rewrite ?stockOf_saved, ?stockOf_with_handovers, ?hasProduct_with_handovers.
    store_simpl. rewrite committed_app. cbn [committed]. rewrite held_stored.
    rewrite held_handed_over by reflexivity.
    change (stockOf pid (with_nextObjectId (S (nextObjectId st)) st)) with (stockOf pid st).
    change (hasProduct pid (with_nextObjectId (S (nextObjectId st)) st))
      with (hasProduct pid st).
    ledger_cases Heqo.
Qed.

(** A record of a product that is gone holds nothing of a product that is
    there. *)
Lemma held_of_missing st pid h :
  hasProduct pid st = true ->
  findBy Product._id (HandOver.product h) (products st) = None ->
  held pid h = 0.
Proof.
  intros H N. unfold held.
  destruct (eqId (HandOver.product h) pid) eqn:E; [| reflexivity].
  apply eqId_true in E. subst pid. unfold hasProduct in H. rewrite N in H. discriminate H.
Qed.

Lemma ledger_manager_return keep user id notes st pid :
  WF st ->
  hasProduct pid st = true ->
  balanced (PUT_handovers_id_return user id notes) st = true ->
  ledger pid (snd (put_handovers_id_return keep user id notes st)) = ledger pid st.
Proof.
  intros W H B. unfold put_handovers_id_return. cbn [balanced] in B.
  explore; cbn [snd]; try reflexivity.
  all: rewrite orb_false_r in B; apply Status_eqb_eq in B.
  all: pose proof (WF_found_handover_valid _ _ _ W Heqo) as VH;
    apply HandOver_validate_iff in VH as (Q & _).
  - exfalso. store_simpl_in Heqo1.
    pose proof (Product_validate_nonneg _ (WF_found_product_valid _ _ _ W Heqo1)).
    eapply (save_cannot_fail st); [exact W | exact Heqo1 | | exact Heqb3]. cbn. lia.
  - store_simpl_in Heqo1. rewrite (findBy_key _ _ _ _ Heqo0), Heqo0 in Heqo1.
    inversion Heqo1; subst d1.
    ledger_after W Heqo.
    rewrite (held_handed_over pid d B).
    rewrite held_not_handed_over by (cbn; discriminate).
    ledger_cases Heqo0.
  - exfalso. store_simpl_in Heqo1. rewrite (findBy_key _ _ _ _ Heqo0), Heqo0 in Heqo1.
    discriminate Heqo1.
  - ledger_after W Heqo.
    rewrite (held_of_missing st pid d H Heqo0).
    rewrite held_not_handed_over by (cbn; discriminate).
    lia.
Qed.

(** *** The employee return route on a number *)

(** One return of the number [q] on a record of the caller: the answer and
    the store, whether or not the collection keeps the running total. *)
Lemma employee_return_step keep user id v q notes st h p :
  User.canReturnHandover (User.permissions user) = true ->
  optionalIsLength 500 notes = true ->
  findBy HandOver._id id (handovers st) = Some h ->
  HandOver.status h = handed_over ->
  HandOver.employee h = User._id user ->
  tallied h = true ->
  findBy Product._id (HandOver.product h) (products st) = Some p ->
  HandOver.validate h = true ->
  Product.validate p = true ->
  isNumber v q = true ->
  1 <= q <= HandOver.quantity h ->
  post_handovers_id_return keep user id v notes st
  = (WithHandover 200 "Handover returned successfully" (afterReturn user q notes (clock st) h),
     with_products
       (replaceBy Product._id
          (touchRestocked (clock st) (Some p)
             (Product.set_quantity (Product.quantity (Product.stock p) + q) p))
          (products st))
       (with_handovers
          (replaceBy HandOver._id
             (HandOver.stored keep (afterReturn user q notes (clock st) h)) (handovers st))
          st)).
Proof.
  intros P VN F S E T G VH VP N [Q1 Q2].
  pose proof (Product_validate_nonneg _ VP) as NN.
  pose proof (tally_nonneg h T) as TN.
  apply HandOver_validate_iff in VH as (VQ & VB & VPu & VNo & _ & VJ & VA).
  pose proof S as S0.
  apply eqId_true in E. apply Status_eqb_eq in S.
  unfold post_handovers_id_return.
  rewrite (isNumber_isInt v q 1 N), (isNumber_asJs v q N).
  assert (Q1' : (1 <=? q) = true) by (apply Z.leb_le; exact Q1).
  callback_unfold. rewrite P, Q1', VN. settle. rewrite F. settle. rewrite E, S. settle.
  cbn [JS.gt]. assert (L : (HandOver.quantity h <? q) = false) by (apply Z.ltb_ge; lia).
  rewrite L. rewrite (or_tallied h T). cbn [JS.plus].
  cbn [HandOver.set_returnedQuantity HandOver.returnedQuantity
       HandOver.set_returnedBy HandOver.set_returnDate HandOver.set_returnNotes
       HandOver.quantity JS.ge].
  fold (afterReturn user q notes (clock st) h).
  set (h' := afterReturn user q notes (clock st) h).
  assert (V1 : HandOver.validate h' = true).
  { apply HandOver_validate_iff. unfold h', afterReturn.
    destruct (HandOver.quantity h <=? tally h + q); cbn.
    - repeat split; try assumption; [intros D; discriminate D |].
      apply (maxlength_trim 500). exact VN.
    - repeat split; try assumption. apply (maxlength_trim 500). exact VN. }
  assert (PH : HandOver.product h' = HandOver.product h)
    by (unfold h', afterReturn; destruct (HandOver.quantity h <=? tally h + q); reflexivity).
  rewrite V1. cbv beta iota zeta. store_simpl. rewrite PH, G. cbn [castNumber].
  assert (V2 : Product.validate
                 (Product.set_quantity (Product.quantity (Product.stock p) + q) p) = true)
    by (apply Product_validate_quantity; [exact VP | lia]).
  rewrite V2. cbv beta iota zeta. store_simpl.
  cbn [Product._id Product.set_quantity].
  rewrite (findBy_key _ _ _ _ G), G. reflexivity.
Qed.

Lemma afterReturn_facts keep user q notes now h :
  tallied h = true ->
  1 <= q ->
  let h' := HandOver.stored keep (afterReturn user q notes now h) in
  HandOver._id h' = HandOver._id h
  /\ HandOver.product h' = HandOver.product h
  /\ HandOver.employee h' = HandOver.employee h
  /\ HandOver.quantity h' = HandOver.quantity h
  /\ HandOver.status h'
     = (if HandOver.quantity h <=? tally h + q then returned else HandOver.status h)
  /\ tallied h' = true
  /\ tally h' = (if keep then tally h + q else 0).
Proof.
  intros T Q h'. subst h'. pose proof (tally_nonneg h T) as TN.
  assert (L : (0 <=? tally h + q) = true) by (apply Z.leb_le; lia).
  unfold afterReturn.
  destruct (HandOver.quantity h <=? tally h + q), keep;
    cbn [HandOver.stored HandOver.set_status HandOver.set_returnNotes
         HandOver.set_returnDate HandOver.set_returnedBy HandOver.set_returnedQuantity
         HandOver._id HandOver.product HandOver.employee HandOver.quantity
         HandOver.status];
    repeat (split; [reflexivity |]); unfold tallied, tally at 1;
    cbn [HandOver.returnedQuantity]; split; try reflexivity; exact L.
Qed.

Lemma employee_return_served keep user id v q notes st h p :
  WF st ->
  User.canReturnHandover (User.permissions user) = true ->
  optionalIsLength 500 notes = true ->
  findBy HandOver._id id (handovers st) = Some h ->
  HandOver.status h = handed_over ->
  HandOver.employee h = User._id user ->
  tallied h = true ->
  findBy Product._id (HandOver.product h) (products st) = Some p ->
  isNumber v q = true ->
  1 <= q <= HandOver.quantity h ->
  let out := serve keep (POST_handovers_id_return user id v notes) st in
  fst out = WithHandover 200 "Handover returned successfully"
              (afterReturn user q notes (clock st) h)
  /\ findBy HandOver._id id (handovers (snd out))
     = Some (HandOver.stored keep (afterReturn user q notes (clock st) h))
  /\ (exists p',
        findBy Product._id (HandOver.product h) (products (snd out)) = Some p'
        /\ Product.quantity (Product.stock p') = Product.quantity (Product.stock p) + q)
  /\ stockOf (HandOver.product h) (snd out) = stockOf (HandOver.product h) st + q
  /\ ledger (HandOver.product h) (snd out)
     = ledger (HandOver.product h) st + q
       - (if HandOver.quantity h <=? tally h + q then HandOver.quantity h else 0).
Proof.
  intros W P VN F S E T G N Q out. subst out.
  pose proof (WF_found_handover_valid _ _ _ W F) as VH.
  pose proof (WF_found_product_valid _ _ _ W G) as VP.
  unfold serve. cbn [dispatch].
  rewrite (employee_return_step keep user id v q notes st h p P VN F S E T G VH VP N Q).
  cbn [fst snd]. unfold tick. store_simpl.
  destruct (afterReturn_facts keep user q notes (clock st) h T (proj1 Q))
    as (I' & P' & _ & Q' & S' & _).
  pose proof (findBy_key _ _ _ _ F) as K.
  pose proof (findBy_key _ _ _ _ G) as KP.
  split; [reflexivity |]. split; [| split; [| split]].
  - rewrite findBy_replaceBy, F, I', K, eqId_refl. reflexivity.
  - rewrite findBy_replaceBy, G, touchRestocked_id. cbn [Product._id Product.set_quantity].
    rewrite KP, eqId_refl. eexists. split; [reflexivity |].
    rewrite touchRestocked_quantity. reflexivity.
  - unfold stockOf. store_simpl. rewrite findBy_replaceBy, G, touchRestocked_id.
    cbn [Product._id Product.set_quantity]. rewrite KP, eqId_refl.
    rewrite touchRestocked_quantity. reflexivity.
  - unfold ledger, stockOf. store_simpl.
    rewrite findBy_replaceBy, G, touchRestocked_id.
    cbn [Product._id Product.set_quantity]. rewrite KP, eqId_refl.
    rewrite touchRestocked_quantity. cbn [Product.quantity Product.stock].
    rewrite (committed_replaceBy _ h) by
      (first [apply (wf_handover_ids _ W) | rewrite I', K; exact F]).
    unfold held at 1 2. rewrite P', Q', S', S, eqId_refl. cbn [Status_eqb andb].
    destruct (HandOver.quantity h <=? tally h + q);
      cbn [Status_eqb Product.set_quantity Product.quantity Product.stock]; lia.
Qed.

Lemma ledger_employee_return keep user id q notes st pid :
  WF st ->
  hasProduct pid st = true ->
  balanced (POST_handovers_id_return user id q notes) st = true ->
  ledger pid (snd (post_handovers_id_return keep user id q notes st)) = ledger pid st.
Proof.
  intros W H B. unfold post_handovers_id_return. cbn [balanced] in B.
  explore; cbn [snd]; try reflexivity.
  all: apply andb_true_iff in B as (B1 & B2).
  all: rewrite (isNumber_asJs _ _ B1), ?(or_tallied _ B2) in *.
  all: pose proof (tally_nonneg _ B2) as TN.
  all: pose proof (WF_found_handover_valid _ _ _ W Heqo) as VH;
    apply HandOver_validate_iff in VH as (Q & _).
  all: cbn [JS.gt JS.plus JS.ge castNumber orElse HandOver.quantity HandOver.product
            HandOver.returnedQuantity HandOver.set_status HandOver.set_returnNotes
            HandOver.set_returnDate HandOver.set_returnedBy
            HandOver.set_returnedQuantity] in * |-.
  all: cbn [handovers products users counter nextObjectId clock
            with_handovers with_products with_counter with_nextObjectId with_clock tick]
         in * |-.
  all: try match goal with H : Some _ = None |- _ => discriminate H end.
  all: try match goal with H : Some _ = Some ?z |- _ => inversion H; subst z; clear H end.
  all: match goal with
       | H : (_ <=? _) = false |- _ => apply Z.leb_gt in H; exfalso; lia
       | _ => idtac
       end.
  all: match goal with
       | H : negb (Status_eqb _ _) = false |- _ => apply negb_false_iff, Status_eqb_eq in H
       end.
  - exfalso.
    pose proof (Product_validate_nonneg _ (WF_found_product_valid _ _ _ W Heqo0)).
    eapply (save_cannot_fail st); [exact W | exact Heqo0 | | exact Heqb6]. lia.
  - ledger_after W Heqo.
    rewrite (held_handed_over pid d Heqb2).
    rewrite held_not_handed_over by (cbn; discriminate).
    ledger_cases Heqo0.
  - ledger_after W Heqo.
    rewrite (held_of_missing st pid d H Heqo0).
    rewrite held_not_handed_over by (cbn; discriminate).
    lia.
Qed.

Lemma ledger_delete_handover user id st pid :
  WF st ->
  hasProduct pid st = true ->
  ledger pid (snd (delete_handovers_id user id st)) = ledger pid st.
Proof.
  intros W H. unfold delete_handovers_id.
  explore; cbn [snd]; try reflexivity.
  all: pose proof (WF_found_handover_valid _ _ _ W Heqo) as VH;
    apply HandOver_validate_iff in VH as (Q & _).
  all: unfold ledger;
    rewrite ?stockOf_with_handovers, ?stockOf_saved; store_simpl;
    try rewrite (committed_removeBy pid id d _ (wf_handover_ids _ W) Heqo).
  - apply Status_eqb_eq in Heqb0. rewrite (held_handed_over pid d Heqb0).
    ledger_cases Heqo0.
  - rewrite (held_of_missing st pid d H Heqo0). lia.
  - apply Status_eqb_neq in Heqb0. rewrite (held_not_handed_over pid d Heqb0). lia.
Qed.

Lemma hasProduct_dispatch keep req st pid :
  handoverOperation req = true ->
  hasProduct pid (snd (dispatch keep req st)) = hasProduct pid st.
Proof.
  intros O. destruct req; try discriminate O; cbn [dispatch].
  - unfold post_handovers. explore; cbn [snd]; try reflexivity.
    rewrite hasProduct_saved. reflexivity.
  - unfold put_handovers_id_return. explore; cbn [snd]; try reflexivity.
    rewrite hasProduct_saved. reflexivity.
  - unfold post_handovers_request. explore; cbn [snd]; reflexivity.
  - unfold post_handovers_id_return. explore; cbn [snd]; try reflexivity.
    all: rewrite hasProduct_saved; reflexivity.
  - unfold post_handovers_id_approve. explore; cbn [snd]; try reflexivity.
    rewrite hasProduct_saved. reflexivity.
  - unfold post_handovers_id_reject. explore; cbn [snd]; reflexivity.
  - unfold delete_handovers_id. explore; cbn [snd]; try reflexivity.
    rewrite hasProduct_with_handovers, hasProduct_saved. reflexivity.
Qed.

Lemma balanced_handoverOperation req st : balanced req st = true -> handoverOperation req = true.
Proof. destruct req; cbn; intros B; try reflexivity; exact B. Qed.

Lemma ledger_dispatch keep req st pid :
  WF st ->
  hasProduct pid st = true ->
  balanced req st = true ->
  ledger pid (snd (dispatch keep req st)) = ledger pid st.
Proof.
  intros W H B. destruct req; try discriminate B; cbn [dispatch].
  - apply ledger_direct_handover, W.
  - apply ledger_manager_return; assumption.
  - apply ledger_request.
  - apply ledger_employee_return; assumption.
  - apply ledger_approve, W.
  - apply ledger_reject, W.
  - apply ledger_delete_handover; assumption.
Qed.

Lemma ledger_tick pid st : ledger pid (tick st) = ledger pid st.
Proof. reflexivity. Qed.

Lemma hasProduct_tick pid st : hasProduct pid (tick st) = hasProduct pid st.
Proof. reflexivity. Qed.

Lemma ledger_run keep reqs :
  forall st pid,
    WF st ->
    balancedRun keep reqs st = true ->
    hasProduct pid st = true ->
    ledger pid (run keep reqs st) = ledger pid st.
Proof.
  induction reqs as [| req reqs IH]; intros st pid W B H; [reflexivity |].
  cbn [run balancedRun] in *. apply andb_true_iff in B as (B1 & B2).
  rewrite IH.
  - rewrite snd_serve, ledger_tick. apply ledger_dispatch; assumption.
  - apply WF_serve, W.
  - exact B2.
  - rewrite snd_serve, hasProduct_tick, hasProduct_dispatch; [exact H |].
    eapply balanced_handoverOperation, B1.
Qed.

(** What the routes do conserve.  From a well-formed store, along any
    sequence of handover operations in which every employee return hands in
    the whole quantity of its record as a number and no manager return is
    applied to a pending or rejected record, the sum of the quantities of a
    product's [handed_over] records plus the product's stock stays what it
    was at the start. *)
Lemma conservation_for_balanced_runs :
  forall keep reqs st pid,
    wf st = true ->
    balancedRun keep reqs st = true ->
    hasProduct pid st = true ->
    ledger pid (run keep reqs st) = ledger pid st.
Proof.
  intros keep reqs st pid W. apply ledger_run, wf_sound, W.
Qed.

Lemma balanced_run_example :
  let reqs :=
    [issue 4 None; ask 5 "need it";
     POST_handovers_id_approve aManager 2%nat None;
     PUT_handovers_id_return aManager 1%nat None;
     POST_handovers_id_return anEmployee 2%nat (whole 5) None;
     issue 3 None;
     DELETE_handovers_id aManager 3%nat] in
  ledger 0%nat shop = 10
  /\ balancedRun false reqs shop = true
  /\ map HandOver.status (handovers (run false reqs shop)) = [returned; returned]
  /\ ledger 0%nat (run false reqs shop) = 10.
Proof. repeat split; vm_compute; reflexivity. Qed.

(* ===================================================================== *)
(** ** Returns beyond what is outstanding (claims C3 and C1) *)
(* ===================================================================== *)

(** C3, where the code departs from the claim.  The route compares the
    returned quantity with the borrowed quantity, not with what is still
    outstanding: after a first return of [q1] a second return of [q2],
    larger than what is outstanding, is accepted as long as it is not
    above the borrowed quantity, and the stock grows by both, whether or
    not the collection keeps the running total. *)
Theorem C3_return_beyond_outstanding_is_accepted :
  forall keep user id q1 q2 notes st h p,
    wf st = true ->
    User.canReturnHandover (User.permissions user) = true ->
    optionalIsLength 500 notes = true ->
    findBy HandOver._id id (handovers st) = Some h ->
    HandOver.status h = handed_over ->
    HandOver.employee h = User._id user ->
    HandOver.returnedQuantity h = None ->
    findBy Product._id (HandOver.product h) (products st) = Some p ->
    1 <= q1 < HandOver.quantity h ->
    HandOver.quantity h - q1 < q2 <= HandOver.quantity h ->
    let first := serve keep (POST_handovers_id_return user id (whole q1) notes) st in
    let second := serve keep (POST_handovers_id_return user id (whole q2) notes) (snd first) in
    isSuccess (fst first) = true
    /\ isSuccess (fst second) = true
    /\ stockOf (HandOver.product h) (snd second)
       = stockOf (HandOver.product h) st + q1 + q2
    /\ HandOver.quantity h < q1 + q2.
Proof.
  intros keep user id q1 q2 notes st h p W P VN F S E R G Q1 Q2 first second.
  apply wf_sound in W.
  assert (T : tallied h = true) by (unfold tallied; rewrite R; reflexivity).
  assert (T0 : tally h = 0) by (unfold tally; rewrite R; reflexivity).
  destruct (employee_return_served keep user id (whole q1) q1 notes st h p
              W P VN F S E T G (isNumber_whole q1)) as (A1 & F1 & (p1 & G1 & K1) & S1 & _);
    [lia |].
  fold first in A1, F1, G1, S1.
  destruct (afterReturn_facts keep user q1 notes (clock st) h T (proj1 Q1))
    as (_ & P1 & E1 & N1 & St1 & T1 & Ta1).
  set (h1 := HandOver.stored keep (afterReturn user q1 notes (clock st) h)) in *.
  assert (Open : (HandOver.quantity h <=? tally h + q1) = false)
    by (apply Z.leb_gt; lia).
  rewrite Open in St1.
  rewrite <- P1 in G1.
  destruct (employee_return_served keep user id (whole q2) q2 notes (snd first) h1 p1
              (WF_serve keep _ st W) P VN F1) as (A2 & _ & _ & S2 & _);
    try assumption; try congruence; try apply isNumber_whole; try lia.
  fold second in A2, S2.
  split; [rewrite A1; reflexivity |]. split; [rewrite A2; reflexivity |].
  split; [| lia].
  rewrite P1 in S2. rewrite S2, S1. lia.
Qed.

Lemma C3_witness :
  let st := shopAfterIssue false in
  let first := serve false (POST_handovers_id_return anEmployee 1%nat (whole 3) None) st in
  let second := serve false (POST_handovers_id_return anEmployee 1%nat (whole 8) None)
                  (snd first) in
  stockOf 0%nat st = 2
  /\ isSuccess (fst first) = true
  /\ isSuccess (fst second) = true
  /\ stockOf 0%nat (snd second) = 2 + 3 + 8.
Proof.
  intros st first second.
  assert (W : wf st = true) by (vm_compute; reflexivity).
  destruct (findBy HandOver._id 1%nat (handovers st)) as [h |] eqn:F;
    [| vm_compute in F; discriminate F].
  destruct (findBy Product._id 0%nat (products st)) as [p |] eqn:G;
    [| vm_compute in G; discriminate G].
  assert (H : h = HandOver.mk 1%nat 0%nat 3%nat (Some 2%nat) 8 None None handed_over
                    1%nat None None None None None None None 1%nat None None)
    by (vm_compute in F; inversion F; reflexivity).
  assert (G' : findBy Product._id (HandOver.product h) (products st) = Some p)
    by (rewrite H; exact G).
  destruct (C3_return_beyond_outstanding_is_accepted false anEmployee 1%nat 3 8 None st h p
              W eq_refl eq_refl F) as (A & B & C & _);
    try (rewrite H; reflexivity); try exact G'; try (rewrite H; cbn; lia).
  split; [vm_compute; reflexivity |].
  split; [exact A |]. split; [exact B |].
  rewrite H in C. cbn [HandOver.product] in C.
  transitivity (stockOf 0%nat st + 3 + 8); [exact C | vm_compute; reflexivity].
Defined.

(** C1, where the code departs from the claim.  A return in two parts gives
    back more than was taken: after a first return of [q] the record is
    still handed over in full, a second return of the whole quantity is
    accepted and closes it, and the stock has grown by [q] more than the
    record ever took from it.  The sum of what the handed-over records hold
    and the stock ends [q] above where it started, whether or not the
    collection keeps the running total. *)
Theorem C1_returns_give_back_more_than_was_taken :
  forall keep user id q notes st h p,
    wf st = true ->
    User.canReturnHandover (User.permissions user) = true ->
    optionalIsLength 500 notes = true ->
    findBy HandOver._id id (handovers st) = Some h ->
    HandOver.status h = handed_over ->
    HandOver.employee h = User._id user ->
    HandOver.returnedQuantity h = None ->
    findBy Product._id (HandOver.product h) (products st) = Some p ->
    1 <= q < HandOver.quantity h ->
    let reqs :=
      [POST_handovers_id_return user id (whole q) notes;
       POST_handovers_id_return user id (whole (HandOver.quantity h)) notes] in
    forallb isSuccess (responses keep reqs st) = true
    /\ forallb handoverOperation reqs = true
    /\ (exists h', findBy HandOver._id id (handovers (run keep reqs st)) = Some h'
                   /\ HandOver.status h' = returned)
    /\ ledger (HandOver.product h) (run keep reqs st) = ledger (HandOver.product h) st + q.
Proof.
  intros keep user id q notes st h p W P VN F S E R G Q reqs. subst reqs.
  apply wf_sound in W.
  assert (T : tallied h = true) by (unfold tallied; rewrite R; reflexivity).
  assert (T0 : tally h = 0) by (unfold tally; rewrite R; reflexivity).
  pose proof (WF_found_handover_valid _ _ _ W F) as VH.
  apply HandOver_validate_iff in VH as (VQ & _).
  cbn [responses run forallb handoverOperation andb].
  set (first := serve keep (POST_handovers_id_return user id (whole q) notes) st).
  destruct (employee_return_served keep user id (whole q) q notes st h p
              W P VN F S E T G (isNumber_whole q)) as (A1 & F1 & (p1 & G1 & K1) & _ & L1);
    [lia |].
  fold first in A1, F1, G1, L1.
  destruct (afterReturn_facts keep user q notes (clock st) h T (proj1 Q))
    as (_ & P1 & E1 & N1 & St1 & T1 & Ta1).
  set (h1 := HandOver.stored keep (afterReturn user q notes (clock st) h)) in *.
  assert (Open : (HandOver.quantity h <=? tally h + q) = false)
    by (apply Z.leb_gt; lia).
  rewrite Open in St1, L1.
  rewrite <- P1 in G1.
  set (second := serve keep
                   (POST_handovers_id_return user id (whole (HandOver.quantity h)) notes)
                   (snd first)).
  pose proof (tally_nonneg h1 T1) as TN1.
  destruct (employee_return_served keep user id (whole (HandOver.quantity h))
              (HandOver.quantity h) notes (snd first) h1 p1
              (WF_serve keep _ st W) P VN F1) as (A2 & F2 & _ & _ & L2);
    try assumption; try congruence; try apply isNumber_whole; try lia.
  fold second in A2, F2, L2.
  destruct (afterReturn_facts keep user (HandOver.quantity h) notes (clock (snd first)) h1 T1 VQ)
    as (_ & _ & _ & _ & St2 & _).
  assert (Closed : (HandOver.quantity h1 <=? tally h1 + HandOver.quantity h) = true)
    by (apply Z.leb_le; lia).
  rewrite Closed in St2, L2.
  split; [rewrite A1, A2; reflexivity |]. split; [reflexivity |]. split.
  - eexists. split; [exact F2 | exact St2].
  - rewrite P1 in L2. rewrite L2, L1. lia.
Qed.

Lemma C1_witness :
  let st := shopAfterIssue false in
  let reqs :=
    [POST_handovers_id_return anEmployee 1%nat (whole 3) None;
     POST_handovers_id_return anEmployee 1%nat (whole 8) None] in
  ledger 0%nat shop = 10
  /\ ledger 0%nat st = 10
  /\ forallb isSuccess (responses false reqs st) = true
  /\ map HandOver.status (handovers (run false reqs st)) = [returned]
  /\ stockOf 0%nat (run false reqs st) = 13
  /\ ledger 0%nat (run false reqs st) = 10 + 3.
Proof.
  intros st reqs.
  assert (W : wf st = true) by (vm_compute; reflexivity).
  destruct (findBy HandOver._id 1%nat (handovers st)) as [h |] eqn:F;
    [| vm_compute in F; discriminate F].
  destruct (findBy Product._id 0%nat (products st)) as [p |] eqn:G;
    [| vm_compute in G; discriminate G].
  assert (H : h = HandOver.mk 1%nat 0%nat 3%nat (Some 2%nat) 8 None None handed_over
                    1%nat None None None None None None None 1%nat None None)
    by (vm_compute in F; inversion F; reflexivity).
  assert (G' : findBy Product._id (HandOver.product h) (products st) = Some p)
    by (rewrite H; exact G).
  destruct (C1_returns_give_back_more_than_was_taken false anEmployee 1%nat 3 None st h p
              W eq_refl eq_refl F) as (A & _ & _ & L);
    try (rewrite H; reflexivity); try exact G'; try (rewrite H; cbn; lia).
  rewrite H in A, L. cbn [HandOver.quantity HandOver.product] in A, L.
  split; [vm_compute; reflexivity |]. split; [vm_compute; reflexivity |].
  split; [exact A |].
  split; [vm_compute; reflexivity |]. split; [vm_compute; reflexivity |].
  transitivity (ledger 0%nat st + 3); [exact L | vm_compute; reflexivity].
Defined.

(* ===================================================================== *)
(** ** The life of a handover record *)
(* ===================================================================== *)

Lemma findBy_app_found {D} (key : D -> ObjectId) id l l' d :
  findBy key id l = Some d -> findBy key id (l ++ l') = Some d.
Proof.
  unfold findBy. induction l as [| x l IH]; cbn; [discriminate |].
  destruct (eqId (key x) id); auto.
Qed.

Lemma findBy_app_absent {D} (key : D -> ObjectId) id l l' :
  findBy key id l = None -> findBy key id (l ++ l') = findBy key id l'.
Proof.
  unfold findBy. induction l as [| x l IH]; cbn; [reflexivity |].
  destruct (eqId (key x) id); [discriminate | auto].
Qed.

Lemma findBy_removeBy_other {D} (key : D -> ObjectId) id id' l :
  id <> id' -> findBy key id (removeBy key id' l) = findBy key id l.
Proof.
  intros N. unfold findBy, removeBy. induction l as [| x l IH]; cbn; [reflexivity |].
  destruct (eqId (key x) id') eqn:E; cbn.
  - apply eqId_true in E. destruct (eqId (key x) id) eqn:E'; [| exact IH].
    apply eqId_true in E'. congruence.
  - destruct (eqId (key x) id); [reflexivity | exact IH].
Qed.

Lemma stored_same keep h : sameRecord h (HandOver.stored keep h).
Proof. destruct keep; repeat split. Qed.

Lemma sameRecord_refl h : sameRecord h h.
Proof. repeat split. Qed.

Lemma sameRecord_trans a b c : sameRecord a b -> sameRecord b c -> sameRecord a c.
Proof.
  unfold sameRecord. intros (A1 & A2 & A3 & A4 & A5 & A6) (B1 & B2 & B3 & B4 & B5 & B6).
  repeat split; congruence.
Qed.

Lemma mayFollow_refl s : mayFollow s s = true.
Proof. destruct s; reflexivity. Qed.

Lemma mayFollow_trans a b c :
  mayFollow a b = true -> mayFollow b c = true -> mayFollow a c = true.
Proof. destruct a, b, c; cbn; congruence. Qed.

(** The renumbering loop writes to the product collection only. *)
Lemma renumberFrom_frame l :
  forall i st, exists ps, snd (renumberFrom i l st) = with_products ps st.
Proof.
  induction l as [| p l IH]; intros i st.
  - exists (products st). cbn. symmetry. apply with_products_same.
  - cbn [renumberFrom]. unfold bind at 1.
    destruct (Product.productId p =? i + 1); cbn [negb].
    + cbn [ret]. apply IH.
    + unfold Product_findByIdAndUpdate_productId, bind, gets, modify, throw.
      destruct (productIdTaken _ _ _); cbn [snd].
      * exists (products st). symmetry. apply with_products_same.
      * match goal with |- context [renumberFrom ?j l ?s] => destruct (IH j s) as [ps E] end.
        exists ps. rewrite E. reflexivity.
Qed.

(** The routes outside the handover router leave the handover collection
    alone, and do not turn the id generator back. *)
Lemma product_routes_frame keep req st :
  handoverOperation req = false ->
  handovers (snd (dispatch keep req st)) = handovers st
  /\ (nextObjectId st <= nextObjectId (snd (dispatch keep req st)))%nat.
Proof.
  destruct req; cbn [handoverOperation dispatch]; try discriminate; intros _.
  - unfold post_products, Product_create, Counter_inc.
    run_callback; cbn [snd]; store_simpl; split; (reflexivity || lia).
  - unfold delete_products_id, resetProductCounter, Product_find_sorted, Counter_set.
    callback_unfold.
    destruct (negb _); cbn [snd]; [split; (reflexivity || lia) |].
    destruct (findBy _ _ _); cbn [snd]; [| split; (reflexivity || lia)].
    match goal with
    | |- context [renumberFrom ?i ?l ?s] =>
        destruct (renumberFrom_frame l i s) as [ps R];
        destruct (renumberFrom i l s) as [[[] | r | e] s']
    end; cbn [snd] in *; subst; store_simpl; split; (reflexivity || lia).
  - unfold put_products_id_stock.
    run_callback; cbn [snd]; store_simpl; split; (reflexivity || lia).
Qed.

Lemma handovers_product_routes keep req st :
  handoverOperation req = false ->
  handovers (snd (dispatch keep req st)) = handovers st.
Proof. intros O. apply (product_routes_frame keep req st O). Qed.

Lemma findBy_same_record id id' st h h' :
  findBy HandOver._id id (handovers st) = Some h ->
  findBy HandOver._id id' (handovers st) = Some h' ->
  HandOver._id h = HandOver._id h' ->
  h = h'.
Proof.
  intros F F' E.
  pose proof (findBy_key _ _ _ _ F) as K. pose proof (findBy_key _ _ _ _ F') as K'.
  congruence.
Qed.

Lemma stepOf_unchanged id h req st st' :
  findBy HandOver._id id (handovers st) = Some h ->
  handovers st' = handovers st ->
  stepOf id h req st'.
Proof.
  intros F E. unfold stepOf. rewrite E, F. split; [apply sameRecord_refl | apply mayFollow_refl].
Qed.

Lemma stepOf_saved keep id id' h h0 h1 req st st' :
  findBy HandOver._id id (handovers st) = Some h ->
  findBy HandOver._id id' (handovers st) = Some h0 ->
  handovers st' = replaceBy HandOver._id (HandOver.stored keep h1) (handovers st) ->
  sameRecord h0 h1 ->
  mayFollow (HandOver.status h0) (HandOver.status h1) = true ->
  stepOf id h req st'.
Proof.
  intros F F0 E S T. unfold stepOf. rewrite E, findBy_replaceBy, F.
  destruct (eqId _ _) eqn:Q.
  - apply eqId_true in Q. rewrite stored_id in Q.
    assert (h = h0) as -> by (eapply findBy_same_record; eauto; destruct S; congruence).
    split; [eapply sameRecord_trans; [exact S | apply stored_same] |].
    rewrite stored_status. exact T.
  - split; [apply sameRecord_refl | apply mayFollow_refl].
Qed.

Lemma stepOf_added id h req st st' l :
  findBy HandOver._id id (handovers st) = Some h ->
  handovers st' = (handovers st ++ l)%list ->
  stepOf id h req st'.
Proof.
  intros F E. unfold stepOf. rewrite E, (findBy_app_found _ _ _ _ _ F).
  split; [apply sameRecord_refl | apply mayFollow_refl].
Qed.

Ltac unnegate :=
  repeat match goal with
    | H : negb _ = false |- _ => apply negb_false_iff in H
    | H : negb _ = true |- _ => apply negb_true_iff in H
    end.

Ltac record_kept F :=
  first
    [ eapply stepOf_unchanged; [exact F | reflexivity]
    | eapply stepOf_added; [exact F | reflexivity]
    | eapply stepOf_saved;
        [ exact F | eassumption | reflexivity
        | repeat split
        | unnegate; tidy; cbn;
          repeat match goal with H : HandOver.status _ = _ |- _ => rewrite H end;
          try reflexivity;
          match goal with
          | |- mayFollow ?s _ = true => destruct s; try reflexivity; congruence
          end ] ].

Lemma record_step keep req st id h :
  findBy HandOver._id id (handovers st) = Some h ->
  stepOf id h req (snd (dispatch keep req st)).
Proof.
  intros F.
  destruct (handoverOperation req) eqn:O.
  2:{ eapply stepOf_unchanged; [exact F | apply handovers_product_routes; exact O]. }
  destruct req; cbn [handoverOperation] in O; try discriminate; cbn [dispatch].
  - unfold post_handovers. explore; cbn [snd]; store_simpl; record_kept F.
  - unfold put_handovers_id_return. explore; cbn [snd]; store_simpl; record_kept F.
  - unfold post_handovers_request. explore; cbn [snd]; store_simpl; record_kept F.
  - unfold post_handovers_id_return. explore; cbn [snd]; store_simpl; record_kept F.
  - unfold post_handovers_id_approve. explore; cbn [snd]; store_simpl; record_kept F.
  - unfold post_handovers_id_reject. explore; cbn [snd]; store_simpl; record_kept F.
  - unfold delete_handovers_id. explore; cbn [snd]; store_simpl;
      try (eapply stepOf_unchanged; [exact F | reflexivity]).
    all: unfold stepOf; store_simpl;
      destruct (Nat.eq_dec id id0) as [-> | N];
      [ rewrite findBy_removeBy_same; eexists; split; [reflexivity |];
        unnegate; assumption
      | rewrite (findBy_removeBy_other _ _ _ _ N), F;
        split; [apply sameRecord_refl | apply mayFollow_refl] ].
Qed.

Lemma findBy_absent_replaceBy {D} (key : D -> ObjectId) id d l :
  findBy key id l = None -> findBy key id (replaceBy key d l) = None.
Proof. intros F. rewrite findBy_replaceBy, F. reflexivity. Qed.

Lemma findBy_absent_removeBy {D} (key : D -> ObjectId) id id' l :
  findBy key id l = None -> findBy key id (removeBy key id' l) = None.
Proof.
  intros F. destruct (Nat.eq_dec id id') as [-> | N].
  - apply findBy_removeBy_same.
  - rewrite findBy_removeBy_other; assumption.
Qed.

Lemma findBy_absent_added id h l :
  findBy HandOver._id id l = None ->
  HandOver._id h <> id ->
  findBy HandOver._id id (l ++ [h]) = None.
Proof.
  intros F N. rewrite findBy_app_absent by exact F.
  unfold findBy. cbn. apply eqId_false in N. rewrite N. reflexivity.
Qed.

(** The id generator only moves forward. *)
Lemma generator_forward keep req st :
  (nextObjectId st <= nextObjectId (snd (dispatch keep req st)))%nat.
Proof.
  destruct (handoverOperation req) eqn:O.
  2:{ apply (product_routes_frame keep req st O). }
  destruct req; cbn [handoverOperation] in O; try discriminate; cbn [dispatch].
  - unfold post_handovers. explore; cbn [snd]; store_simpl; lia.
  - unfold put_handovers_id_return. explore; cbn [snd]; store_simpl; lia.
  - unfold post_handovers_request. explore; cbn [snd]; store_simpl; lia.
  - unfold post_handovers_id_return. explore; cbn [snd]; store_simpl; lia.
  - unfold post_handovers_id_approve. explore; cbn [snd]; store_simpl; lia.
  - unfold post_handovers_id_reject. explore; cbn [snd]; store_simpl; lia.
  - unfold delete_handovers_id. explore; cbn [snd]; store_simpl; lia.
Qed.

(** New records take their id from the generator. *)
Lemma absent_step keep req st id :
  (id < nextObjectId st)%nat ->
  findBy HandOver._id id (handovers st) = None ->
  findBy HandOver._id id (handovers (snd (dispatch keep req st))) = None.
Proof.
  intros L F.
  destruct (handoverOperation req) eqn:O.
  2:{ rewrite (handovers_product_routes keep req st O). exact F. }
  destruct req; cbn [handoverOperation] in O; try discriminate; cbn [dispatch].
  - unfold post_handovers. explore; cbn [snd]; store_simpl; try exact F.
    all: apply findBy_absent_added; [exact F | rewrite stored_id; cbn; lia].
  - unfold put_handovers_id_return. explore; cbn [snd]; store_simpl;
      try exact F; apply findBy_absent_replaceBy; exact F.
  - unfold post_handovers_request. explore; cbn [snd]; store_simpl;
      try exact F.
    all: apply findBy_absent_added; [exact F | rewrite stored_id; cbn; lia].
  - unfold post_handovers_id_return. explore; cbn [snd]; store_simpl;
      try exact F; apply findBy_absent_replaceBy; exact F.
  - unfold post_handovers_id_approve. explore; cbn [snd]; store_simpl;
      try exact F; apply findBy_absent_replaceBy; exact F.
  - unfold post_handovers_id_reject. explore; cbn [snd]; store_simpl;
      try exact F; apply findBy_absent_replaceBy; exact F.
  - unfold delete_handovers_id. explore; cbn [snd]; store_simpl;
      try exact F; apply findBy_absent_removeBy; exact F.
Qed.

Lemma absent_run keep reqs :
  forall st id,
    (id < nextObjectId st)%nat ->
    findBy HandOver._id id (handovers st) = None ->
    findBy HandOver._id id (handovers (run keep reqs st)) = None.
Proof.
  induction reqs as [| req reqs IH]; intros st id L F; [exact F |].
  cbn [run]. rewrite snd_serve.
  pose proof (generator_forward keep req st) as G.
  apply IH; unfold tick; store_simpl; [lia | apply absent_step; assumption].
Qed.

Lemma record_history keep reqs :
  forall st id h,
    (id < nextObjectId st)%nat ->
    findBy HandOver._id id (handovers st) = Some h ->
    forall h',
      findBy HandOver._id id (handovers (run keep reqs st)) = Some h' ->
      sameRecord h h' /\ mayFollow (HandOver.status h) (HandOver.status h') = true.
Proof.
  induction reqs as [| req reqs IH]; intros st id h L F h' F'.
  - cbn [run] in F'. rewrite F in F'. injection F' as <-.
    split; [apply sameRecord_refl | apply mayFollow_refl].
  - cbn [run] in F'. rewrite snd_serve in F'.
    pose proof (record_step keep req st id h F) as S. unfold stepOf in S.
    pose proof (generator_forward keep req st) as G.
    destruct (findBy HandOver._id id (handovers (snd (dispatch keep req st)))) as [h1 |] eqn:F1.
    + destruct S as [S T].
      destruct (IH (tick (snd (dispatch keep req st))) id h1) with (h' := h') as [S' T'];
        [unfold tick; store_simpl; lia | exact F1 | exact F' |].
      split; [eapply sameRecord_trans; eassumption | eapply mayFollow_trans; eassumption].
    + rewrite absent_run in F'; [discriminate | unfold tick; store_simpl; lia | exact F1].
Qed.

Lemma WF_found_old st id h :
  WF st -> findBy HandOver._id id (handovers st) = Some h -> (id < nextObjectId st)%nat.
Proof.
  intros W F. pose proof (findBy_key _ _ _ _ F) as K. apply findBy_In in F.
  pose proof (wf_handovers_old _ W) as O. rewrite Forall_forall in O.
  specialize (O h F). lia.
Qed.

(** X1.  Along any sequence of requests the status of a stored handover
    only moves forward: a returned record stays returned, a rejected record
    never becomes pending or handed over, and a handed-over record never
    goes back to pending or rejected. *)
Theorem handover_status_moves_forward :
  forall keep reqs st id h h',
    wf st = true ->
    findBy HandOver._id id (handovers st) = Some h ->
    findBy HandOver._id id (handovers (run keep reqs st)) = Some h' ->
    mayFollow (HandOver.status h) (HandOver.status h') = true.
Proof.
  intros keep reqs st id h h' W F F'. apply wf_sound in W.
  eapply record_history; eauto using WF_found_old.
Qed.

Lemma handover_status_moves_forward_witness :
  let reqs :=
    [POST_handovers_id_reject aManager 1%nat (Some "not now");
     POST_handovers_id_approve anAdmin 1%nat None;
     PUT_handovers_id_return aManager 1%nat None] in
  map HandOver.status (handovers shopWithRequest) = [pending]
  /\ map HandOver.status (handovers (run false reqs shopWithRequest)) = [returned]
  /\ match findBy HandOver._id 1%nat (handovers shopWithRequest),
           findBy HandOver._id 1%nat (handovers (run false reqs shopWithRequest)) with
     | Some h, Some h' => mayFollow (HandOver.status h) (HandOver.status h') = true
     | _, _ => False
     end.
Proof.
  intros reqs.
  split; [vm_compute; reflexivity |]. split; [vm_compute; reflexivity |].
  destruct (findBy HandOver._id 1%nat (handovers shopWithRequest)) as [h |] eqn:F;
    [| vm_compute in F; discriminate F].
  destruct (findBy HandOver._id 1%nat (handovers (run false reqs shopWithRequest)))
    as [h' |] eqn:F'; [| vm_compute in F'; discriminate F'].
  assert (W : wf shopWithRequest = true) by (vm_compute; reflexivity).
  exact (handover_status_moves_forward false reqs shopWithRequest 1%nat h h' W F F').
Defined.

(** X2.  Along any sequence of requests a stored handover keeps its id,
    product, employee, quantity, purpose and creation time: no route edits
    the terms of a handover. *)
Theorem handover_terms_are_fixed :
  forall keep reqs st id h h',
    wf st = true ->
    findBy HandOver._id id (handovers st) = Some h ->
    findBy HandOver._id id (handovers (run keep reqs st)) = Some h' ->
    sameRecord h h'.
Proof.
  intros keep reqs st id h h' W F F'. apply wf_sound in W.
  eapply record_history; eauto using WF_found_old.
Qed.

Lemma handover_terms_are_fixed_witness :
  let reqs :=
    [POST_handovers_id_approve aManager 1%nat (Some "ok");
     POST_handovers_id_return anEmployee 1%nat (whole 2) (Some "two back")] in
  map HandOver.status (handovers (run false reqs shopWithRequest)) = [handed_over]
  /\ match findBy HandOver._id 1%nat (handovers shopWithRequest),
           findBy HandOver._id 1%nat (handovers (run false reqs shopWithRequest)) with
     | Some h, Some h' => sameRecord h h'
     | _, _ => False
     end.
Proof.
  intros reqs.
  split; [vm_compute; reflexivity |].
  destruct (findBy HandOver._id 1%nat (handovers shopWithRequest)) as [h |] eqn:F;
    [| vm_compute in F; discriminate F].
  destruct (findBy HandOver._id 1%nat (handovers (run false reqs shopWithRequest)))
    as [h' |] eqn:F'; [| vm_compute in F'; discriminate F'].
  assert (W : wf shopWithRequest = true) by (vm_compute; reflexivity).
  exact (handover_terms_are_fixed false reqs shopWithRequest 1%nat h h' W F F').
Defined.

(** X3.  A stored handover disappears only through
    [DELETE /api/handovers/:id] on its own id, sent by a user who holds
    [canManageProducts]. *)
Theorem only_deletion_removes_a_handover :
  forall keep req st id h,
    findBy HandOver._id id (handovers st) = Some h ->
    findBy HandOver._id id (handovers (snd (serve keep req st))) = None ->
    exists user,
      req = DELETE_handovers_id user id
      /\ User.canManageProducts (User.permissions user) = true.
Proof.
  intros keep req st id h F N. rewrite snd_serve in N. unfold tick in N. store_simpl_in N.
  pose proof (record_step keep req st id h F) as S. unfold stepOf in S.
  rewrite N in S. exact S.
Qed.

Lemma only_deletion_removes_a_handover_witness :
  exists h,
    findBy HandOver._id 1%nat (handovers shopWithRequest) = Some h
    /\ exists user,
         DELETE_handovers_id anAdmin 1%nat = DELETE_handovers_id user 1%nat
         /\ User.canManageProducts (User.permissions user) = true.
Proof.
  eexists. split; [reflexivity |].
  apply (only_deletion_removes_a_handover false (DELETE_handovers_id anAdmin 1%nat)
           shopWithRequest 1%nat _ eq_refl eq_refl).
Defined.

Lemma delete_success_found user id st :
  isSuccess (fst (delete_handovers_id user id st)) = true ->
  (exists h, findBy HandOver._id id (handovers st) = Some h)
  /\ findBy HandOver._id id (handovers (snd (delete_handovers_id user id st))) = None.
Proof.
  unfold delete_handovers_id. explore; cbn [fst snd]; store_simpl; intros S;
    try discriminate S.
  all: split; [eexists; reflexivity | apply findBy_removeBy_same].
Qed.

(** X4.  A deleted handover does not come back: after a successful
    deletion no later request makes a record with that id, because new
    records draw their id from a generator that only moves forward. *)
Theorem deleted_handover_stays_deleted :
  forall keep user id st reqs,
    wf st = true ->
    isSuccess (fst (delete_handovers_id user id st)) = true ->
    findBy HandOver._id id
      (handovers (run keep (DELETE_handovers_id user id :: reqs) st)) = None.
Proof.
  intros keep user id st reqs W S. apply wf_sound in W.
  destruct (delete_success_found user id st S) as [[h F] N].
  cbn [run]. rewrite snd_serve. cbn [dispatch].
  pose proof (generator_forward keep (DELETE_handovers_id user id) st) as G.
  cbn [dispatch] in G.
  apply absent_run; unfold tick; store_simpl; [| exact N].
  pose proof (WF_found_old st id h W F). lia.
Qed.

Lemma deleted_handover_stays_deleted_witness :
  findBy HandOver._id 1%nat
    (handovers (run false
       [DELETE_handovers_id aManager 1%nat; ask 2 "again"; issue 1 None]
       shopWithRequest)) = None
  /\ List.length (handovers (run false
       [DELETE_handovers_id aManager 1%nat; ask 2 "again"; issue 1 None]
       shopWithRequest)) = 2%nat.
Proof.
  split; [| reflexivity].
  apply (deleted_handover_stays_deleted false aManager 1%nat shopWithRequest
           [ask 2 "again"; issue 1 None]); reflexivity.
Defined.

(* ===================================================================== *)
(** ** Access control *)
(* ===================================================================== *)

Ltac guard_cases :=
  callback_unfold;
  match goal with
  | |- context [negb (?flag (User.permissions ?u))] =>
      destruct (flag (User.permissions u)); cbn [negb];
      [ repeat (case_step; cbv beta iota zeta); cbn [fst];
        unfold AccessDenied; discriminate
      | reflexivity ]
  end.

(** The renumbering loop sends no response of its own. *)
Lemma renumberFrom_silent l :
  forall i st r s, renumberFrom i l st <> (Respond r, s).
Proof.
  induction l as [| p l IH]; intros i st r s; [cbn; discriminate |].
  cbn [renumberFrom]. unfold bind at 1.
  destruct (Product.productId p =? i + 1); cbn [negb].
  - cbn [ret]. apply IH.
  - unfold Product_findByIdAndUpdate_productId, bind, gets, modify, throw.
    destruct (productIdTaken _ _ _); [discriminate | apply IH].
Qed.

Lemma delete_product_not_denied user id st :
  User.canDeleteProducts (User.permissions user) = true ->
  fst (delete_products_id user id st) <> AccessDenied.
Proof.
  intros P. unfold delete_products_id, resetProductCounter, Product_find_sorted, Counter_set.
  callback_unfold. rewrite P. cbn [negb].
  destruct (findBy _ _ _); cbn [fst]; [| unfold AccessDenied; discriminate].
  match goal with
  | |- context [renumberFrom ?i ?l ?s] =>
      pose proof (renumberFrom_silent l i s) as Q;
      destruct (renumberFrom i l s) as [[[] | r | e] s']
  end; cbn [fst].
  - unfold AccessDenied; discriminate.
  - exfalso. eapply Q. reflexivity.
  - unfold AccessDenied; discriminate.
Qed.

(** The permission test of a route decides between the route and the
    403 answer. *)
Lemma guard_exact :
  forall keep req st,
    if guardOf req (User.permissions (callerOf req))
    then fst (dispatch keep req st) <> AccessDenied
    else dispatch keep req st = (AccessDenied, st).
Proof.
  intros keep req st.
  destruct req; cbn [guardOf callerOf dispatch].
  - unfold post_handovers. guard_cases.
  - unfold put_handovers_id_return. guard_cases.
  - unfold post_handovers_request. guard_cases.
  - unfold post_handovers_id_return. guard_cases.
  - unfold post_handovers_id_approve. guard_cases.
  - unfold post_handovers_id_reject. guard_cases.
  - unfold delete_handovers_id. guard_cases.
  - unfold post_products, Product_create, Counter_inc. guard_cases.
  - destruct (User.canDeleteProducts (User.permissions user)) eqn:P.
    + apply delete_product_not_denied. exact P.
    + unfold delete_products_id. callback_unfold. rewrite P. reflexivity.
  - unfold put_products_id_stock. guard_cases.
Qed.

(** X5.  Every writing route is closed to a caller without the route's
    permission flag: the answer is 403 and the store is untouched.  With
    the flag, that answer is never given. *)
Theorem route_guard_is_exact :
  forall keep req st,
    if guardOf req (User.permissions (callerOf req))
    then fst (dispatch keep req st) <> AccessDenied
    else dispatch keep req st = (AccessDenied, st).
Proof. exact guard_exact. Qed.


Lemma preSave_guard u req :
  callerOf req = User.preSave u ->
  guardOf req (User.permissions (callerOf req))
  = existsb (Role_eqb (User.role (callerOf req))) (rolesOf req).
Proof.
  intros ->. unfold User.preSave.
  destruct (String.eqb _ _); destruct req; cbn; try reflexivity;
    destruct (User.role u); reflexivity.
Qed.

(** X6.  For a caller whose account went through [save()], the permission
    flags act as a role list on every writing route: direct handover,
    manager return, approve, reject, handover deletion, product creation
    and stock adjustment are open to admins and managers only, product
    deletion to admins only, request and employee return to employees
    only.  Any other role is answered 403 and changes nothing. *)
Theorem routes_open_by_role :
  forall keep req st u,
    callerOf req = User.preSave u ->
    if existsb (Role_eqb (User.role (callerOf req))) (rolesOf req)
    then fst (dispatch keep req st) <> AccessDenied
    else dispatch keep req st = (AccessDenied, st).
Proof.
  intros keep req st u C.
  rewrite <- (preSave_guard u req C). apply guard_exact.
Qed.


Lemma routes_open_by_role_witness :
  dispatch false (issue 1 None) shop <> (AccessDenied, shop)
  /\ dispatch false
       (POST_handovers anEmployee
          (mkDirectBody (Some 0%nat) (Some 3%nat) 1 None None None None)) shop
     = (AccessDenied, shop)
  /\ dispatch false (DELETE_products_id aManager 0%nat) shop = (AccessDenied, shop).
Proof.
  split; [vm_compute; discriminate |]. split.
  - exact (routes_open_by_role false
             (POST_handovers anEmployee
                (mkDirectBody (Some 0%nat) (Some 3%nat) 1 None None None None))
             shop (User.mk 3%nat "Eve" "Hand" "eve@iwiz.com" employee true noPermissions)
             eq_refl).
  - reflexivity.
Defined.

(* ===================================================================== *)
(** ** Requests, direct handovers and decisions *)
(* ===================================================================== *)

Lemma slen_nonneg s : 0 <= slen s.
Proof. unfold slen. lia. Qed.

Lemma notEmpty_Some s : s <> "" -> notEmpty (Some s) = true.
Proof. destruct s; [congruence | reflexivity]. Qed.

(** A schema validation that cannot have failed. *)
Ltac valid_after_all :=
  exfalso;
  match goal with
  | H : HandOver.validate ?d = false |- _ =>
      assert (HandOver.validate d = true); [clear H | congruence]
  | H : Product.validate ?d = false |- _ =>
      assert (Product.validate d = true); [clear H | congruence]
  end.

(** X7.  A handover request that passes the route's validators and the
    schema is stored as a new pending record of the caller, without
    an issuer; the product collection is not touched, so nothing is
    reserved. *)
Theorem request_creates_pending_record :
  forall keep user body st pid reason p,
    User.canRequestHandover (User.permissions user) = true ->
    r_productId body = Some pid ->
    1 <= r_quantity body ->
    r_reason body = Some reason ->
    reason <> "" ->
    slen reason <= 500 ->
    slen (trim reason) <= 200 ->
    slen (trim ("Requested by employee: " ++ reason)) <= 500 ->
    findBy Product._id pid (products st) = Some p ->
    exists h,
      post_handovers_request keep user body st
      = (WithHandover 201 "Handover request created successfully" h,
         with_handovers (handovers st ++ [HandOver.stored keep h])
           (with_nextObjectId (S (nextObjectId st)) st))
      /\ HandOver._id h = nextObjectId st
      /\ HandOver.status h = pending
      /\ HandOver.employee h = User._id user
      /\ HandOver.product h = pid
      /\ HandOver.quantity h = r_quantity body
      /\ HandOver.handedOverBy h = None.
Proof.
  intros keep user body st pid reason p P B Q R N L LP LN F.
  apply Z.leb_le in Q, L. apply notEmpty_Some in N.
  unfold post_handovers_request. rewrite B, R. unfold isIntMin, optionalIsLength, maxlength.
  follow.
  - eexists. split; [reflexivity |]. repeat split.
  - valid_after_all. apply HandOver_validate_iff. cbn.
    repeat split; try reflexivity; try (apply Z.leb_le; assumption).
    discriminate.
Qed.

Lemma request_creates_pending_record_witness :
  exists h,
    post_handovers_request false anEmployee
      (mkRequestBody (Some 0%nat) 5 (Some "need it")) shop
    = (WithHandover 201 "Handover request created successfully" h,
       with_handovers (handovers shop ++ [HandOver.stored false h])
         (with_nextObjectId (S (nextObjectId shop)) shop))
    /\ HandOver._id h = nextObjectId shop
    /\ HandOver.status h = pending
    /\ HandOver.employee h = User._id anEmployee
    /\ HandOver.product h = 0%nat
    /\ HandOver.quantity h = 5
    /\ HandOver.handedOverBy h = None.
Proof.
  refine (request_creates_pending_record false anEmployee
            (mkRequestBody (Some 0%nat) 5 (Some "need it")) shop 0%nat "need it"
            _ eq_refl eq_refl _ eq_refl _ _ _ _ eq_refl);
    try (vm_compute; discriminate).
Defined.

(** X8.  The request route lets in a reason of up to 500 characters, but
    the reason is stored as the purpose, which the schema limits to 200:
    a request whose trimmed reason is longer than 200 characters is
    answered with a server error, and no record is stored. *)
Theorem request_with_long_reason_fails :
  forall keep user body st pid reason p,
    User.canRequestHandover (User.permissions user) = true ->
    r_productId body = Some pid ->
    1 <= r_quantity body ->
    r_reason body = Some reason ->
    slen reason <= 500 ->
    200 < slen (trim reason) ->
    findBy Product._id pid (products st) = Some p ->
    post_handovers_request keep user body st
    = (Message 500 "Server error", with_nextObjectId (S (nextObjectId st)) st).
Proof.
  intros keep user body st pid reason p P B Q R L Long F.
  assert (N : notEmpty (Some reason) = true).
  { pose proof (slen_trim reason). destruct reason; [cbn in *; lia | reflexivity]. }
  apply Z.leb_le in Q, L.
  unfold post_handovers_request. rewrite B, R. unfold isIntMin, optionalIsLength, maxlength.
  follow; [exfalso | reflexivity].
  match goal with
  | H : HandOver.validate _ = true |- _ =>
      apply HandOver_validate_iff in H as (_ & _ & V & _)
  end.
  cbn in V. apply Z.leb_le in V. lia.
Qed.

Lemma request_with_long_reason_fails_witness :
  let reason := repeatChar "a"%char 201 in
  post_handovers_request false anEmployee (mkRequestBody (Some 0%nat) 1 (Some reason)) shop
  = (Message 500 "Server error", with_nextObjectId (S (nextObjectId shop)) shop)
  /\ optionalIsLength 500 (Some reason) = true.
Proof.
  intros reason. split; [| reflexivity].
  refine (request_with_long_reason_fails false anEmployee
            (mkRequestBody (Some 0%nat) 1 (Some reason)) shop 0%nat reason
            _ eq_refl eq_refl _ eq_refl _ _ eq_refl);
    vm_compute; (reflexivity || discriminate).
Defined.

(** X9.  A rejection that fits is stored: the record becomes rejected, with
    the rejecting user, the trimmed reason and the extended notes; the
    products are not touched. *)
Theorem reject_records_the_decision :
  forall keep user id reason st h text,
    User.canManageProducts (User.permissions user) = true ->
    reason = Some text ->
    text <> "" ->
    slen text <= 500 ->
    findBy HandOver._id id (handovers st) = Some h ->
    HandOver.status h = pending ->
    HandOver.validate h = true ->
    slen (trim (rejectedNotes user reason (HandOver.notes h))) <= 500 ->
    exists h',
      post_handovers_id_reject keep user id reason st
      = (WithHandover 200 "Handover request rejected successfully" h',
         with_handovers (replaceBy HandOver._id (HandOver.stored keep h') (handovers st)) st)
      /\ HandOver.status h' = rejected
      /\ HandOver.rejectedBy h' = Some (User._id user)
      /\ HandOver.rejectionReason h' = Some (trim text)
      /\ HandOver.notes h' = Some (trim (rejectedNotes user reason (HandOver.notes h)))
      /\ sameRecord h h'.
Proof.
  intros keep user id reason st h text P -> N L F S V Fit.
  apply notEmpty_Some in N. apply Z.leb_le in L. apply Status_eqb_eq in S.
  apply HandOver_validate_iff in V as (Q & _ & VP & _ & VR & _ & VA).
  unfold post_handovers_id_reject, optionalIsLength, maxlength. follow.
  - eexists. split; [reflexivity |]. repeat split.
  - valid_after_all. apply HandOver_validate_iff. cbn.
    repeat split; try assumption; try discriminate.
    + apply Z.leb_le. exact Fit.
    + apply Z.leb_le. pose proof (slen_trim text). apply Z.leb_le in L. lia.
Qed.

Lemma reject_records_the_decision_witness :
  exists h',
    post_handovers_id_reject false aManager 1%nat (Some "not now") shopWithRequest
    = (WithHandover 200 "Handover request rejected successfully" h',
       with_handovers
         (replaceBy HandOver._id (HandOver.stored false h') (handovers shopWithRequest))
         shopWithRequest)
    /\ HandOver.status h' = rejected
    /\ HandOver.rejectedBy h' = Some (User._id aManager)
    /\ HandOver.rejectionReason h' = Some (trim "not now")
    /\ HandOver.notes h'
       = Some ("Requested by employee: need it" ++ nl ++ "Rejected by Max Lead: not now").
Proof.
  edestruct (reject_records_the_decision false aManager 1%nat (Some "not now")
               shopWithRequest) as (h' & E & A & B & C & D & _);
    [ reflexivity | reflexivity | discriminate | vm_compute; discriminate
    | reflexivity | reflexivity | reflexivity | vm_compute; discriminate | ].
  exists h'. repeat split; assumption.
Defined.

(** X10.  The reject route appends the reason to the notes, which the
    schema limits to 500 characters: when the extended notes are longer,
    a rejection that passed the route's validators is answered with a
    server error and the request stays pending. *)
Theorem long_notes_block_rejection :
  forall keep user id reason st h,
    User.canManageProducts (User.permissions user) = true ->
    notEmpty reason = true ->
    optionalIsLength 500 reason = true ->
    findBy HandOver._id id (handovers st) = Some h ->
    HandOver.status h = pending ->
    500 < slen (trim (rejectedNotes user reason (HandOver.notes h))) ->
    post_handovers_id_reject keep user id reason st = (Message 500 "Server error", st).
Proof.
  intros keep user id reason st h P N L F S Long.
  apply Status_eqb_eq in S.
  unfold post_handovers_id_reject. follow; [exfalso | reflexivity].
  match goal with
  | H : HandOver.validate _ = true |- _ =>
      apply HandOver_validate_iff in H as (_ & _ & _ & V & _)
  end.
  cbn in V. apply Z.leb_le in V. lia.
Qed.

Lemma long_notes_block_rejection_witness :
  post_handovers_id_reject false aManager 1%nat (Some longNotes) shopWithRequest
  = (Message 500 "Server error", shopWithRequest)
  /\ optionalIsLength 500 (Some longNotes) = true
  /\ map HandOver.status (handovers shopWithRequest) = [pending].
Proof.
  split; [| split; reflexivity].
  refine (long_notes_block_rejection false aManager 1%nat (Some longNotes)
            shopWithRequest _ eq_refl eq_refl eq_refl eq_refl eq_refl _).
  vm_compute. reflexivity.
Defined.

(** X11.  A direct handover that passes the validators, for a stored
    product and a stored employee: with less stock than asked it is
    refused and nothing changes; otherwise a handed-over record of that
    quantity is appended and the product's stock goes down by exactly that
    quantity. *)
Theorem direct_handover_takes_stock :
  forall keep user body st pid eid p e,
    wf st = true ->
    User.canManageProducts (User.permissions user) = true ->
    d_productId body = Some pid ->
    d_employeeId body = Some eid ->
    1 <= d_quantity body ->
    optionalIsLength 200 (d_purpose body) = true ->
    optionalIsLength 500 (d_notes body) = true ->
    findBy Product._id pid (products st) = Some p ->
    findBy User._id eid (users st) = Some e ->
    let out := post_handovers keep user body st in
    if Product.quantity (Product.stock p) <? d_quantity body
    then out = (InsufficientStock, st)
    else
      exists h,
        fst out = WithHandover 201 "Item handed over successfully" h
        /\ HandOver.status h = handed_over
        /\ HandOver.product h = pid
        /\ HandOver.employee h = eid
        /\ HandOver.quantity h = d_quantity body
        /\ handovers (snd out) = (handovers st ++ [HandOver.stored keep h])%list
        /\ stockOf pid (snd out) = Product.quantity (Product.stock p) - d_quantity body.
Proof.
  intros keep user body st pid eid p e W P B E Q VP VN F G out. subst out.
  apply wf_sound in W. apply Z.leb_le in Q.
  pose proof (WF_found_product_valid _ _ _ W F) as V.
  unfold post_handovers. rewrite B, E. unfold isIntMin.
  destruct (Product.quantity (Product.stock p) <? d_quantity body) eqn:L.
  - follow. reflexivity.
  - pose proof L as L'. apply Z.ltb_ge in L'. apply Z.leb_le in Q as Q'.
    follow;
      try (valid_after_all;
           first
             [ apply Product_validate_quantity; [exact V | lia]
             | apply HandOver_validate_iff; cbn;
               repeat split; try reflexivity; try exact Q';
               [apply (maxlength_trim 200); exact VP | apply (maxlength_trim 500); exact VN] ]).
    all: eexists; split; [reflexivity |]; repeat split;
      cbn [snd]; rewrite stockOf_saved; cbn [Product.set_quantity Product._id];
      apply findBy_key in F as K; rewrite K, eqId_refl;
      unfold hasProduct; store_simpl; rewrite F; reflexivity.
Qed.

Lemma direct_handover_takes_stock_witness :
  let body := mkDirectBody (Some 0%nat) (Some 3%nat) 8 (Some "site work") None None None in
  let out := post_handovers false aManager body shop in
  stockOf 0%nat shop = 10
  /\ exists h,
       fst out = WithHandover 201 "Item handed over successfully" h
       /\ HandOver.status h = handed_over
       /\ HandOver.product h = 0%nat
       /\ HandOver.employee h = 3%nat
       /\ HandOver.quantity h = 8
       /\ handovers (snd out) = (handovers shop ++ [HandOver.stored false h])%list
       /\ stockOf 0%nat (snd out) = 10 - 8.
Proof.
  intros body out. split; [reflexivity |].
  refine (direct_handover_takes_stock false aManager body shop 0%nat 3%nat _ _
            eq_refl eq_refl eq_refl eq_refl _ eq_refl eq_refl eq_refl eq_refl).
  vm_compute. discriminate.
Defined.

(* ===================================================================== *)
(** ** Repeated partial returns *)
(* ===================================================================== *)

Lemma partial_returns_run n :
  forall user id q notes st h p,
    WF st ->
    User.canReturnHandover (User.permissions user) = true ->
    1 <= q < HandOver.quantity h ->
    optionalIsLength 500 notes = true ->
    findBy HandOver._id id (handovers st) = Some h ->
    HandOver.status h = handed_over ->
    HandOver.employee h = User._id user ->
    HandOver.returnedQuantity h = None ->
    findBy Product._id (HandOver.product h) (products st) = Some p ->
    let st' := run false (repeat (POST_handovers_id_return user id (whole q) notes) n) st in
    stockOf (HandOver.product h) st' = Product.quantity (Product.stock p) + Z.of_nat n * q
    /\ exists h',
         findBy HandOver._id id (handovers st') = Some h'
         /\ HandOver.status h' = handed_over.
Proof.
  induction n as [| n IH]; intros user id q notes st h p W P Q VN F S E R G st'; subst st'.
  - cbn [repeat run]. unfold stockOf. rewrite G. split; [lia | eauto].
  - cbn [repeat run].
    assert (T : tallied h = true) by (unfold tallied; rewrite R; reflexivity).
    assert (T0 : tally h = 0) by (unfold tally; rewrite R; reflexivity).
    set (req := POST_handovers_id_return user id (whole q) notes) in *.
    destruct (employee_return_served false user id (whole q) q notes st h p
                W P VN F S E T G (isNumber_whole q)) as (_ & F1 & (p1 & G1 & K1) & _);
      [lia |].
    fold req in F1, G1.
    destruct (afterReturn_facts false user q notes (clock st) h T (proj1 Q))
      as (_ & P1 & E1 & N1 & S1 & _).
    set (h1 := HandOver.stored false (afterReturn user q notes (clock st) h)) in *.
    assert (Open : (HandOver.quantity h <=? tally h + q) = false)
      by (apply Z.leb_gt; lia).
    rewrite Open in S1. rewrite <- P1 in G1.
    destruct (IH user id q notes (snd (serve false req st)) h1 p1
                (WF_serve false req st W) P) as [A B];
      try assumption; try congruence; [reflexivity |].
    fold req in A, B. rewrite P1 in A. split; [rewrite A; lia | exact B].
Qed.

(** X12.  With the schema as it stands the returned quantity is not
    persisted, so a partial return leaves the record handed over and
    forgets what was handed in: the same partial return, its quantity given
    as a number, succeeds again and again, and each time the stock grows by
    the returned quantity, without bound. *)
Theorem repeated_partial_returns_inflate_stock :
  forall n user id q notes st h p,
    wf st = true ->
    User.canReturnHandover (User.permissions user) = true ->
    1 <= q < HandOver.quantity h ->
    optionalIsLength 500 notes = true ->
    findBy HandOver._id id (handovers st) = Some h ->
    HandOver.status h = handed_over ->
    HandOver.employee h = User._id user ->
    HandOver.returnedQuantity h = None ->
    findBy Product._id (HandOver.product h) (products st) = Some p ->
    let st' :=
      run false (repeat (POST_handovers_id_return user id (whole q) notes) n) st in
    stockOf (HandOver.product h) st' = Product.quantity (Product.stock p) + Z.of_nat n * q
    /\ exists h',
         findBy HandOver._id id (handovers st') = Some h'
         /\ HandOver.status h' = handed_over.
Proof.
  intros n user id q notes st h p W. apply wf_sound in W. apply partial_returns_run. exact W.
Qed.

Lemma repeated_partial_returns_inflate_stock_witness :
  let st := shopAfterIssue false in
  let st' := run false (repeat (POST_handovers_id_return anEmployee 1%nat (whole 3) None) 5) st in
  stockOf 0%nat st = 2
  /\ stockOf 0%nat st' = 2 + 5 * 3
  /\ exists h',
       findBy HandOver._id 1%nat (handovers st') = Some h'
       /\ HandOver.status h' = handed_over.
Proof.
  intros st st'. split; [reflexivity |].
  refine (repeated_partial_returns_inflate_stock 5 anEmployee 1%nat 3 None st _ _
            eq_refl eq_refl _ eq_refl eq_refl eq_refl eq_refl eq_refl eq_refl).
  vm_compute. split; (discriminate || reflexivity).
Defined.

(* ===================================================================== *)
(** ** Stock adjustment *)
(* ===================================================================== *)

Lemma stock_after_save pid now old p q st :
  findBy Product._id pid (products st) = Some p ->
  stockOf pid
    (with_products
       (replaceBy Product._id (touchRestocked now old (Product.set_quantity q p))
          (products st)) st)
  = q.
Proof.
  intros F. rewrite stockOf_saved. cbn [Product.set_quantity Product._id Product.quantity
    Product.stock].
  apply findBy_key in F as K. rewrite K, eqId_refl. unfold hasProduct. rewrite F. reflexivity.
Qed.

(** The stock route, case by case, on a stored product. *)
Lemma stock_adjust_cases user id operation quantity st p :
  WF st ->
  User.canManageProducts (User.permissions user) = true ->
  findBy Product._id id (products st) = Some p ->
  let out := put_products_id_stock user id operation quantity st in
  let current := Product.quantity (Product.stock p) in
  if negb (String.eqb operation "add" || String.eqb operation "subtract")
  then out = (Message 400 operationMessage, st)
  else if notPositive quantity
  then out = (Message 400 "Quantity must be a positive number", st)
  else
    match parseInt quantity with
    | None => out = (Message 500 "Server error", st)
    | Some n =>
        let target := if String.eqb operation "add" then current + n else current - n in
        if target <? 0
        then out = (if String.eqb operation "add"
                    then Message 500 "Server error"
                    else Message 400
                           ("Insufficient stock. Current: " ++ showZ current
                            ++ ", Requested: " ++ showZ n),
                    st)
        else out = (Message 200 ("Stock " ++ operation ++ "ed successfully"),
                    with_products
                      (replaceBy Product._id
                         (touchRestocked (clock st) (Some p) (Product.set_quantity target p))
                         (products st))
                      st)
    end.
Proof.
  intros W P F out current. subst out current.
  pose proof (WF_found_product_valid _ _ _ W F) as V.
  pose proof (findBy_key _ _ _ _ F) as K.
  unfold put_products_id_stock. callback_unfold. rewrite P. cbn [negb].
  destruct (negb (String.eqb operation "add" || String.eqb operation "subtract"));
    [reflexivity |].
  destruct (notPositive quantity); [reflexivity |].
  rewrite F. destruct (parseInt quantity) as [n |]; [| reflexivity].
  destruct (String.eqb operation "add").
  - destruct (Product.quantity (Product.stock p) + n <? 0) eqn:L.
    + assert (N : Product.validate
                    (Product.set_quantity (Product.quantity (Product.stock p) + n) p) = false).
      { unfold Product.validate. cbn [Product.set_quantity Product.stock Product.quantity].
        apply Z.ltb_lt in L.
        replace (0 <=? Product.quantity (Product.stock p) + n) with false
          by (symmetry; apply Z.leb_gt; exact L).
        reflexivity. }
      rewrite N. reflexivity.
    + rewrite Product_validate_quantity by (first [exact V | apply Z.ltb_ge in L; exact L]).
      cbn [negb]. cbv beta iota zeta. store_simpl. cbn [Product._id Product.set_quantity].
      rewrite K, F. reflexivity.
  - destruct (Product.quantity (Product.stock p) - n <? 0) eqn:L; [reflexivity |].
    rewrite Product_validate_quantity by (first [exact V | apply Z.ltb_ge in L; exact L]).
    cbn [negb]. cbv beta iota zeta. store_simpl. cbn [Product._id Product.set_quantity].
    rewrite K, F. reflexivity.
Qed.

(** A positive number passes the test of the route, and [parseInt] reads a
    number that is not negative from it; a whole number is read as it is. *)
Lemma firstDigit_nonneg fuel n d : 0 < n -> 0 < d -> 0 <= firstDigit fuel n d.
Proof.
  revert n. induction fuel as [| fuel IH]; intros n N D; cbn [firstDigit]; [lia |].
  destruct (d <=? 10 * n); [apply Z.div_pos; lia | apply IH; lia].
Qed.

Lemma positive_number q :
  (0 < q)%Q ->
  notPositive (Number q) = false
  /\ exists n, parseInt (Number q) = Some n
               /\ 0 <= n
               /\ ((1 # 1000000 <= q)%Q -> n = truncate q).
Proof.
  intros L. unfold Qlt in L. cbn [Qnum Qden] in L. rewrite Z.mul_1_r in L.
  split.
  - unfold notPositive, truthy, ToNumber, atMost, Qle_bool, inject_Z. cbn [Qnum Qden].
    rewrite Z.mul_1_r.
    replace (Qnum q =? 0) with false by (symmetry; apply Z.eqb_neq; lia).
    replace (Qnum q <=? 0 * Z.pos (Qden q)) with false by (symmetry; apply Z.leb_gt; lia).
    reflexivity.
  - cbn [parseInt]. eexists. split; [reflexivity |].
    unfold parseIntNumber.
    destruct (Z.abs (Qnum q) * 10 ^ 6 <? Z.pos (Qden q)) eqn:Tiny.
    + rewrite andb_true_r.
      replace (0 <? Z.abs (Qnum q)) with true by (symmetry; apply Z.ltb_lt; lia).
      rewrite Z.sgn_pos by lia. rewrite Z.mul_1_l. split.
      * apply firstDigit_nonneg; lia.
      * intros B. exfalso. unfold Qle in B. cbn [Qnum Qden] in B.
        apply Z.ltb_lt in Tiny. rewrite Z.abs_eq in Tiny by lia.
        change (10 ^ 6) with 1000000 in Tiny. lia.
    + rewrite andb_false_r. split; [| reflexivity].
      unfold truncate. apply Z.quot_pos; lia.
Qed.

Lemma positive_whole z :
  0 < z -> notPositive (whole z) = false /\ parseInt (whole z) = Some z.
Proof.
  intros L. split.
  - apply (positive_number (inject_Z z)). unfold Qlt, inject_Z. cbn [Qnum Qden]. lia.
  - unfold whole. cbn [parseInt]. unfold parseIntNumber, inject_Z. cbn [Qnum Qden].
    replace (Z.abs z * 10 ^ 6 <? 1) with false by (symmetry; apply Z.ltb_ge; lia).
    rewrite andb_false_r. fold (inject_Z z). rewrite truncate_whole. reflexivity.
Qed.

(** X13.  A stock adjustment on a stored product by a permitted user, for
    every operation and every quantity, a number or a string.  An operation
    other than [add] and [subtract] is refused, with the two words in double
    quotes.  A quantity that is falsy or not above zero is refused.  When
    [parseInt] reads no number from the quantity, [save()] throws: the answer
    is the server error and nothing changes.  Otherwise, with [n] what
    [parseInt] reads: [add] raises the stock by [n] (a negative [n] below
    the stock makes [save()] throw), [subtract] lowers it by [n] when that
    much is in stock and is refused with both numbers in the message when
    not.  A whole number above zero is read as it is, so the stock moves by
    the quantity; a fraction is read as its integer part. *)
Theorem stock_adjustment_moves_stock :
  forall user id operation quantity st p,
    wf st = true ->
    User.canManageProducts (User.permissions user) = true ->
    findBy Product._id id (products st) = Some p ->
    let out := put_products_id_stock user id operation quantity st in
    let current := Product.quantity (Product.stock p) in
    (if negb (String.eqb operation "add" || String.eqb operation "subtract")
     then out = (Message 400 operationMessage, st)
     else if notPositive quantity
     then out = (Message 400 "Quantity must be a positive number", st)
     else
       match parseInt quantity with
       | None => out = (Message 500 "Server error", st)
       | Some n =>
           if String.eqb operation "add"
           then
             if current + n <? 0
             then out = (Message 500 "Server error", st)
             else fst out = Message 200 "Stock added successfully"
                  /\ stockOf id (snd out) = current + n
           else
             if current - n <? 0
             then out = (Message 400
                           ("Insufficient stock. Current: " ++ showZ current
                            ++ ", Requested: " ++ showZ n), st)
             else fst out = Message 200 "Stock subtracted successfully"
                  /\ stockOf id (snd out) = current - n
       end)
    /\ (forall z, quantity = whole z -> 0 < z ->
          notPositive quantity = false /\ parseInt quantity = Some z)
    /\ (forall q, quantity = Number q -> (0 < q)%Q ->
          notPositive quantity = false
          /\ exists n, parseInt quantity = Some n
                       /\ 0 <= n
                       /\ ((1 # 1000000 <= q)%Q -> n = truncate q)).
Proof.
  intros user id operation quantity st p W P F out current. subst out current.
  apply wf_sound in W. split; [| split].
  - pose proof (stock_adjust_cases user id operation quantity st p W P F) as C.
    cbv zeta in C.
    destruct (String.eqb operation "add") eqn:A.
    + apply String.eqb_eq in A. subst operation. cbn [orb negb] in *.
      destruct (notPositive quantity); [exact C |].
      destruct (parseInt quantity) as [n |]; [| exact C].
      destruct (_ <? 0); [exact C |]. rewrite C. cbn [fst snd].
      split; [reflexivity | apply stock_after_save; exact F].
    + destruct (String.eqb operation "subtract") eqn:B; cbn [orb negb] in *; [| exact C].
      apply String.eqb_eq in B. subst operation.
      destruct (notPositive quantity); [exact C |].
      destruct (parseInt quantity) as [n |]; [| exact C].
      destruct (_ <? 0); [exact C |]. rewrite C. cbn [fst snd].
      split; [reflexivity | apply stock_after_save; exact F].
  - intros z -> L. apply positive_whole, L.
  - intros q -> L. apply positive_number, L.
Qed.

Lemma stock_adjustment_moves_stock_witness :
  stockOf 0%nat shop = 10
  /\ put_products_id_stock aManager 0%nat "subtract" (whole 11) shop
     = (Message 400 "Insufficient stock. Current: 10, Requested: 11", shop)
  /\ (let out := put_products_id_stock aManager 0%nat "add" (Number (1 # 2)) shop in
      fst out = Message 200 "Stock added successfully" /\ stockOf 0%nat (snd out) = 10)
  /\ (let out := put_products_id_stock aManager 0%nat "add" (Text "5") shop in
      fst out = Message 200 "Stock added successfully" /\ stockOf 0%nat (snd out) = 15)
  /\ put_products_id_stock aManager 0%nat "add" (Text "five") shop
     = (Message 500 "Server error", shop)
  /\ put_products_id_stock aManager 0%nat "remove" (whole 1) shop
     = (Message 400 operationMessage, shop).
Proof.
  assert (W : wf shop = true) by (vm_compute; reflexivity).
  destruct (findBy Product._id 0%nat (products shop)) as [p |] eqn:F;
    [| vm_compute in F; discriminate F].
  assert (H : p = Product.mk 0%nat 1 "Drill" (Product.mkStock 10 0 1000 0%nat) 0%nat)
    by (vm_compute in F; inversion F; reflexivity).
  pose proof (fun operation quantity =>
                proj1 (stock_adjustment_moves_stock aManager 0%nat operation quantity
                         shop p W eq_refl F)) as T.
  rewrite H in T. cbn [Product.quantity Product.stock] in T.
  split; [vm_compute; reflexivity |].
  split; [exact (T "subtract" (whole 11)) |].
  split; [exact (T "add" (Number (1 # 2))) |].
  split; [exact (T "add" (Text "5")) |].
  split; [exact (T "add" (Text "five")) | exact (T "remove" (whole 1))].
Defined.

(** X14.  Adding a quantity to a product's stock and then subtracting the
    same quantity both succeed and leave the stock where it was, for every
    number above zero: both requests read the same integer from it. *)
Theorem add_then_subtract_restores_stock :
  forall keep user id q st p,
    wf st = true ->
    User.canManageProducts (User.permissions user) = true ->
    (0 < q)%Q ->
    findBy Product._id id (products st) = Some p ->
    let reqs :=
      [PUT_products_id_stock user id "add" (Number q);
       PUT_products_id_stock user id "subtract" (Number q)] in
    responses keep reqs st
    = [Message 200 "Stock added successfully"; Message 200 "Stock subtracted successfully"]
    /\ stockOf id (run keep reqs st) = stockOf id st.
Proof.
  intros keep user id q st p W P Q F reqs. subst reqs. apply wf_sound in W.
  destruct (positive_number q Q) as (N & n & E & B & _).
  pose proof (Product_validate_nonneg _ (WF_found_product_valid _ _ _ W F)) as NN.
  pose proof (findBy_key _ _ _ _ F) as K.
  pose proof (stock_adjust_cases user id "add" (Number q) st p W P F) as C1.
  cbv zeta in C1. rewrite N, E in C1. cbn [String.eqb Ascii.eqb Bool.eqb orb negb] in C1.
  replace (Product.quantity (Product.stock p) + n <? 0) with false in C1
    by (symmetry; apply Z.ltb_ge; lia).
  set (st1 := snd (serve keep (PUT_products_id_stock user id "add" (Number q)) st)).
  assert (R1 : fst (serve keep (PUT_products_id_stock user id "add" (Number q)) st)
               = Message 200 "Stock added successfully")
    by (unfold serve; cbn [dispatch]; rewrite C1; reflexivity).
  assert (W1 : WF st1) by (apply WF_serve, W).
  assert (F1 : findBy Product._id id (products st1)
               = Some (touchRestocked (clock st) (Some p)
                         (Product.set_quantity (Product.quantity (Product.stock p) + n) p))).
  { unfold st1, serve. cbn [dispatch]. rewrite C1. cbn [snd]. unfold tick. store_simpl.
    rewrite findBy_replaceBy, F, touchRestocked_id. cbn [Product._id Product.set_quantity].
    rewrite K, eqId_refl. reflexivity. }
  pose proof (stock_adjust_cases user id "subtract" (Number q) st1 _ W1 P F1) as C2.
  cbv zeta in C2. rewrite N, E in C2. cbn [String.eqb Ascii.eqb Bool.eqb orb negb] in C2.
  rewrite touchRestocked_quantity in C2.
  cbn [Product.set_quantity Product.quantity Product.stock] in C2.
  replace (Product.quantity (Product.stock p) + n - n <? 0) with false in C2
    by (symmetry; apply Z.ltb_ge; lia).
  cbn [responses run]. fold st1. split.
  - rewrite R1. unfold serve. cbn [dispatch]. rewrite C2. reflexivity.
  - rewrite snd_serve. cbn [dispatch]. rewrite C2. cbn [snd].
    unfold stockOf at 1, tick. store_simpl.
    rewrite findBy_replaceBy, F1.
    repeat (rewrite touchRestocked_id; cbn [Product._id Product.set_quantity]).
    rewrite eqId_refl, touchRestocked_quantity.
    cbn [Product.set_quantity Product.quantity Product.stock].
    unfold stockOf. rewrite F. lia.
Qed.

Lemma add_then_subtract_restores_stock_witness :
  let reqs :=
    [PUT_products_id_stock aManager 0%nat "add" (Number (51 # 2));
     PUT_products_id_stock aManager 0%nat "subtract" (Number (51 # 2))] in
  stockOf 0%nat (run false [PUT_products_id_stock aManager 0%nat "add" (Number (51 # 2))] shop)
  = 35
  /\ responses false reqs shop
     = [Message 200 "Stock added successfully"; Message 200 "Stock subtracted successfully"]
  /\ stockOf 0%nat (run false reqs shop) = stockOf 0%nat shop.
Proof.
  split; [vm_compute; reflexivity |].
  refine (add_then_subtract_restores_stock false aManager 0%nat (51 # 2) shop _
            eq_refl eq_refl _ eq_refl).
  reflexivity.
Defined.

(* ===================================================================== *)
(** ** Product numbers *)
(* ===================================================================== *)

Lemma removeBy_absent {D} (key : D -> ObjectId) id l :
  findBy key id l = None -> removeBy key id l = l.
Proof.
  unfold findBy, removeBy. induction l as [| x l IH]; cbn; [reflexivity |].
  destruct (eqId (key x) id); cbn; [discriminate |]. intros F. rewrite (IH F). reflexivity.
Qed.

(** Saving a stock change keeps the sequence numbers. *)
Lemma productIds_saved st pid p now old q :
  WF st ->
  findBy Product._id pid (products st) = Some p ->
  map Product.productId
    (replaceBy Product._id (touchRestocked now old (Product.set_quantity q p)) (products st))
  = map Product.productId (products st).
Proof.
  intros W F. apply map_replaceBy_agree. intros x I K.
  rewrite touchRestocked_productId. cbn [Product.set_quantity Product.productId].
  rewrite touchRestocked_id in K. cbn [Product.set_quantity Product._id] in K.
  f_equal. symmetry.
  apply (NoDup_key_unique Product._id (products st));
    [apply (wf_product_ids _ W) | exact I | eapply findBy_In; exact F | exact K].
Qed.

Ltac numbers_kept W :=
  cbn [snd]; store_simpl_all; split; try reflexivity;
  try (eapply productIds_saved; [exact W | eassumption]).

(** The handover routes and the stock adjustment keep every sequence
    number and the counter. *)
Lemma numbers_frame keep req st :
  WF st ->
  match req with POST_products _ _ | DELETE_products_id _ _ => false | _ => true end = true ->
  map Product.productId (products (snd (dispatch keep req st)))
  = map Product.productId (products st)
  /\ counter (snd (dispatch keep req st)) = counter st.
Proof.
  intros W O. destruct req; try discriminate O; cbn [dispatch].
  - unfold post_handovers. explore; numbers_kept W.
  - unfold put_handovers_id_return. explore; numbers_kept W.
  - unfold post_handovers_request. explore; numbers_kept W.
  - unfold post_handovers_id_return. explore; numbers_kept W.
  - unfold post_handovers_id_approve. explore; numbers_kept W.
  - unfold post_handovers_id_reject. explore; numbers_kept W.
  - unfold delete_handovers_id. explore; numbers_kept W.
  - unfold put_products_id_stock. explore; numbers_kept W.
Qed.


Lemma trim_trim_bound s n : slen (trim s) <= n -> slen (trim (trim s)) <= n.
Proof. pose proof (slen_trim (trim s)). lia. Qed.



Lemma dense_same st st' :
  map Product.productId (products st') = map Product.productId (products st) ->
  counter st' = counter st ->
  numberedDensely st -> numberedDensely st'.
Proof.
  intros E C [D S]. unfold numberedDensely, seqOf in *.
  assert (L : List.length (products st') = List.length (products st)).
  { rewrite <- (length_map Product.productId (products st')), E. apply length_map. }
  rewrite E, C, L. split; assumption.
Qed.

Lemma dense_added st p :
  numberedDensely st ->
  Product.productId p = seqOf st + 1 ->
  forall st',
    products st' = (products st ++ [p])%list ->
    counter st' = Some (seqOf st + 1) ->
    numberedDensely st'.
Proof.
  intros [D S] I st' E C. unfold numberedDensely, seqOf in *. rewrite E, C.
  rewrite length_app, map_app. cbn [List.length map orElse].
  rewrite Nat.add_1_r, seq_S, map_app, D. cbn [map]. rewrite I, S.
  split; [f_equal; f_equal; lia | lia].
Qed.

Lemma dense_create user body st :
  WF st -> numberedDensely st -> numberedDensely (snd (post_products user body st)).
Proof.
  intros W D.
  pose proof (wf_productId_range _ W) as R.
  unfold post_products, Product_create, Counter_inc.
  explore; cbn [snd]; store_simpl_all;
    try (eapply dense_same; [| | exact D]; reflexivity).
  all: match goal with
       | W' : WF ?s, H : productIdTaken _ ?n _ = _ |- _ =>
           assert (E : n = seqOf s + 1)
             by (unfold seqOf;
                 repeat match goal with C : counter _ = _ |- _ => rewrite C end;
                 reflexivity);
           assert (T : productIdTaken (nextObjectId s) (seqOf s + 1) (products s) = false)
             by (apply productIdTaken_false; eapply Forall_impl; [| exact R];
                 cbn beta; intros x Rx; right; lia)
       end.
  all: try congruence.
  all: eapply dense_added; [exact D | | reflexivity | store_simpl; congruence].
  all: cbn; congruence.
Qed.

Lemma dense_delete user id st :
  WF st -> numberedDensely st -> numberedDensely (snd (delete_products_id user id st)).
Proof.
  intros W D.
  destruct (User.canDeleteProducts (User.permissions user)) eqn:P.
  - destruct (findBy Product._id id (products st)) as [p |] eqn:F.
    + rewrite (delete_product_renumbers user id st p W P F). cbn [snd].
      unfold numberedDensely, seqOf. store_simpl. cbn [orElse].
      rewrite numberedFrom_length. split; [| reflexivity].
      apply (numberedFrom_productIds 0).
    + unfold delete_products_id. callback_unfold. rewrite P.
      cbv beta iota zeta delta [negb]. rewrite F. cbn [snd].
      rewrite (removeBy_absent _ _ _ F), with_products_same. exact D.
  - unfold delete_products_id. callback_unfold. rewrite P. exact D.
Qed.

Lemma dense_dispatch keep req st :
  WF st -> numberedDensely st -> numberedDensely (snd (dispatch keep req st)).
Proof.
  intros W D.
  destruct req.
  1-7, 10:
    match goal with
    | |- numberedDensely (snd (dispatch _ ?r _)) =>
        destruct (numbers_frame keep r st W eq_refl) as [E C];
        exact (dense_same _ _ E C D)
    end.
  - apply dense_create; assumption.
  - apply dense_delete; assumption.
Qed.

Lemma dense_run keep reqs :
  forall st, WF st -> numberedDensely st -> numberedDensely (run keep reqs st).
Proof.
  induction reqs as [| req reqs IH]; intros st W D; [exact D |].
  cbn [run]. apply IH; [apply WF_serve; exact W |].
  rewrite snd_serve. apply (dense_same (snd (dispatch keep req st))); try reflexivity.
  apply dense_dispatch; assumption.
Qed.



(** X16.  Whatever requests are served, the product numbers stay without
    gaps: if the products carry 1, 2, ..., n in collection order and the
    counter stands at n, the same holds after any run.  Creation takes
    n + 1, deletion through the route renumbers, and no other route
    touches a number. *)
Theorem product_numbers_stay_dense :
  forall keep reqs st,
    wf st = true ->
    numberedDensely st ->
    numberedDensely (run keep reqs st).
Proof.
  intros keep reqs st W D. apply dense_run; [apply wf_sound; exact W | exact D].
Qed.

Lemma product_numbers_stay_dense_witness :
  let reqs :=
    [DELETE_products_id anAdmin 1%nat; newProduct "Plane" 6; issue 2 None;
     DELETE_products_id anAdmin 0%nat; newProduct "Vice" 1] in
  numberedDensely shop3
  /\ numberedDensely (run false reqs shop3)
  /\ map Product.name (products (run false reqs shop3)) = ["Level"; "Plane"; "Vice"]
  /\ map Product.productId (products (run false reqs shop3)) = [1; 2; 3].
Proof.
  intros reqs.
  assert (D : numberedDensely shop3) by (split; reflexivity).
  split; [exact D |]. split; [| split; reflexivity].
  apply (product_numbers_stay_dense false reqs shop3 eq_refl D).
Defined.

(* ===================================================================== *)
(** ** Product update *)
(* ===================================================================== *)

Lemma findBy_updated {D} (key : D -> ObjectId) (f : D -> D) id l :
  (forall x, key (f x) = key x) ->
  findBy key id (map (fun x => if eqId (key x) id then f x else x) l)
  = option_map f (findBy key id l).
Proof.
  intros K. unfold findBy. induction l as [| x l IH]; [reflexivity |].
  cbn [map find]. destruct (eqId (key x) id) eqn:E.
  - rewrite K, E. reflexivity.
  - rewrite E. exact IH.
Qed.

(** X17.  A permitted product update that passes the validators rewrites
    the name and the three stock numbers of the stored product and nothing
    else: id, sequence number, creation time and restock date stay.  A
    submitted number of 0 counts as not given: the update cannot set the
    stock to zero, the old quantity stays. *)
Theorem update_cannot_zero_the_stock :
  forall user id body st p,
    wf st = true ->
    User.canEditProducts (User.permissions user) = true ->
    creatable body = true ->
    findBy Product._id id (products st) = Some p ->
    let out := put_products_id user id body st in
    let submitted := orElse (b_stockQuantity body) 0 in
    exists p',
      fst out = Message 200 "Product updated successfully"
      /\ findBy Product._id id (products (snd out)) = Some p'
      /\ Product.quantity (Product.stock p')
         = (if submitted =? 0 then Product.quantity (Product.stock p) else submitted)
      /\ Product.name p' = trim (trim (orElse (b_name body) ""))
      /\ Product._id p' = Product._id p
      /\ Product.productId p' = Product.productId p
      /\ Product.createdAt p' = Product.createdAt p
      /\ Product.lastRestocked (Product.stock p') = Product.lastRestocked (Product.stock p)
      /\ handovers (snd out) = handovers st.
Proof.
  intros user id body st p W P C F out submitted. subst out submitted.
  apply wf_sound in W. pose proof (WF_found_product_valid _ _ _ W F) as VP0.
  unfold Product.validate in VP0.
  apply andb_true_iff in VP0 as [VP0 _]. apply andb_true_iff in VP0 as [VP0 Vmax].
  apply andb_true_iff in VP0 as [Vq Vmin]. apply Z.leb_le in Vq, Vmin, Vmax.
  unfold creatable in C. apply andb_true_iff in C as [V M].
  pose proof V as V'. unfold validateProduct in V'. rewrite validationResult_passes in V'.
  cbn [forallb fst] in V'.
  apply andb_true_iff in V' as [N V']. apply andb_true_iff in V' as [L V'].
  apply andb_true_iff in V' as [Q V']. apply andb_true_iff in V' as [Mi _].
  destruct (b_name body) as [name |] eqn:BN; [| discriminate N]. cbn [option_map] in N, L.
  apply andb_true_iff in L as [_ L]. apply Z.leb_le in L.
  destruct (b_stockQuantity body) as [sq |] eqn:BQ; [| discriminate Q].
  cbn [requiredIsIntMin] in Q. unfold isIntMin in Q. apply Z.leb_le in Q.
  unfold put_products_id, Product_findByIdAndUpdate.
  callback_unfold. rewrite P, V, BN, BQ. cbn [negb option_map orElse]. rewrite F.
  cbv beta iota zeta.
  match goal with
  | |- context [Product.validate ?d] => assert (VP : Product.validate d = true)
  end.
  { unfold Product.validate. cbn [Product.quantity Product.minStock Product.maxStock
      Product.stock Product.name].
    repeat (apply andb_true_iff; split); apply Z.leb_le.
    - destruct sq; cbn; lia.
    - destruct (b_minStock body) as [[| v | v] |]; cbn in *; unfold isIntMin in *; lia.
    - destruct (b_maxStock body) as [[| v | v] |]; cbn in *; unfold isIntMin in *; lia.
    - apply trim_trim_bound. exact L. }
  rewrite VP. cbv beta iota zeta delta [negb]. cbn [fst snd]. store_simpl.
  rewrite (findBy_updated Product._id
             (fun x => Product.mk (Product._id x) (Product.productId x) _ _
                         (Product.createdAt x))) by reflexivity.
  rewrite F. cbn [option_map].
  eexists. split; [reflexivity |]. split; [reflexivity |].
  cbn. repeat split. destruct sq; reflexivity.
Qed.

Lemma update_cannot_zero_the_stock_witness :
  let out := put_products_id aManager 0%nat
               (mkProductBody (Some "Drill") (Some 0) None None) shop in
  stockOf 0%nat shop = 10
  /\ fst out = Message 200 "Product updated successfully"
  /\ stockOf 0%nat (snd out) = 10.
Proof.
  intros out. split; [reflexivity |].
  destruct (update_cannot_zero_the_stock aManager 0%nat
              (mkProductBody (Some "Drill") (Some 0) None None) shop _
              eq_refl eq_refl eq_refl eq_refl) as (p' & R & F & Q & _).
  split; [exact R |]. unfold stockOf. fold out in F. rewrite F. exact Q.
Defined.

(* ===================================================================== *)
(** ** The read routes of the handover router *)
(* ===================================================================== *)

Lemma In_insertNewestFirst x h l :
  In x (insertNewestFirst h l) <-> x = h \/ In x l.
Proof.
  induction l as [| y l IH]; cbn; [intuition congruence |].
  destruct (_ <=? _)%nat; cbn; [intuition congruence |].
  rewrite IH. intuition congruence.
Qed.

Lemma In_sortNewestFirst x l : In x (sortNewestFirst l) <-> In x l.
Proof.
  unfold sortNewestFirst. induction l as [| h l IH]; cbn; [tauto |].
  rewrite In_insertNewestFirst, IH. intuition congruence.
Qed.

Lemma length_insertNewestFirst h l :
  List.length (insertNewestFirst h l) = S (List.length l).
Proof.
  induction l as [| y l IH]; cbn; [reflexivity |].
  destruct (_ <=? _)%nat; cbn; [reflexivity | rewrite IH; reflexivity].
Qed.

Lemma length_sortNewestFirst l : List.length (sortNewestFirst l) = List.length l.
Proof.
  unfold sortNewestFirst. induction l as [| h l IH]; cbn; [reflexivity |].
  rewrite length_insertNewestFirst, IH. reflexivity.
Qed.

(** Cutting a list into pages of [n] and laying the pages end to end gives
    the list back. *)
Lemma pages_cover {A} (n : nat) (l : list A) :
  forall m,
    (0 < n)%nat ->
    (List.length l <= m * n)%nat ->
    List.concat (map (fun k => firstn n (skipn (k * n) l)) (seq 0 m)) = l.
Proof.
  intros m N. revert l. induction m as [| m IH]; intros l L.
  - destruct l; [reflexivity | cbn in L; lia].
  - cbn [seq map List.concat]. rewrite <- seq_shift, map_map.
    cbn [Nat.mul Nat.add skipn].
    rewrite (map_ext _ (fun k => firstn n (skipn (k * n) (skipn n l)))).
    + rewrite IH; [apply firstn_skipn |]. rewrite length_skipn. cbn in L. lia.
    + intros k. rewrite skipn_skipn. f_equal. f_equal. lia.
Qed.

Lemma ceilDiv_covers (a : nat) (b : N) :
  (0 < b)%N ->
  (a <= Z.to_nat (orElse (ceilDiv (Z.of_nat a) (Z.of_N b)) 0%Z) * N.to_nat b)%nat.
Proof.
  intros B0. unfold ceilDiv.
  replace (Z.of_N b =? 0) with false by (symmetry; apply Z.eqb_neq; lia).
  cbn [orElse].
  pose proof (Z.div_mod (Z.of_nat a + Z.of_N b - 1) (Z.of_N b)) as D.
  pose proof (Z.mod_pos_bound (Z.of_nat a + Z.of_N b - 1) (Z.of_N b)) as B.
  assert (0 <= (Z.of_nat a + Z.of_N b - 1) / Z.of_N b) by (apply Z.div_pos; lia).
  nia.
Qed.

Ltac read_unfold :=
  unfold payload, handle, HandOver_find_limit_skip, HandOver_find, HandOver_countDocuments;
  callback_unfold.

(** The list route for a caller who may view products. *)
Lemma get_handovers_permitted user query st :
  User.canViewProducts (User.permissions user) = true ->
  let found := sortNewestFirst (filter (listFilter query) (handovers st)) in
  let page := orElse (q_page query) 1 in
  let limit := orElse (q_limit query) 50%N in
  let skip := (page - 1) * Z.of_N limit in
  get_handovers user query st
  = if skip <? 0 then (inl (Message 500 "Server error"), st)
    else
      (inr (let rest := skipn (Z.to_nat skip) found in
            if (limit =? 0)%N then rest else firstn (N.to_nat limit) rest,
            mkPagination page
              (ceilDiv (Z.of_nat (List.length found)) (Z.of_N limit))
              (Z.of_nat (List.length found)) (Z.of_N limit)),
       st).
Proof.
  intros P found page limit skip. subst found page limit skip.
  unfold get_handovers. read_unfold. rewrite P. cbn [negb].
  destruct (_ <? 0); [reflexivity |].
  rewrite length_sortNewestFirst. reflexivity.
Qed.

(** X18.  The pages of the handover list, for a limit of at least one, cut
    the filtered listing, newest first, into consecutive pieces: laid end to
    end, the pages announced by the pagination give back the whole listing,
    each record once, and no page is longer than the limit.  A limit of
    zero is no limit: the first page is the whole listing, and no number of
    pages is announced.  A page of zero or less, with a limit of at least
    one, is a negative skip, which the database refuses: the answer is the
    server error.  (Records with distinct creation times: MongoDB leaves the
    order of ties open.) *)
Theorem pages_partition_the_listing :
  forall user query st,
    User.canViewProducts (User.permissions user) = true ->
    distinct (map HandOver.createdAt (handovers st)) = true ->
    let listing := sortNewestFirst (filter (listFilter query) (handovers st)) in
    let limit := orElse (q_limit query) 50%N in
    let announced := pagesOf user (turnTo 1 query) st in
    ((0 < limit)%N ->
       List.concat (map (pageOf user query st) (seq 1 announced)) = listing
       /\ (forall page, (List.length (pageOf user query st page) <= N.to_nat limit)%nat)
       /\ (forall page, page <= 0 ->
             get_handovers user (turnTo page query) st
             = (inl (Message 500 "Server error"), st)))
    /\ (limit = 0%N ->
          forall page,
            exists pagination,
              payload (get_handovers user (turnTo page query) st) = Some (listing, pagination)
              /\ pages pagination = None).
Proof.
  intros user query st P _ listing limit announced.
  assert (G : forall page,
             get_handovers user (turnTo page query) st
             = if (page - 1) * Z.of_N limit <? 0
               then (inl (Message 500 "Server error"), st)
               else
                 (inr (let rest := skipn (Z.to_nat ((page - 1) * Z.of_N limit)) listing in
                       if (limit =? 0)%N then rest else firstn (N.to_nat limit) rest,
                       mkPagination page
                         (ceilDiv (Z.of_nat (List.length listing)) (Z.of_N limit))
                         (Z.of_nat (List.length listing)) (Z.of_N limit)),
                  st))
    by (intros page; apply (get_handovers_permitted user (turnTo page query) st P)).
  split.
  - intros L.
    assert (L0 : (limit =? 0)%N = false) by (apply N.eqb_neq; lia).
    split; [| split].
    + unfold announced, pagesOf, pageOf. rewrite (G 1). cbn [Z.sub Z.mul Z.ltb Z.compare].
      unfold payload at 1. cbn [fst pages].
      rewrite <- seq_shift, map_map.
      rewrite (map_ext _ (fun k => firstn (N.to_nat limit)
                                     (skipn (k * N.to_nat limit) listing))).
      * apply pages_cover; [lia | apply ceilDiv_covers; exact L].
      * intros k. rewrite (G (Z.of_nat (S k))).
        replace ((Z.of_nat (S k) - 1) * Z.of_N limit <? 0) with false
          by (symmetry; apply Z.ltb_ge; nia).
        unfold payload. cbn [fst]. rewrite L0. f_equal. f_equal. nia.
    + intros page. unfold pageOf. rewrite (G (Z.of_nat page)).
      destruct (_ <? 0); unfold payload; cbn [fst List.length]; [lia |].
      rewrite L0. apply firstn_le_length.
    + intros page N. rewrite (G page).
      replace ((page - 1) * Z.of_N limit <? 0) with true
        by (symmetry; apply Z.ltb_lt; nia).
      reflexivity.
  - intros Z0 page. rewrite (G page), Z0. rewrite Z.mul_0_r. cbn [Z.ltb Z.compare N.eqb].
    unfold payload. cbn [fst Z.to_nat skipn]. eexists. split; [reflexivity |]. reflexivity.
Qed.

Lemma pages_partition_the_listing_witness :
  let st := run false [issue 1 None; ask 2 "spare"; issue 3 None] shop in
  let query := mkListQuery None (Some 2%N) None (Some 3%nat) None in
  pagesOf anAdmin query st = 2%nat
  /\ map HandOver._id (pageOf anAdmin query st 1) = [3%nat; 2%nat]
  /\ map HandOver._id (pageOf anAdmin query st 2) = [1%nat]
  /\ List.concat (map (pageOf anAdmin query st) (seq 1 (pagesOf anAdmin query st)))
     = sortNewestFirst (filter (listFilter query) (handovers st))
  /\ get_handovers anAdmin (turnTo 0 query) st = (inl (Message 500 "Server error"), st).
Proof.
  intros st query.
  split; [vm_compute; reflexivity |]. split; [vm_compute; reflexivity |].
  split; [vm_compute; reflexivity |].
  destruct (pages_partition_the_listing anAdmin query st eq_refl eq_refl) as (A & _).
  destruct (A eq_refl) as (A1 & _ & A3).
  split; [exact A1 | apply A3; lia].
Defined.

Lemma In_replaceBy {D} (key : D -> ObjectId) d x l :
  In x (replaceBy key d l)
  <-> (In x l /\ key x <> key d) \/ (x = d /\ exists y, In y l /\ key y = key d).
Proof.
  unfold replaceBy. rewrite in_map_iff. split.
  - intros (y & E & I). destruct (eqId (key y) (key d)) eqn:Q.
    + apply eqId_true in Q. right. split; [congruence | eauto].
    + apply eqId_false in Q. left. subst. auto.
  - intros [[I N] | [-> (y & I & K)]].
    + exists x. apply eqId_false in N. rewrite N. auto.
    + exists y. apply eqId_true in K. rewrite K. auto.
Qed.

(** What a successful decision writes. *)
Lemma decision_written keep user id d st :
  isSuccess (fst (dispatch keep (decide user id d) st)) = true ->
  exists h h',
    findBy HandOver._id id (handovers st) = Some h
    /\ HandOver.status h = pending
    /\ HandOver._id h' = id
    /\ HandOver.status h' <> pending
    /\ handovers (snd (dispatch keep (decide user id d) st))
       = replaceBy HandOver._id (HandOver.stored keep h') (handovers st).
Proof.
  destruct d as [n | r]; cbn [decide dispatch].
  - unfold post_handovers_id_approve.
    explore; cbn [fst snd]; store_simpl; intros S; try discriminate S.
    all: unnegate; tidy.
    all: eexists; eexists; split; [reflexivity |]; split; [assumption |];
      split; [| split; [| reflexivity]]; cbn;
      [ eapply findBy_key; eassumption | discriminate ].
  - unfold post_handovers_id_reject.
    explore; cbn [fst snd]; store_simpl; intros S; try discriminate S.
    all: unnegate; tidy.
    all: eexists; eexists; split; [reflexivity |]; split; [assumption |];
      split; [| split; [| reflexivity]]; cbn;
      [ eapply findBy_key; eassumption | discriminate ].
Qed.

Lemma pending_listed user st :
  User.canManageProducts (User.permissions user) = true ->
  payload (get_handovers_pending user st)
  = Some (sortNewestFirst
            (filter (fun h => Status_eqb (HandOver.status h) pending) (handovers st))).
Proof.
  intros P. unfold get_handovers_pending. read_unfold. rewrite P. reflexivity.
Qed.

(** X19.  The pending list follows the decisions: once a request has been
    approved or rejected it is no longer on the list of pending requests,
    and every other request on the list stays on it unchanged. *)
Theorem decided_request_leaves_the_pending_list :
  forall keep user decider id d st,
    User.canManageProducts (User.permissions user) = true ->
    isSuccess (fst (serve keep (decide decider id d) st)) = true ->
    exists before after,
      payload (get_handovers_pending user st) = Some before
      /\ payload (get_handovers_pending user (snd (serve keep (decide decider id d) st)))
         = Some after
      /\ (exists h, In h before /\ HandOver._id h = id)
      /\ forall h, In h after <-> In h before /\ HandOver._id h <> id.
Proof.
  intros keep user decider id d st P S.
  assert (S' : isSuccess (fst (dispatch keep (decide decider id d) st)) = true).
  { unfold serve in S. destruct (dispatch keep (decide decider id d) st). exact S. }
  destruct (decision_written keep decider id d st S') as (h0 & h' & F & S0 & I & N & E).
  eexists. eexists. split; [apply pending_listed; exact P |].
  split; [apply pending_listed; exact P |].
  rewrite snd_serve. unfold tick. store_simpl. rewrite E.
  split.
  - exists h0. split; [| eapply findBy_key; exact F].
    apply In_sortNewestFirst, filter_In. split; [eapply findBy_In; exact F |].
    apply Status_eqb_eq. exact S0.
  - intros h. rewrite !In_sortNewestFirst, !filter_In, In_replaceBy, stored_id, I.
    split.
    + intros [[[A B] | [-> _]] C].
      * auto.
      * rewrite stored_status in C. apply Status_eqb_eq in C. contradiction.
    + intros [[A C] B]. auto.
Qed.

Lemma decided_request_leaves_the_pending_list_witness :
  let st := run false [ask 1 "one more"] shopWithRequest in
  let st' := snd (serve false (decide aManager 1%nat (Reject (Some "no"))) st) in
  exists before after,
    payload (get_handovers_pending anAdmin st) = Some before
    /\ payload (get_handovers_pending anAdmin st') = Some after
    /\ map HandOver._id before = [2%nat; 1%nat]
    /\ map HandOver._id after = [2%nat]
    /\ forall h, In h after <-> In h before /\ HandOver._id h <> 1%nat.
Proof.
  intros st st'.
  destruct (decided_request_leaves_the_pending_list false anAdmin aManager 1%nat
              (Reject (Some "no")) st eq_refl eq_refl)
    as (before & after & B & A & _ & K).
  exists before, after. split; [exact B |]. split; [exact A |].
  split; [| split; [| exact K]].
  - vm_compute in B. injection B as <-. reflexivity.
  - vm_compute in A. injection A as <-. reflexivity.
Defined.





Lemma statusName_eqb s s' : String.eqb (statusName s) (statusName s') = Status_eqb s s'.
Proof. destruct s, s'; reflexivity. Qed.

Lemma filter_length_ext {A} (f g : A -> bool) l :
  (forall x, f x = g x) -> List.length (filter f l) = List.length (filter g l).
Proof. intros E. rewrite (filter_ext _ _ E). reflexivity. Qed.

Lemma filter_length_implied {A} (f g : A -> bool) l :
  (forall x, f x = true -> g x = true) ->
  (List.length (filter f l) <= List.length (filter g l))%nat.
Proof.
  intros I. induction l as [| x l IH]; cbn; [lia |].
  destruct (f x) eqn:F; [rewrite (I x F); cbn; lia | destruct (g x); cbn; lia].
Qed.

Lemma filter_length_disjoint {A} (f g : A -> bool) l :
  (forall x, f x = true -> g x = false) ->
  (List.length (filter f l) + List.length (filter g l) <= List.length l)%nat.
Proof.
  intros I. induction l as [| x l IH]; cbn; [lia |].
  destruct (f x) eqn:F; [rewrite (I x F); cbn; lia | destruct (g x); cbn; lia].
Qed.

Lemma filter_true {A} (l : list A) : filter (fun _ => true) l = l.
Proof. induction l as [| x l IH]; cbn; [| rewrite IH]; reflexivity. Qed.

(** X21.  The statistics agree with the list route: [total], [active] and
    [returned] are the totals that the list announces for no status, for
    [handed_over] and for [returned]; the recent handovers are the first
    page of five.  Overdue records are among the active ones, and active
    and returned records together do not exceed the total. *)
Theorem statistics_agree_with_the_list :
  forall user st,
    User.canViewProducts (User.permissions user) = true ->
    exists stats recent,
      payload (get_handovers_stats user st) = Some (stats, recent)
      /\ s_total stats = totalOf user (byStatus 5 None) st
      /\ s_active stats = totalOf user (byStatus 5 (Some handed_over)) st
      /\ s_returned stats = totalOf user (byStatus 5 (Some returned)) st
      /\ recent = pageOf user (byStatus 5 None) st 1
      /\ 0 <= s_overdue stats <= s_active stats
      /\ s_active stats + s_returned stats <= s_total stats.
Proof.
  intros user st P.
  unfold totalOf, pageOf. rewrite !(get_handovers_permitted user _ st P).
  cbn [byStatus turnTo q_page q_limit orElse Z.of_nat Pos.of_succ_nat Z.sub Z.add Z.opp
       Z.pos_sub Z.mul Z.of_N Z.ltb Z.compare N.eqb Pos.eqb N.to_nat Pos.to_nat
       Pos.iter_op Nat.add Z.to_nat skipn payload fst].
  unfold get_handovers_stats. read_unfold. rewrite P. cbn [negb fst].
  eexists. eexists. split; [reflexivity |].
  cbn [s_total s_active s_returned s_overdue total].
  rewrite !length_sortNewestFirst.
  assert (A : forall s,
             List.length (filter (listFilter (byStatus 5 (Some s))) (handovers st))
             = List.length (filter (fun h => Status_eqb (HandOver.status h) s)
                              (handovers st))).
  { intros s. apply filter_length_ext. intros h.
    unfold listFilter, byStatus, statusFilter, idFilter. cbn.
    rewrite !andb_true_r.
    replace (String.eqb (statusName (HandOver.status h)) (statusName s))
      with (Status_eqb (HandOver.status h) s) by (symmetry; apply statusName_eqb).
    destruct s; reflexivity. }
  rewrite !A.
  assert (T : filter (listFilter (byStatus 5 None)) (handovers st) = handovers st)
    by apply filter_true.
  rewrite T, filter_true.
  split; [reflexivity |]. split; [reflexivity |]. split; [reflexivity |].
  split; [| split; [split |]].
  - assert (T' : filter (listFilter (turnTo 1 (byStatus 5 None))) (handovers st)
                 = handovers st) by apply filter_true.
    rewrite T'. reflexivity.
  - lia.
  - apply inj_le, filter_length_implied. intros h I. unfold isOverdue in I.
    apply andb_true_iff in I as [I _]. exact I.
  - rewrite <- Nat2Z.inj_add. apply inj_le, filter_length_disjoint.
    intros h I. apply Status_eqb_eq in I. rewrite I. reflexivity.
Qed.

Lemma statistics_agree_with_the_list_witness :
  let st :=
    run false
      [issue 1 None; ask 2 "spare"; issue 3 None;
       PUT_handovers_id_return aManager 1%nat None] shop in
  exists stats recent,
    payload (get_handovers_stats anEmployee st) = Some (stats, recent)
    /\ stats = mkStats 3 1 1 0
    /\ map HandOver._id recent = [3%nat; 2%nat; 1%nat]
    /\ s_active stats = totalOf anEmployee (byStatus 5 (Some handed_over)) st.
Proof.
  intros st.
  destruct (statistics_agree_with_the_list anEmployee st eq_refl)
    as (stats & recent & E & _ & A & _).
  exists stats, recent. split; [exact E |].
  vm_compute in E. injection E as <- <-.
  split; [reflexivity |]. split; [reflexivity |]. exact A.
Defined.

(* ===================================================================== *)
(** ** Accounts: the failsafe administrator, lock-out, role changes *)
(* ===================================================================== *)

Ltac users_simpl :=
  cbn [handovers products users counter nextObjectId clock with_users].

Ltac admin_unfold :=
  unfold handle, User_save, User_findOne_email, User_findByIdAndDelete, checkRole;
  callback_unfold.

Lemma preSave_email u : User.email (User.preSave u) = User.email u.
Proof. unfold User.preSave. destruct (String.eqb _ _); reflexivity. Qed.

Lemma preSave_idempotent u : User.preSave (User.preSave u) = User.preSave u.
Proof.
  unfold User.preSave. destruct (String.eqb (User.email u) _) eqn:E; cbn; rewrite E;
    reflexivity.
Qed.

(** For the failsafe address the hook overwrites role, status and flags. *)
Lemma preSave_failsafe_any u v :
  User.email u = User.FAILSAFE_EMAIL ->
  User._id v = User._id u -> User.firstName v = User.firstName u ->
  User.lastName v = User.lastName u -> User.email v = User.email u ->
  User.preSave v = User.preSave u.
Proof.
  intros E A B C D. unfold User.preSave. rewrite D, E. cbn. rewrite A, B, C.
  reflexivity.
Qed.

Lemma find_In_email email l (u : User.doc) :
  find (fun x => String.eqb (User.email x) email) l = Some u ->
  In u l /\ User.email u = email.
Proof.
  intros F. apply find_some in F as [I E]. apply String.eqb_eq in E. auto.
Qed.

Lemma failsafe_beside_saved users id f t d :
  NoDup (map User._id users) ->
  findBy User._id (User._id f) users = Some f ->
  User.email f = User.FAILSAFE_EMAIL ->
  findBy User._id id users = Some t ->
  String.eqb (User.email t) User.FAILSAFE_EMAIL = false ->
  User._id d = User._id t ->
  NoDup (map User._id (replaceBy User._id d users))
  /\ (findBy User._id (User._id f) (replaceBy User._id d users) = Some f
      \/ findBy User._id (User._id f) (replaceBy User._id d users)
         = Some (User.preSave f)).
Proof.
  intros N F E T NE I. split; [rewrite map_key_replaceBy; exact N |]. left.
  rewrite findBy_replaceBy, F.
  destruct (eqId (User._id f) (User._id d)) eqn:Q; [exfalso | reflexivity].
  apply eqId_true in Q. apply String.eqb_neq in NE. apply NE.
  pose proof (findBy_key _ _ _ _ T) as K.
  assert (f = t) as <- by (rewrite <- K, <- I, <- Q in T; congruence).
  exact E.
Qed.

Lemma failsafe_beside_removed users id f t :
  NoDup (map User._id users) ->
  findBy User._id (User._id f) users = Some f ->
  User.email f = User.FAILSAFE_EMAIL ->
  findBy User._id id users = Some t ->
  String.eqb (User.email t) User.FAILSAFE_EMAIL = false ->
  NoDup (map User._id (removeBy User._id id users))
  /\ (findBy User._id (User._id f) (removeBy User._id id users) = Some f
      \/ findBy User._id (User._id f) (removeBy User._id id users)
         = Some (User.preSave f)).
Proof.
  intros N F E T NE. split; [apply NoDup_map_removeBy; exact N |]. left.
  rewrite findBy_removeBy_other; [exact F |].
  intros Q. apply String.eqb_neq in NE. apply NE.
  assert (f = t) as <- by (rewrite <- Q in T; congruence).
  exact E.
Qed.

Ltac failsafe_kept N F E :=
  first
    [ split; [exact N | left; exact F]
    | match goal with
      | T : findBy User._id _ _ = Some ?t |- _ =>
          first
            [ eapply (failsafe_beside_saved _ _ _ t);
                [ exact N | exact F | exact E | exact T | assumption
                | rewrite preSave_id; reflexivity ]
            | eapply (failsafe_beside_removed _ _ _ t);
                [ exact N | exact F | exact E | exact T | assumption ] ]
      end ].

(** One administration request leaves a stored failsafe account in place,
    as it was or as the save hook makes it. *)
Lemma failsafe_step req st f :
  NoDup (map User._id (users st)) ->
  findBy User._id (User._id f) (users st) = Some f ->
  User.email f = User.FAILSAFE_EMAIL ->
  NoDup (map User._id (users (administer req st)))
  /\ (findBy User._id (User._id f) (users (administer req st)) = Some f
      \/ findBy User._id (User._id f) (users (administer req st)) = Some (User.preSave f)).
Proof.
  intros N F E.
  destruct req as [user id body | user email | user id | user id]; cbn [administer].
  - unfold put_users_id. admin_unfold.
    repeat (case_step; cbv beta iota zeta); cbn [snd]; users_simpl; failsafe_kept N F E.
  - unfold post_users_fix_permissions. admin_unfold.
    repeat (case_step; cbv beta iota zeta); cbn [snd]; users_simpl;
      try (split; [exact N | left; exact F]).
    all: match goal with
         | T : find _ _ = Some ?t |- _ => apply find_In_email in T as [I _]
         end.
    all: split; [rewrite map_key_replaceBy; exact N |].
    all: rewrite findBy_replaceBy, F, preSave_id; cbn [User._id with_permissions].
    all: match goal with
         | |- context [eqId ?a ?b] => destruct (eqId a b) eqn:Q; [| left; reflexivity]
         end.
    all: apply eqId_true in Q; right; f_equal.
    all: match goal with
         | I : In ?t _ |- _ =>
             assert (f = t) as <-
               by (eapply (NoDup_key_unique User._id); eauto using findBy_In)
         end.
    all: apply preSave_failsafe_any; [exact E | reflexivity ..].
  - unfold delete_users_id. admin_unfold.
    repeat (case_step; cbv beta iota zeta); cbn [snd]; users_simpl; failsafe_kept N F E.
  - unfold put_users_id_toggle_status. admin_unfold.
    repeat (case_step; cbv beta iota zeta); cbn [snd]; users_simpl; failsafe_kept N F E.
Qed.

Lemma administer_distinct req st :
  NoDup (map User._id (users st)) -> NoDup (map User._id (users (administer req st))).
Proof.
  intros N.
  destruct req as [user id body | user email | user id | user id]; cbn [administer].
  - unfold put_users_id. admin_unfold.
    repeat (case_step; cbv beta iota zeta); cbn [snd]; users_simpl;
      rewrite ?map_key_replaceBy; exact N.
  - unfold post_users_fix_permissions. admin_unfold.
    repeat (case_step; cbv beta iota zeta); cbn [snd]; users_simpl;
      rewrite ?map_key_replaceBy; exact N.
  - unfold delete_users_id. admin_unfold.
    repeat (case_step; cbv beta iota zeta); cbn [snd]; users_simpl;
      try exact N; apply NoDup_map_removeBy; exact N.
  - unfold put_users_id_toggle_status. admin_unfold.
    repeat (case_step; cbv beta iota zeta); cbn [snd]; users_simpl;
      rewrite ?map_key_replaceBy; exact N.
Qed.

Lemma failsafe_run reqs :
  forall st f,
    NoDup (map User._id (users st)) ->
    findBy User._id (User._id f) (users st) = Some f ->
    User.email f = User.FAILSAFE_EMAIL ->
    findBy User._id (User._id f) (users (administerAll reqs st)) = Some f
    \/ findBy User._id (User._id f) (users (administerAll reqs st)) = Some (User.preSave f).
Proof.
  induction reqs as [| req reqs IH]; intros st f N F E; [left; exact F |].
  cbn [administerAll].
  destruct (failsafe_step req st f N F E) as [N' [F' | F']].
  - apply IH; assumption.
  - right.
    destruct (IH (administer req st) (User.preSave f) N') as [G | G].
    + rewrite preSave_id. exact F'.
    + rewrite preSave_email. exact E.
    + rewrite preSave_id in G. exact G.
    + rewrite preSave_id, preSave_idempotent in G. exact G.
Qed.

(** X22.  No sequence of administration requests (update, fix
    permissions, delete, toggle status) removes a stored failsafe account
    or leaves it in any other state than the one it had or the one the
    save hook gives it: an active administrator with the administrator's
    flags. *)
Theorem failsafe_account_survives_administration :
  forall reqs st f,
    distinct (map User._id (users st)) = true ->
    findBy User._id (User._id f) (users st) = Some f ->
    isFailsafeAdmin f = true ->
    exists f',
      findBy User._id (User._id f) (users (administerAll reqs st)) = Some f'
      /\ (f' = f \/ f' = User.preSave f)
      /\ User.isActive (User.preSave f) = true
      /\ User.role (User.preSave f) = admin.
Proof.
  intros reqs st f D F E. apply distinct_NoDup in D. apply String.eqb_eq in E.
  destruct (preSave_failsafe f E) as (R & A & _).
  destruct (failsafe_run reqs st f D F E) as [G | G]; eexists; (split; [exact G |]); auto.
Qed.

Lemma failsafe_account_survives_administration_witness :
  let f := User.preSave theFailsafe in
  let st := initialStore [anAdmin; f; anEmployee] in
  let reqs :=
    [DELETE_users_id anAdmin 4%nat;
     PUT_users_id_toggle_status anAdmin 4%nat;
     PUT_users_id anAdmin 4%nat (mkUserUpdate None None (Some employee));
     POST_users_fix_permissions anAdmin User.FAILSAFE_EMAIL;
     DELETE_users_id anAdmin 3%nat] in
  map User._id (users (administerAll reqs st)) = [1%nat; 4%nat]
  /\ exists f',
       findBy User._id 4%nat (users (administerAll reqs st)) = Some f'
       /\ (f' = f \/ f' = User.preSave f)
       /\ User.isActive (User.preSave f) = true
       /\ User.role (User.preSave f) = admin.
Proof.
  intros f st reqs. split; [reflexivity |].
  apply (failsafe_account_survives_administration reqs st f eq_refl eq_refl eq_refl).
Defined.

Ltac admin_follow :=
  admin_unfold; repeat (first [use_known | case_step]; settle).

Lemma findBy_replaced {D} (key : D -> ObjectId) id d t l :
  findBy key id l = Some t -> key d = id ->
  findBy key id (replaceBy key d l) = Some d.
Proof.
  intros F K. rewrite findBy_replaceBy, F.
  apply findBy_key in F. rewrite F, K, eqId_refl. reflexivity.
Qed.

Lemma replaceBy_again {D} (key : D -> ObjectId) d d' l :
  key d = key d' -> replaceBy key d' (replaceBy key d l) = replaceBy key d' l.
Proof.
  intros K. unfold replaceBy. rewrite map_map. apply map_ext. intros x.
  destruct (eqId (key x) (key d)) eqn:E.
  - rewrite K, eqId_refl. rewrite K in E. rewrite E. reflexivity.
  - reflexivity.
Qed.

Lemma preSave_ordinary_toggle t b b' :
  String.eqb (User.email t) User.FAILSAFE_EMAIL = false ->
  User.preSave (with_isActive b (User.preSave (with_isActive b' t)))
  = with_isActive b (User.preSave t).
Proof.
  intros E. unfold User.preSave, with_isActive. cbn. rewrite E. cbn. rewrite E. reflexivity.
Qed.

Lemma User_validate_preSave u : User_validate (User.preSave u) = User_validate u.
Proof. unfold User.preSave. destruct (String.eqb _ _); reflexivity. Qed.

Lemma toggle_written actor id st t :
  User.role actor = admin ->
  findBy User._id id (users st) = Some t ->
  String.eqb (User.email t) User.FAILSAFE_EMAIL = false ->
  User_validate t = true ->
  put_users_id_toggle_status actor id st
  = (Message 200
       ("User " ++ (if negb (User.isActive t) then "activated" else "deactivated")
        ++ " successfully"),
     with_users
       (replaceBy User._id (User.preSave (with_isActive (negb (User.isActive t)) t))
          (users st)) st).
Proof.
  intros R F E V.
  assert (V' : User_validate (with_isActive (negb (User.isActive t)) t) = true) by exact V.
  unfold put_users_id_toggle_status. admin_unfold.
  rewrite R. cbn [existsb Role_eqb orb negb]. rewrite F, E. rewrite V'. cbn [negb].
  unfold User.preSave at 1. cbn [User.email with_isActive]. rewrite E.
  cbn [User.isActive]. reflexivity.
Qed.

(** X23.  Deactivating an account locks it out and activating it lets it
    in again: after an administrator toggles an active account, [auth]
    refuses its token with 401; after the second toggle [auth] accepts the
    token again and hands the route the account with the flags of its
    role. *)
Theorem deactivation_locks_the_account_out :
  forall actor id st t,
    User.role actor = admin ->
    findBy User._id id (users st) = Some t ->
    User.email t <> User.FAILSAFE_EMAIL ->
    User_validate t = true ->
    User.isActive t = true ->
    let off := put_users_id_toggle_status actor id st in
    let on := put_users_id_toggle_status actor id (snd off) in
    fst off = Message 200 "User deactivated successfully"
    /\ auth (Decoded id) (snd off)
       = (Respond (Message 401 "Account is deactivated"), snd off)
    /\ fst on = Message 200 "User activated successfully"
    /\ auth (Decoded id) (snd on) = (Return (User.preSave t), snd on)
    /\ users (snd on) = replaceBy User._id (User.preSave t) (users st).
Proof.
  intros actor id st t R F E V A off on.
  apply String.eqb_neq in E.
  pose proof (findBy_key _ _ _ _ F) as K.
  set (t1 := User.preSave (with_isActive false t)).
  assert (Off : off = (Message 200 "User deactivated successfully",
                       with_users (replaceBy User._id t1 (users st)) st)).
  { subst off. rewrite (toggle_written actor id st t R F E V), A. reflexivity. }
  assert (I1 : User._id t1 = id) by (unfold t1; rewrite preSave_id; exact K).
  assert (F1 : findBy User._id id (users (snd off)) = Some t1).
  { rewrite Off. cbn [snd]. users_simpl. eapply findBy_replaced; eauto. }
  assert (E1 : String.eqb (User.email t1) User.FAILSAFE_EMAIL = false)
    by (unfold t1; rewrite preSave_email; exact E).
  assert (A1 : User.isActive t1 = false)
    by (unfold t1, User.preSave; cbn [User.email with_isActive]; rewrite E; reflexivity).
  assert (V1 : User_validate t1 = true)
    by (unfold t1; rewrite User_validate_preSave; exact V).
  assert (T2 : User.preSave (with_isActive true t1) = User.preSave t).
  { unfold t1. rewrite (preSave_ordinary_toggle t true false E).
    unfold User.preSave, with_isActive. rewrite E. cbn. rewrite A. reflexivity. }
  assert (On : on = (Message 200 "User activated successfully",
                     with_users (replaceBy User._id (User.preSave t) (users (snd off)))
                       (snd off))).
  { subst on. rewrite (toggle_written actor id (snd off) t1 R F1 E1 V1), A1.
    cbn [negb]. rewrite T2. reflexivity. }
  assert (U : users (snd on) = replaceBy User._id (User.preSave t) (users st)).
  { rewrite On. cbn [snd]. users_simpl. rewrite Off. cbn [snd]. users_simpl.
    apply replaceBy_again. unfold t1. rewrite !preSave_id. reflexivity. }
  split; [rewrite Off; reflexivity |]. split.
  - unfold auth. callback_unfold. rewrite F1, A1. reflexivity.
  - split; [rewrite On; reflexivity |]. split; [| exact U].
    unfold auth. callback_unfold. rewrite U.
    rewrite (findBy_replaced _ id (User.preSave t) t _ F) by (rewrite preSave_id; exact K).
    assert (A2 : User.isActive (User.preSave t) = true)
      by (unfold User.preSave; rewrite E; exact A).
    rewrite A2. reflexivity.
Qed.

Lemma deactivation_locks_the_account_out_witness :
  let st := initialStore staff in
  let off := put_users_id_toggle_status anAdmin 3%nat st in
  let on := put_users_id_toggle_status anAdmin 3%nat (snd off) in
  fst off = Message 200 "User deactivated successfully"
  /\ auth (Decoded 3%nat) (snd off)
     = (Respond (Message 401 "Account is deactivated"), snd off)
  /\ fst on = Message 200 "User activated successfully"
  /\ auth (Decoded 3%nat) (snd on) = (Return anEmployee, snd on)
  /\ users (snd on) = replaceBy User._id anEmployee (users st).
Proof.
  refine (deactivation_locks_the_account_out anAdmin 3%nat (initialStore staff) anEmployee
            eq_refl eq_refl _ eq_refl eq_refl).
  discriminate.
Defined.

Lemma preSave_role_flags t r p :
  String.eqb (User.email t) User.FAILSAFE_EMAIL = false ->
  User.preSave (with_permissions p (with_role r t))
  = with_permissions (permissionsOfRole r) (with_role r t).
Proof.
  intros E. unfold User.preSave, with_permissions, with_role. cbn. rewrite E. reflexivity.
Qed.

Lemma role_written actor id r st t :
  User.role actor = admin ->
  findBy User._id id (users st) = Some t ->
  String.eqb (User.email t) User.FAILSAFE_EMAIL = false ->
  User_validate t = true ->
  let t' := with_permissions (permissionsOfRole r) (with_role r t) in
  put_users_id actor id (mkUserUpdate None None (Some r)) st
  = (inr t', with_users (replaceBy User._id t' (users st)) st).
Proof.
  intros R F E V t'. subst t'.
  unfold put_users_id. admin_unfold.
  rewrite R. cbn [existsb Role_eqb orb negb]. settle.
  cbn [u_firstName u_lastName u_role optionalTrimNotEmpty option_map].
  cbv beta iota zeta. rewrite F, E.
  destruct (Role_eqb r (User.role t)) eqn:Q; cbn [negb].
  - change (User_validate (with_role r t)) with (User_validate t). rewrite V. cbn [negb].
    rewrite <- (preSave_role_flags t r (User.permissions t) E).
    reflexivity.
  - change (User_validate (with_permissions (permissionsOfRole r) (with_role r t)))
      with (User_validate t).
    rewrite V. cbn [negb]. rewrite (preSave_role_flags t r _ E). reflexivity.
Qed.

(** X24.  A role change takes effect at the next request.  After an
    administrator sets the role of an active account through the update
    route, the stored flags are those of the new role, and a request
    with that account's token is let into exactly the routes of the new
    role: elsewhere it is answered 403 and changes nothing. *)
Theorem role_change_takes_effect :
  forall keep actor id r st t route,
    User.role actor = admin ->
    findBy User._id id (users st) = Some t ->
    User.email t <> User.FAILSAFE_EMAIL ->
    User_validate t = true ->
    User.isActive t = true ->
    (forall u, callerOf (route u) = u) ->
    let out := put_users_id actor id (mkUserUpdate None None (Some r)) st in
    exists t',
      fst out = inr t'
      /\ findBy User._id id (users (snd out)) = Some t'
      /\ User.role t' = r
      /\ User.permissions t' = permissionsOfRole r
      /\ if existsb (Role_eqb r) (rolesOf (route t'))
         then fst (authenticated keep (Decoded id) route (snd out)) <> AccessDenied
         else authenticated keep (Decoded id) route (snd out) = (AccessDenied, snd out).
Proof.
  intros keep actor id r st t route R F E V A C out.
  apply String.eqb_neq in E. subst out.
  rewrite (role_written actor id r st t R F E V). cbn [fst snd].
  set (t' := with_permissions (permissionsOfRole r) (with_role r t)).
  set (st' := with_users (replaceBy User._id t' (users st)) st).
  assert (F' : findBy User._id id (users st') = Some t').
  { unfold st'. users_simpl. eapply findBy_replaced; [exact F |].
    apply (findBy_key _ _ _ _ F). }
  exists t'. split; [reflexivity |]. split; [exact F' |].
  split; [reflexivity |]. split; [reflexivity |].
  assert (Au : authenticated keep (Decoded id) route st' = dispatch keep (route t') st').
  { unfold authenticated, auth. callback_unfold. rewrite F'.
    change (User.isActive t') with (User.isActive t). rewrite A. reflexivity. }
  rewrite Au.
  pose proof (guard_exact keep (route t') st') as G.
  rewrite (preSave_guard (with_role r t) (route t')) in G.
  - rewrite C in G. exact G.
  - rewrite C. unfold t'. symmetry. apply (preSave_role_flags t r (User.permissions t) E).
Qed.

Lemma role_change_takes_effect_witness :
  let route := fun u =>
    POST_handovers u (mkDirectBody (Some 0%nat) (Some 3%nat) 1 None None None None) in
  let out := put_users_id anAdmin 2%nat (mkUserUpdate None None (Some employee)) shop in
  isSuccess (fst (authenticated false (Decoded 2%nat) route shop)) = true
  /\ exists t',
       fst out = inr t'
       /\ findBy User._id 2%nat (users (snd out)) = Some t'
       /\ User.role t' = employee
       /\ User.permissions t' = permissionsOfRole employee
       /\ authenticated false (Decoded 2%nat) route (snd out) = (AccessDenied, snd out).
Proof.
  intros route out. split; [reflexivity |].
  refine (role_change_takes_effect false anAdmin 2%nat employee shop aManager route
            eq_refl eq_refl _ eq_refl eq_refl _).
  - discriminate.
  - reflexivity.
Defined.

(** X25.  A deleted account cannot authenticate: after an administrator
    deletes an account, any request with its token is answered 401 before
    a route runs, and changes nothing.  The handover records of the
    deleted account stay in the collection. *)
Theorem deleted_account_cannot_authenticate :
  forall keep actor id st t route,
    User.role actor = admin ->
    findBy User._id id (users st) = Some t ->
    User.email t <> User.FAILSAFE_EMAIL ->
    let out := delete_users_id actor id st in
    fst out = Message 200 "User deleted successfully"
    /\ authenticated keep (Decoded id) route (snd out)
       = (Message 401 "Token is not valid", snd out)
    /\ handovers (snd out) = handovers st.
Proof.
  intros keep actor id st t route R F E out. apply String.eqb_neq in E.
  assert (O : out = (Message 200 "User deleted successfully",
                     with_users (removeBy User._id id (users st)) st)).
  { subst out. unfold delete_users_id. admin_unfold.
    rewrite R. cbn [existsb Role_eqb orb negb]. rewrite F, E. reflexivity. }
  rewrite O. cbn [fst snd]. split; [reflexivity |]. split; [| reflexivity].
  unfold authenticated, auth. callback_unfold. users_simpl.
  rewrite findBy_removeBy_same. reflexivity.
Qed.

Lemma deleted_account_cannot_authenticate_witness :
  let st := shopAfterIssue false in
  let out := delete_users_id anAdmin 3%nat st in
  fst out = Message 200 "User deleted successfully"
  /\ authenticated false (Decoded 3%nat)
       (fun u => POST_handovers_id_return u 1%nat (whole 8) None) (snd out)
     = (Message 401 "Token is not valid", snd out)
  /\ handovers (snd out) = handovers st.
Proof.
  refine (deleted_account_cannot_authenticate false anAdmin 3%nat (shopAfterIssue false)
            anEmployee _ eq_refl eq_refl _).
  discriminate.
Defined.

(** X26.  For an account that went through [save()], the role gates of
    the middleware and the permission flags say the same: [adminOnly]
    lets through exactly the accounts with [canManageUsers], which are
    those for which [isAdmin] holds; [managerAndAbove] exactly those with
    [canManageProducts], for which [isManagerOrAbove] holds;
    [employeeAndAbove] lets every account through; and an administration
    request from an account that is not an administrator changes
    nothing. *)
Theorem role_gates_agree_with_flags :
  forall u st req,
    let saved := User.preSave u in
    passes (adminOnly saved) st = isAdmin saved
    /\ isAdmin saved = User.canManageUsers (User.permissions saved)
    /\ passes (managerAndAbove saved) st = isManagerOrAbove saved
    /\ isManagerOrAbove saved = User.canManageProducts (User.permissions saved)
    /\ passes (employeeAndAbove saved) st = true
    /\ passes (checkPermission User.canManageUsers saved) st = passes (adminOnly saved) st
    /\ (if isAdmin (senderOf req) then True else administer req st = st).
Proof.
  intros u st req saved. subst saved.
  unfold passes, adminOnly, managerAndAbove, employeeAndAbove, checkRole, checkPermission,
    isAdmin, isManagerOrAbove, User.preSave.
  repeat split.
  1-6: destruct (String.eqb _ _); cbn; destruct (User.role u); reflexivity.
  destruct (Role_eqb (User.role (senderOf req)) admin) eqn:Q; [exact I |].
  destruct req as [user id body | user email | user id | user id];
    cbn [senderOf] in Q; cbn [administer];
    [ unfold put_users_id | unfold post_users_fix_permissions
    | unfold delete_users_id | unfold put_users_id_toggle_status ];
    admin_unfold; cbn [existsb orb]; rewrite Q; reflexivity.
Qed.

(* ===================================================================== *)
(** ** Approval and returns, when they go through *)
(* ===================================================================== *)

(** X27.  Approving a pending request whose notes fit: when the product
    has less stock than the request asks for, the approval is refused and
    nothing changes; otherwise the record becomes handed over, issued by
    the approver at the time of the approval, and the stock goes down by
    exactly the requested quantity. *)
Theorem approval_hands_over_and_takes_stock :
  forall keep user id notes st h p,
    wf st = true ->
    User.canManageProducts (User.permissions user) = true ->
    optionalIsLength 500 notes = true ->
    findBy HandOver._id id (handovers st) = Some h ->
    HandOver.status h = pending ->
    findBy Product._id (HandOver.product h) (products st) = Some p ->
    slen (trim (approvedNotes user notes (HandOver.notes h))) <= 500 ->
    let out := post_handovers_id_approve keep user id notes st in
    if Product.quantity (Product.stock p) <? HandOver.quantity h
    then out = (InsufficientStock, st)
    else
      exists h',
        fst out = WithHandover 200 "Handover request approved successfully" h'
        /\ HandOver.status h' = handed_over
        /\ HandOver.handedOverBy h' = Some (User._id user)
        /\ HandOver.handOverDate h' = clock st
        /\ HandOver.quantity h' = HandOver.quantity h
        /\ findBy HandOver._id id (handovers (snd out)) = Some (HandOver.stored keep h')
        /\ stockOf (HandOver.product h) (snd out)
           = Product.quantity (Product.stock p) - HandOver.quantity h.
Proof.
  intros keep user id notes st h p W P V F S G Fit out. subst out.
  apply wf_sound in W.
  destruct (Product.quantity (Product.stock p) <? HandOver.quantity h) eqn:L.
  - apply Z.ltb_lt in L. eapply approve_insufficient; eassumption.
  - apply Z.ltb_ge in L.
    destruct (approve_commits keep user id notes st h p P V F S G L
                (WF_found_handover_valid _ _ _ W F) (WF_found_product_valid _ _ _ W G) Fit)
      as (h' & st' & E & A & B & C & D & K & M).
    rewrite E. cbn [fst snd]. exists h'. repeat (split; [assumption || reflexivity |]).
    exact M.
Qed.

Lemma approval_hands_over_and_takes_stock_witness :
  let out := post_handovers_id_approve false aManager 1%nat (Some "fine") shopWithRequest in
  stockOf 0%nat shopWithRequest = 10
  /\ exists h',
       fst out = WithHandover 200 "Handover request approved successfully" h'
       /\ HandOver.status h' = handed_over
       /\ HandOver.handedOverBy h' = Some 2%nat
       /\ HandOver.handOverDate h' = clock shopWithRequest
       /\ HandOver.quantity h' = 5
       /\ findBy HandOver._id 1%nat (handovers (snd out)) = Some (HandOver.stored false h')
       /\ stockOf 0%nat (snd out) = 10 - 5.
Proof.
  intros out. split; [reflexivity |].
  refine (approval_hands_over_and_takes_stock false aManager 1%nat (Some "fine")
            shopWithRequest _ _ eq_refl eq_refl eq_refl eq_refl eq_refl eq_refl _).
  vm_compute. discriminate.
Defined.

(** X28.  A manager's return of a handed-over record gives the stock back
    once: the record becomes returned, with the returning manager and the
    time, the stock goes up by the record's quantity, and a second return
    of the same record is refused and changes nothing. *)
Theorem manager_return_gives_stock_back_once :
  forall keep user id notes st h p again notes',
    wf st = true ->
    User.canManageProducts (User.permissions user) = true ->
    optionalIsLength 500 notes = true ->
    findBy HandOver._id id (handovers st) = Some h ->
    HandOver.status h = handed_over ->
    findBy Product._id (HandOver.product h) (products st) = Some p ->
    User.canManageProducts (User.permissions again) = true ->
    optionalIsLength 500 notes' = true ->
    let out := put_handovers_id_return keep user id notes st in
    (exists h',
       fst out = WithHandover 200 "Item returned successfully" h'
       /\ HandOver.status h' = returned
       /\ HandOver.returnedBy h' = Some (User._id user)
       /\ HandOver.actualReturnDate h' = Some (clock st))
    /\ stockOf (HandOver.product h) (snd out)
       = Product.quantity (Product.stock p) + HandOver.quantity h
    /\ put_handovers_id_return keep again id notes' (snd out) = (AlreadyReturned, snd out).
Proof.
  intros keep user id notes st h p again notes' W P V F S G P' V' out. subst out.
  apply wf_sound in W.
  assert (N : HandOver.status h <> returned) by (rewrite S; discriminate).
  destruct (manager_return_unless_returned keep user id notes st h p P V F N G
              (WF_found_handover_valid _ _ _ W F) (WF_found_product_valid _ _ _ W G))
    as (h' & st' & E & A & B & C & D & K).
  rewrite E. cbn [fst snd]. split; [exists h'; auto |]. split; [exact K |].
  eapply manager_return_already_returned; [exact P' | exact V' | exact D |].
  rewrite stored_status. exact A.
Qed.

Lemma manager_return_gives_stock_back_once_witness :
  let st := shopAfterIssue false in
  let out := put_handovers_id_return false aManager 1%nat (Some "all back") st in
  stockOf 0%nat st = 2
  /\ stockOf 0%nat (snd out) = 2 + 8
  /\ put_handovers_id_return false anAdmin 1%nat None (snd out) = (AlreadyReturned, snd out).
Proof.
  intros st out. split; [reflexivity |].
  refine (proj2 (manager_return_gives_stock_back_once false aManager 1%nat (Some "all back")
                   st _ _ anAdmin None eq_refl eq_refl eq_refl eq_refl eq_refl eq_refl
                   eq_refl eq_refl)).
Defined.

(** X29.  An employee who hands in the whole borrowed quantity, as a
    number, closes the record: it becomes returned, the stock goes up by
    that quantity, and a further return on the record, whatever its
    quantity, is refused as not active.  (The record carries no running
    total, or one that is a number and not negative.) *)
Theorem full_return_closes_the_record :
  forall keep user id notes st h p returnQuantity' notes',
    wf st = true ->
    User.canReturnHandover (User.permissions user) = true ->
    optionalIsLength 500 notes = true ->
    findBy HandOver._id id (handovers st) = Some h ->
    HandOver.status h = handed_over ->
    HandOver.employee h = User._id user ->
    tallied h = true ->
    findBy Product._id (HandOver.product h) (products st) = Some p ->
    isInt 1 returnQuantity' = true ->
    optionalIsLength 500 notes' = true ->
    let out :=
      post_handovers_id_return keep user id (whole (HandOver.quantity h)) notes st in
    (exists h',
       fst out = WithHandover 200 "Handover returned successfully" h'
       /\ HandOver.status h' = returned
       /\ HandOver.returnedBy h' = Some (User._id user)
       /\ findBy HandOver._id id (handovers (snd out)) = Some (HandOver.stored keep h'))
    /\ stockOf (HandOver.product h) (snd out)
       = Product.quantity (Product.stock p) + HandOver.quantity h
    /\ post_handovers_id_return keep user id returnQuantity' notes' (snd out)
       = (NotActive, snd out).
Proof.
  intros keep user id notes st h p v' notes' W P VN F S E T G Q' VN' out. subst out.
  apply wf_sound in W.
  pose proof (WF_found_handover_valid _ _ _ W F) as VH.
  pose proof (WF_found_product_valid _ _ _ W G) as VP.
  pose proof (findBy_key _ _ _ _ F) as K.
  pose proof (findBy_key _ _ _ _ G) as KP.
  pose proof (tally_nonneg h T) as TN.
  assert (VQ : 1 <= HandOver.quantity h)
    by (apply HandOver_validate_iff in VH; apply VH).
  rewrite (employee_return_step keep user id (whole (HandOver.quantity h))
             (HandOver.quantity h) notes st h p P VN F S E T G VH VP
             (isNumber_whole _)) by lia.
  destruct (afterReturn_facts keep user (HandOver.quantity h) notes (clock st) h T VQ)
    as (I' & _ & E' & _ & S' & _).
  assert (Closed : (HandOver.quantity h <=? tally h + HandOver.quantity h) = true)
    by (apply Z.leb_le; lia).
  rewrite Closed in S'.
  set (h' := afterReturn user (HandOver.quantity h) notes (clock st) h) in *.
  cbn [fst snd].
  assert (F' : findBy HandOver._id id
                 (replaceBy HandOver._id (HandOver.stored keep h') (handovers st))
               = Some (HandOver.stored keep h'))
    by (rewrite findBy_replaceBy, F, I', K, eqId_refl; reflexivity).
  split; [| split].
  - exists h'. split; [reflexivity |].
    split; [unfold h', afterReturn; rewrite Closed; reflexivity |].
    split; [unfold h', afterReturn; rewrite Closed; reflexivity |].
    store_simpl. exact F'.
  - unfold stockOf. store_simpl. rewrite findBy_replaceBy, G, touchRestocked_id.
    cbn [Product._id Product.set_quantity]. rewrite KP, eqId_refl, touchRestocked_quantity.
    reflexivity.
  - unfold post_handovers_id_return.
    callback_unfold. rewrite P, Q', VN'. settle. store_simpl. rewrite F'. settle.
    rewrite E', S'. apply eqId_true in E. rewrite E. reflexivity.
Qed.

Lemma full_return_closes_the_record_witness :
  let st := shopAfterIssue false in
  let out := post_handovers_id_return false anEmployee 1%nat (whole 8) (Some "done") st in
  stockOf 0%nat st = 2
  /\ map HandOver.status (handovers (snd out)) = [returned]
  /\ stockOf 0%nat (snd out) = 2 + 8
  /\ post_handovers_id_return false anEmployee 1%nat (Text "1") None (snd out)
     = (NotActive, snd out).
Proof.
  intros st out. split; [vm_compute; reflexivity |]. split; [vm_compute; reflexivity |].
  refine (proj2 (full_return_closes_the_record false anEmployee 1%nat (Some "done") st
                   _ _ (Text "1") None eq_refl eq_refl eq_refl eq_refl eq_refl eq_refl
                   eq_refl eq_refl eq_refl eq_refl)).
Defined.

(* ===================================================================== *)
(** ** The restock date *)
(* ===================================================================== *)

Lemma touchRestocked_changed now o p :
  Product.quantity (Product.stock o) <> Product.quantity (Product.stock p) ->
  touchRestocked now (Some o) p = Product.set_lastRestocked now p.
Proof.
  intros N. unfold touchRestocked. apply Z.eqb_neq in N. rewrite N. reflexivity.
Qed.

Lemma touchRestocked_unchanged now p :
  touchRestocked now (Some p) (Product.set_quantity (Product.quantity (Product.stock p)) p)
  = p.
Proof.
  unfold touchRestocked. cbn [Product.set_quantity Product.quantity Product.stock].
  rewrite Z.eqb_refl. destruct p as [i n nm [q mn mx l] c]. reflexivity.
Qed.

(** X30.  A successful stock adjustment that moves the stock stamps the
    product's restock date with the time of the request, whether stock was
    added or taken out: the save hook stamps the date whenever the quantity
    has changed.  A successful adjustment by nothing (the integer that
    [parseInt] reads from the quantity is zero, as for 0.5) leaves the
    product, and with it the date, as it was.  (The update route, which
    writes without the hook, leaves the date.) *)
Theorem stock_adjustment_stamps_the_restock_date :
  forall user id operation quantity st p,
    wf st = true ->
    User.canManageProducts (User.permissions user) = true ->
    findBy Product._id id (products st) = Some p ->
    let out := put_products_id_stock user id operation quantity st in
    isSuccess (fst out) = true ->
    exists n p',
      parseInt quantity = Some n
      /\ findBy Product._id id (products (snd out)) = Some p'
      /\ Product.productId p' = Product.productId p
      /\ (n <> 0 ->
            Product.lastRestocked (Product.stock p') = clock st
            /\ Product.quantity (Product.stock p') <> Product.quantity (Product.stock p))
      /\ (n = 0 -> p' = p).
Proof.
  intros user id operation quantity st p W P F out. subst out.
  apply wf_sound in W.
  pose proof (findBy_key _ _ _ _ F) as K.
  pose proof (stock_adjust_cases user id operation quantity st p W P F) as C.
  cbv zeta in C.
  destruct (negb (String.eqb operation "add" || String.eqb operation "subtract"));
    [rewrite C; discriminate |].
  destruct (notPositive quantity); [rewrite C; discriminate |].
  destruct (parseInt quantity) as [n |]; [| rewrite C; discriminate].
  set (target := if String.eqb operation "add"
                 then Product.quantity (Product.stock p) + n
                 else Product.quantity (Product.stock p) - n) in *.
  destruct (target <? 0).
  { rewrite C. destruct (String.eqb operation "add"); discriminate. }
  rewrite C. cbn [fst snd]. intros _. store_simpl.
  rewrite findBy_replaceBy, F, touchRestocked_id. cbn [Product._id Product.set_quantity].
  rewrite K, eqId_refl.
  exists n. eexists. split; [reflexivity |]. split; [reflexivity |].
  split; [rewrite touchRestocked_productId; reflexivity |]. split.
  - intros N.
    assert (D : Product.quantity (Product.stock p) <> target)
      by (unfold target; destruct (String.eqb operation "add"); lia).
    rewrite touchRestocked_changed by (cbn; exact D).
    cbn. split; [reflexivity | intros E; apply D; symmetry; exact E].
  - intros N.
    assert (D : target = Product.quantity (Product.stock p))
      by (unfold target; destruct (String.eqb operation "add"); lia).
    rewrite D. apply touchRestocked_unchanged.
Qed.

Lemma stock_adjustment_stamps_the_restock_date_witness :
  let st := tick (tick shop) in
  let out := put_products_id_stock aManager 0%nat "subtract" (whole 4) st in
  let idle := put_products_id_stock aManager 0%nat "add" (Number (1 # 2)) st in
  clock st = 3%nat
  /\ (exists p',
        findBy Product._id 0%nat (products (snd out)) = Some p'
        /\ Product.lastRestocked (Product.stock p') = clock st
        /\ Product.quantity (Product.stock p') <> 10)
  /\ fst idle = Message 200 "Stock added successfully"
  /\ findBy Product._id 0%nat (products (snd idle)) = findBy Product._id 0%nat (products st).
Proof.
  intros st out idle. split; [vm_compute; reflexivity |].
  assert (W : wf st = true) by (vm_compute; reflexivity).
  assert (F : findBy Product._id 0%nat (products st) = Some
                (Product.mk 0%nat 1 "Drill" (Product.mkStock 10 0 1000 0%nat) 0%nat))
    by (vm_compute; reflexivity).
  assert (S : isSuccess (fst out) = true) by (vm_compute; reflexivity).
  assert (S' : isSuccess (fst idle) = true) by (vm_compute; reflexivity).
  destruct (stock_adjustment_stamps_the_restock_date aManager 0%nat "subtract" (whole 4)
              st _ W eq_refl F S) as (n & p' & E & F' & _ & Moved & _).
  destruct (stock_adjustment_stamps_the_restock_date aManager 0%nat "add" (Number (1 # 2))
              st _ W eq_refl F S') as (n0 & p0 & E0 & F0 & _ & _ & Idle).
  split; [| split; [vm_compute; reflexivity |]].
  - exists p'. split; [exact F' |]. apply Moved.
    vm_compute in E. inversion E. discriminate.
  - fold idle in F0. rewrite F0, F. f_equal. apply Idle.
    vm_compute in E0. inversion E0. reflexivity.
Defined.
